(** * be-cognicare: tenant scoping, scheduling and membership rules

    A shallow embedding of the request handlers of the CogniCare backend
    (Express controllers over a Prisma store) and the properties of the
    design document that concern them.

    A handler [h] of the source, [async (req, res) => ...], becomes a function
    from the store and the parts of [req] it reads to the response it sends
    and the store it leaves.  The body of a handler runs inside [try]; a
    thrown exception is modelled by the response of its [catch] block.
    [req.user.userId] is an input of each controller, [new Date()] is the
    input [now] (milliseconds since the epoch). *)

From Stdlib Require Import ZArith Lia.
From stdpp Require Import base option list strings gmap sorting.

Local Open Scope string_scope.
Local Open Scope Z_scope.

(** ** JavaScript values as the handlers use them *)

(** Truthiness of an optional string ([undefined] and the empty string are
    falsy): [if (doctor)], [if (status && ...)], [if (phone && ...)].  The
    result is the string when it is truthy. *)
Definition truthy_str (s : option string) : option string :=
  match s with
  | Some s => if bool_decide (s = "") then None else Some s
  | None => None
  end.

(** [n || d] on an optional number: [undefined] and [0] give [d]. *)
Definition num_or (n : option Z) (d : Z) : Z :=
  match n with
  | Some z => if bool_decide (z = 0) then d else z
  | None => d
  end.

(** [a || b] on an optional string. *)
Definition str_or (a : option string) (b : string) : string :=
  match a with
  | Some s => if bool_decide (s = "") then b else s
  | None => b
  end.

(** [Array.prototype.includes] on strings. *)
Definition includes (l : list string) (s : string) : bool :=
  bool_decide (s ∈ l).

(** A parsed JSON document, as [req.body.backupData] is. *)
#[local] Set Warnings "-register-all".
Inductive JsValue :=
| JUndefined
| JNull
| JBool (b : bool)
| JNum (z : Z)
| JStr (s : string)
| JArr (l : list JsValue)
| JObj (fields : list (string * JsValue)).
#[local] Set Warnings "register-all".

Definition truthy (v : JsValue) : bool :=
  match v with
  | JUndefined | JNull => false
  | JBool b => b
  | JNum z => negb (bool_decide (z = 0))
  | JStr s => negb (bool_decide (s = ""))
  | JArr _ | JObj _ => true
  end.

Fixpoint assoc_get (k : string) (fields : list (string * JsValue)) : JsValue :=
  match fields with
  | [] => JUndefined
  | (k', v) :: rest => if bool_decide (k' = k) then v else assoc_get k rest
  end.

(** Property read [v.k] for a key that no prototype defines. *)
Definition js_get (v : JsValue) (k : string) : JsValue :=
  match v with
  | JObj fields => assoc_get k fields
  | _ => JUndefined
  end.

(** [v?.length]; a string is taken to be ASCII, for which the characters
    counted here are the UTF-16 units that the code counts. *)
Definition js_length (v : JsValue) : JsValue :=
  match v with
  | JArr l => JNum (Z.of_nat (length l))
  | JStr s => JNum (Z.of_nat (String.length s))
  | JObj fields => assoc_get "length" fields
  | _ => JUndefined
  end.

(** [a || b] *)
Definition js_or (a b : JsValue) : JsValue := if truthy a then a else b.

(** ** The store *)

Definition ADMIN := "ADMIN".
Definition DOCTOR := "DOCTOR".
Definition STAFF := "STAFF".

Definition SCHEDULED := "SCHEDULED".
Definition CONFIRMED := "CONFIRMED".
Definition IN_PROGRESS := "IN_PROGRESS".
Definition COMPLETED := "COMPLETED".
Definition CANCELLED := "CANCELLED".
Definition NO_SHOW := "NO_SHOW".

(** Each table maps the primary key [id] to the rest of the row. *)

Module Organization.
Record t := mk {
  name : string;
  address : option string }.
End Organization.

Module User.
Record t := mk {
  email : string;
  role : string;
  organizationId : option string;
  isEmailVerified : bool }.
End User.

Module Clinic.
Record t := mk {
  name : string;
  organizationId : string }.
End Clinic.

Module Patient.
Record t := mk {
  name : string;
  phone : string;
  clinicId : string }.
End Patient.

Module Appointment.
Record t := mk {
  patientId : string;
  doctorId : string;
  clinicId : string;
  appointmentDate : Z;
  duration : Z;
  notes : option string;
  status : string }.
End Appointment.

Module EHRRecord.
Record t := mk {
  patientId : string;
  doctorId : string;
  diagnosis : option string }.
End EHRRecord.

Module Invite.
Record t := mk {
  email : string;
  token : string;
  role : string;
  organizationId : string;
  invitedBy : string;
  expiresAt : Z;
  isUsed : bool }.
End Invite.

Module OrganizationAddOn.
Record t := mk {
  organizationId : string;
  addOnId : string;
  isActive : bool;
  usageCount : Z }.
End OrganizationAddOn.

Module Subscription.
Record t := mk {
  organizationId : string;
  razorpaySubscriptionId : string;
  amount : Z;
  status : string;
  endDate : option Z }.
End Subscription.

Module Backup.
Record t := mk {
  organizationId : string;
  type : string;
  fileUrl : string;
  createdBy : string }.
End Backup.

Record Db := mkDb {
  organizations : gmap string Organization.t;
  users : gmap string User.t;
  clinics : gmap string Clinic.t;
  patients : gmap string Patient.t;
  appointments : gmap string Appointment.t;
  ehrRecords : gmap string EHRRecord.t;
  invites : gmap string Invite.t;
  organizationAddOns : gmap string OrganizationAddOn.t;
  subscriptions : gmap string Subscription.t;
  backups : gmap string Backup.t }.

Definition set_users (db : Db) (m : gmap string User.t) : Db :=
  mkDb (organizations db) m (clinics db) (patients db) (appointments db)
       (ehrRecords db) (invites db) (organizationAddOns db)
       (subscriptions db) (backups db).

Definition set_patients (db : Db) (m : gmap string Patient.t) : Db :=
  mkDb (organizations db) (users db) (clinics db) m (appointments db)
       (ehrRecords db) (invites db) (organizationAddOns db)
       (subscriptions db) (backups db).

Definition set_appointments (db : Db) (m : gmap string Appointment.t) : Db :=
  mkDb (organizations db) (users db) (clinics db) (patients db) m
       (ehrRecords db) (invites db) (organizationAddOns db)
       (subscriptions db) (backups db).

Definition set_invites (db : Db) (m : gmap string Invite.t) : Db :=
  mkDb (organizations db) (users db) (clinics db) (patients db)
       (appointments db) (ehrRecords db) m (organizationAddOns db)
       (subscriptions db) (backups db).

Definition set_organizationAddOns (db : Db)
    (m : gmap string OrganizationAddOn.t) : Db :=
  mkDb (organizations db) (users db) (clinics db) (patients db)
       (appointments db) (ehrRecords db) (invites db) m
       (subscriptions db) (backups db).

Definition set_subscriptions (db : Db) (m : gmap string Subscription.t) : Db :=
  mkDb (organizations db) (users db) (clinics db) (patients db)
       (appointments db) (ehrRecords db) (invites db) (organizationAddOns db)
       m (backups db).

Definition set_backups (db : Db) (m : gmap string Backup.t) : Db :=
  mkDb (organizations db) (users db) (clinics db) (patients db)
       (appointments db) (ehrRecords db) (invites db) (organizationAddOns db)
       (subscriptions db) m.

(** *** Queries *)

Section Queries.
Context {A : Type}.

(** [findMany({ where })]: the rows that satisfy [where], in the order the
    table enumerates them. *)
Definition findMany (where_ : string → A → bool) (m : gmap string A)
  : list (string * A) :=
  filter (λ kv, where_ kv.1 kv.2 = true) (map_to_list m).

(** [findFirst({ where })]: a row that satisfies [where], or [null]. *)
Definition findFirst (where_ : string → A → bool) (m : gmap string A)
  : option (string * A) :=
  head (findMany where_ m).

(** [count({ where })]. *)
Definition count (where_ : string → A → bool) (m : gmap string A) : Z :=
  Z.of_nat (length (findMany where_ m)).

(** [updateMany({ where, data })]. *)
Definition updateMany (where_ : A → bool) (data : A → A) (m : gmap string A)
  : gmap string A :=
  (λ row, if where_ row then data row else row) <$> m.
End Queries.

(** ** Responses *)

Inductive Body :=
| ErrorBody (error : string)
| ErrorCodeBody (error : string) (code : string)
| DuplicatePatientBody (error : string) (existingPatient : string * string * string)
| MessageBody (message : string)
| PatientBody (id : string) (patient : Patient.t)
| ClinicBody (id : string) (clinic : Clinic.t)
| AppointmentBody (id : string) (appointment : Appointment.t)
| AppointmentsBody (appointments : list (string * Appointment.t))
| EHRRecordBody (id : string) (ehrRecord : EHRRecord.t)
| JoinedBody (message : string) (organizationId : string)
| RestoredBody (message : string)
    (restoredRecords : JsValue * JsValue * JsValue) (restorePointId : string)
| StatusBody (status : string).

Record Response := mkResponse { status : nat; body : Body }.

Definition json (code : nat) (b : Body) : Response := mkResponse code b.

(** A body that carries no row of the store. *)
Definition carries_no_entity (b : Body) : bool :=
  match b with
  | ErrorBody _ | ErrorCodeBody _ _ | MessageBody _ | StatusBody _ => true
  | _ => false
  end.

(** [user.organization] of
    [findUnique({ where: { id }, include: { organization: true } })]:
    the row that [organizationId] refers to, or [null]. *)
Definition organization (db : Db) (u : User.t)
    : option (string * Organization.t) :=
  id ← User.organizationId u;
  row ← organizations db !! id;
  Some (id, row).

(** Early returns of a handler: [if (c) return r; k] and
    [const x = e; if (!x) return r; k]. *)
Notation "'return_if' c 'then' r ; k" := (if c then r else k)
  (at level 10, c at level 99, r at level 99, k at level 200,
   format "'[v' 'return_if'  c  'then'  r ; '/' k ']'").
Notation "'let?' x := e 'else' r ; k" :=
  (match e with Some x => k | None => r end)
  (at level 10, x pattern, e at level 99, r at level 99, k at level 200,
   format "'[v' 'let?'  x  :=  e  'else'  r ; '/' k ']'").

(** An absent condition of a [where] object constrains nothing. *)
Definition holds {A} (c : option A) (test : A → bool) : bool :=
  match c with
  | Some x => test x
  | None => true
  end.

(** The relation filter [clinic: { organizationId }] on a row that refers to
    a clinic by [clinicId]. *)
Definition clinic_in (db : Db) (clinicId orgId : string) : bool :=
  match clinics db !! clinicId with
  | Some c => bool_decide (Clinic.organizationId c = orgId)
  | None => false
  end.

(** The relation filter [patient: { clinic: { organizationId } }]. *)
Definition patient_in (db : Db) (patientId orgId : string) : bool :=
  match patients db !! patientId with
  | Some p => clinic_in db (Patient.clinicId p) orgId
  | None => false
  end.

(** ** controllers/appointments.controller.js *)

(** The [whereConditions] object of the appointment handlers; a later
    assignment to a key replaces the earlier one. *)
Record AppointmentWhere := mkWhere {
  w_id : option string;
  w_clinic_organizationId : option string;
  w_doctorId : option string;
  w_appointmentDate : option (Z * Z);   (* { gte, lt } *)
  w_clinicId : option string;
  w_status : option string }.

Definition where_org (id : option string) (orgId : string) : AppointmentWhere :=
  mkWhere id (Some orgId) None None None None.

Definition with_doctorId (w : AppointmentWhere) (d : string) :=
  mkWhere (w_id w) (w_clinic_organizationId w) (Some d) (w_appointmentDate w)
          (w_clinicId w) (w_status w).

Definition with_appointmentDate (w : AppointmentWhere) (r : Z * Z) :=
  mkWhere (w_id w) (w_clinic_organizationId w) (w_doctorId w) (Some r)
          (w_clinicId w) (w_status w).

Definition with_clinicId (w : AppointmentWhere) (c : string) :=
  mkWhere (w_id w) (w_clinic_organizationId w) (w_doctorId w)
          (w_appointmentDate w) (Some c) (w_status w).

Definition with_status (w : AppointmentWhere) (s : string) :=
  mkWhere (w_id w) (w_clinic_organizationId w) (w_doctorId w)
          (w_appointmentDate w) (w_clinicId w) (Some s).

(** The rows a [whereConditions] object selects. *)
Definition matches (db : Db) (w : AppointmentWhere)
    (id : string) (a : Appointment.t) : bool :=
  holds (w_id w) (λ i, bool_decide (id = i))
  && holds (w_clinic_organizationId w) (clinic_in db (Appointment.clinicId a))
  && holds (w_doctorId w) (λ d, bool_decide (Appointment.doctorId a = d))
  && holds (w_appointmentDate w)
       (λ r, bool_decide (r.1 ≤ Appointment.appointmentDate a)
             && bool_decide (Appointment.appointmentDate a < r.2))
  && holds (w_clinicId w) (λ c, bool_decide (Appointment.clinicId a = c))
  && holds (w_status w) (λ s, bool_decide (Appointment.status a = s)).

(** [req.query] of [GET /api/appointments].  [date] holds the instant that
    [new Date(date)] denotes. *)
Record AppointmentsQuery := mkQuery {
  q_date : option Z;
  q_doctor : option string;
  q_clinic : option string;
  q_status : option string }.

(** [endDate.setDate(endDate.getDate() + 1)]: the same wall-clock time on the
    next calendar day, 24 hours later where no clock change falls between. *)
Definition one_day : Z := 24 * 60 * 60 * 1000.

(** [orderBy: { appointmentDate: 'asc' }] *)
Definition by_appointmentDate (x y : string * Appointment.t) : Prop :=
  Appointment.appointmentDate x.2 ≤ Appointment.appointmentDate y.2.

#[local] Instance by_appointmentDate_dec x y : Decision (by_appointmentDate x y).
Proof. unfold by_appointmentDate. apply _. Defined.

(** The [whereConditions] that [getAppointments] builds, step by step. *)
Definition getAppointments_where (userId : string) (user : User.t)
    (orgId : string) (q : AppointmentsQuery) : AppointmentWhere :=
  let w := where_org None orgId in
  (* Apply role-based filtering *)
  let w := if bool_decide (User.role user = DOCTOR)
           then with_doctorId w userId else w in
  (* Filter by date *)
  let w := match q_date q with
           | Some startDate => with_appointmentDate w (startDate, startDate + one_day)
           | None => w
           end in
  (* Filter by doctor *)
  let w := match truthy_str (q_doctor q) with
           | Some doctor => with_doctorId w doctor
           | None => w
           end in
  (* Filter by clinic *)
  let w := match truthy_str (q_clinic q) with
           | Some clinic => with_clinicId w clinic
           | None => w
           end in
  (* Filter by status *)
  let w := match truthy_str (q_status q) with
           | Some status => with_status w status
           | None => w
           end in
  w.

Definition getAppointments (db : Db) (userId : string) (q : AppointmentsQuery)
    : Response :=
  let? user := users db !! userId
    else json 500 (ErrorBody "Failed to fetch appointments");
  let? (orgId, _) := organization db user
    else json 404 (ErrorBody "Organization not found");
  let whereConditions := getAppointments_where userId user orgId q in
  json 200 (AppointmentsBody
    (merge_sort by_appointmentDate
       (findMany (matches db whereConditions) (appointments db)))).

(** The [whereConditions] of the by-id handlers. *)
Definition scoped_where (id userId : string) (user : User.t) (orgId : string)
    : AppointmentWhere :=
  let w := where_org (Some id) orgId in
  if bool_decide (User.role user = DOCTOR) then with_doctorId w userId else w.

Definition getAppointmentById (db : Db) (userId id : string) : Response :=
  let? user := users db !! userId
    else json 404 (ErrorBody "Appointment not found");
  let? (orgId, _) := organization db user
    else json 404 (ErrorBody "Organization not found");
  let? appointment :=
      findFirst (matches db (scoped_where id userId user orgId)) (appointments db)
    else json 404 (ErrorBody "Appointment not found");
  json 200 (AppointmentBody appointment.1 appointment.2).

(** The scheduling-conflict query of [createAppointment] and
    [updateAppointment]: same doctor, start inside
    [start - minutes, start + minutes] (both ends included), status
    SCHEDULED or CONFIRMED; [exclude] is the [id: { not: id }] of the update. *)
Definition conflicts (doctorId : string) (exclude : option string)
    (start minutes : Z) (id : string) (a : Appointment.t) : bool :=
  bool_decide (Appointment.doctorId a = doctorId)
  && holds exclude (λ i, negb (bool_decide (id = i)))
  && bool_decide (start - minutes * 60 * 1000 ≤ Appointment.appointmentDate a)
  && bool_decide (Appointment.appointmentDate a ≤ start + minutes * 60 * 1000)
  && includes [SCHEDULED; CONFIRMED] (Appointment.status a).

(** A [Date] holds a time value of at most 8.64e15 ms on either side of the
    epoch; [new Date(ms)] beyond that is an Invalid Date, and a query that is
    given one as a bound throws.  The code adds in doubles: the start is an
    integer below 2^53 and [minutes * 60 * 1000] a multiple of 32, so a
    bound that the code finds within the range is the integer found here,
    and one that it finds beyond the range is beyond it here. *)
Definition max_time : Z := 8640000000000000.

Definition valid_time (ms : Z) : bool :=
  bool_decide (- max_time ≤ ms ≤ max_time).

(** Both bounds of the conflict query are Dates. *)
Definition valid_window (start minutes : Z) : bool :=
  valid_time (start - minutes * 60 * 1000)
  && valid_time (start + minutes * 60 * 1000).

Record CreateAppointmentBody := mkCreateAppointment {
  c_patientId : string;
  c_doctorId : string;
  c_clinicId : string;
  c_appointmentDate : Z;
  c_duration : option Z;
  c_notes : option string }.

Definition conflict_error :=
  json 400 (ErrorBody "Doctor has a conflicting appointment at this time").

Definition cancelled_response :=
  json 200 (MessageBody "Appointment cancelled successfully").

Definition invalid_status_error :=
  json 400 (ErrorBody "Invalid appointment status").

Definition not_future_error :=
  json 400 (ErrorBody "Appointment must be scheduled for a future date and time").

(** [newId] is the key the store gives the created row; [thrown] is the
    answer of the [catch]. *)
Definition createAppointment (db : Db) (userId : string)
    (b : CreateAppointmentBody) (now : Z) (newId : string) : Response * Db :=
  let thrown := json 500 (ErrorBody "Failed to create appointment") in
  let? user := users db !! userId else (thrown, db);
  let? (orgId, _) := organization db user
    else (json 404 (ErrorBody "Organization not found"), db);
  (* Validate patient belongs to organization *)
  let? patient :=
      findFirst (λ id p, bool_decide (id = c_patientId b)
                         && clinic_in db (Patient.clinicId p) orgId)
                (patients db)
    else (json 400 (ErrorBody "Invalid patient selected"), db);
  (* Validate doctor belongs to organization *)
  let? doctor :=
      findFirst (λ id u, bool_decide (id = c_doctorId b)
                         && bool_decide (User.organizationId u = Some orgId)
                         && bool_decide (User.role u = DOCTOR))
                (users db)
    else (json 400 (ErrorBody "Invalid doctor selected"), db);
  (* Validate clinic belongs to organization *)
  let? clinic :=
      findFirst (λ id c, bool_decide (id = c_clinicId b)
                         && bool_decide (Clinic.organizationId c = orgId))
                (clinics db)
    else (json 400 (ErrorBody "Invalid clinic selected"), db);
  (* Validate appointment time (future date) *)
  let appointmentDateTime := c_appointmentDate b in
  return_if bool_decide (appointmentDateTime ≤ now) then (not_future_error, db);
  (* Check for scheduling conflicts *)
  return_if negb (valid_window appointmentDateTime (num_or (c_duration b) 30))
    then (thrown, db);
  let conflictingAppointment :=
    findFirst (conflicts (c_doctorId b) None appointmentDateTime
                 (num_or (c_duration b) 30))
              (appointments db) in
  return_if bool_decide (is_Some conflictingAppointment) then (conflict_error, db);
  (* Create appointment *)
  let appointment :=
    Appointment.mk (c_patientId b) (c_doctorId b) (c_clinicId b)
      appointmentDateTime (num_or (c_duration b) 30) (c_notes b) SCHEDULED in
  (json 201 (AppointmentBody newId appointment),
   set_appointments db (<[newId := appointment]> (appointments db))).

Record UpdateAppointmentBody := mkUpdateAppointment {
  u_patientId : option string;
  u_doctorId : option string;
  u_clinicId : option string;
  u_appointmentDate : option Z;
  u_duration : option Z;
  u_notes : option string;
  u_status : option string }.

Definition valid_statuses : list string :=
  [SCHEDULED; CONFIRMED; IN_PROGRESS; COMPLETED; CANCELLED; NO_SHOW].

(** The [data] of the update: a key that is [undefined] leaves the column. *)
Definition update_data (b : UpdateAppointmentBody) (a : Appointment.t)
    : Appointment.t :=
  Appointment.mk
    (default (Appointment.patientId a) (u_patientId b))
    (default (Appointment.doctorId a) (u_doctorId b))
    (default (Appointment.clinicId a) (u_clinicId b))
    (default (Appointment.appointmentDate a) (u_appointmentDate b))
    (default (Appointment.duration a) (u_duration b))
    (match u_notes b with Some n => Some n | None => Appointment.notes a end)
    (default (Appointment.status a) (u_status b)).

(** The rows that the written foreign keys must refer to: [patient],
    [doctor] and [clinic] are relations of an appointment (the handlers join
    on them), and the store refuses a key that refers to no row. *)
Definition references_exist (db : Db) (b : UpdateAppointmentBody) : bool :=
  holds (u_patientId b) (λ i, bool_decide (is_Some (patients db !! i)))
  && holds (u_doctorId b) (λ i, bool_decide (is_Some (users db !! i)))
  && holds (u_clinicId b) (λ i, bool_decide (is_Some (clinics db !! i))).

(** [prisma.appointment.update({ where: { id }, data })]; [None] when the
    store throws. *)
Definition appointment_update (db : Db) (id : string)
    (b : UpdateAppointmentBody) : option Db :=
  if bool_decide (is_Some (appointments db !! id)) && references_exist db b
  then Some (set_appointments db (alter (update_data b) id (appointments db)))
  else None.

(** The request carries [appointmentDate] as a string and the row holds a
    [Date], so [appointmentDate !== existingAppointment.appointmentDate]
    holds for every truthy [appointmentDate]: the time checks run whenever
    the body has one.  [thrown] is the answer of the [catch]. *)
Definition updateAppointment (db : Db) (userId id : string)
    (b : UpdateAppointmentBody) (now : Z) : Response * Db :=
  let thrown := json 404 (ErrorBody "Appointment not found") in
  let? user := users db !! userId else (thrown, db);
  let? (orgId, _) := organization db user
    else (json 404 (ErrorBody "Organization not found"), db);
  let? existingAppointment :=
      findFirst (matches db (scoped_where id userId user orgId)) (appointments db)
    else (json 404 (ErrorBody "Appointment not found"), db);
  (* Validate status changes *)
  return_if match truthy_str (u_status b) with
            | Some status => negb (includes valid_statuses status)
            | None => false
            end
    then (invalid_status_error, db);
  (* Check for conflicts if appointment time is being changed *)
  let time_check : option Response :=
    match u_appointmentDate b with
    | Some appointmentDateTime =>
        if bool_decide (appointmentDateTime ≤ now) then Some not_future_error
        else if negb (valid_window appointmentDateTime
                        (num_or (u_duration b)
                           (Appointment.duration existingAppointment.2)))
        then Some thrown
        else
          let conflictingAppointment :=
            findFirst
              (conflicts
                 (str_or (u_doctorId b) (Appointment.doctorId existingAppointment.2))
                 (Some id) appointmentDateTime
                 (num_or (u_duration b) (Appointment.duration existingAppointment.2)))
              (appointments db) in
          if bool_decide (is_Some conflictingAppointment)
          then Some conflict_error else None
    | None => None
    end in
  match time_check with
  | Some rejection => (rejection, db)
  | None =>
      (* Update appointment *)
      let? db' := appointment_update db id b else (thrown, db);
      (json 200 (AppointmentBody id (update_data b existingAppointment.2)), db')
  end.

Definition past_error := json 400 (ErrorBody "Cannot cancel past appointments").
Definition finalized_error :=
  json 400 (ErrorBody "Appointment is already completed or cancelled").

Definition cancel (a : Appointment.t) : Appointment.t :=
  Appointment.mk (Appointment.patientId a) (Appointment.doctorId a)
    (Appointment.clinicId a) (Appointment.appointmentDate a)
    (Appointment.duration a) (Appointment.notes a) CANCELLED.

Definition deleteAppointment (db : Db) (userId id : string) (now : Z)
    : Response * Db :=
  let? user := users db !! userId
    else (json 400 (ErrorBody "Cannot cancel appointment"), db);
  let? (orgId, _) := organization db user
    else (json 404 (ErrorBody "Organization not found"), db);
  let? appointment :=
      findFirst (matches db (scoped_where id userId user orgId)) (appointments db)
    else (json 404 (ErrorBody "Appointment not found"), db);
  (* Check if appointment can be cancelled *)
  return_if bool_decide (Appointment.appointmentDate appointment.2 ≤ now)
    then (past_error, db);
  return_if includes [COMPLETED; CANCELLED] (Appointment.status appointment.2)
    then (finalized_error, db);
  (* Update status to CANCELLED *)
  (cancelled_response,
   set_appointments db (alter cancel id (appointments db))).

(** ** controllers/patients.controller.js *)

Definition is_digit (c : Ascii.ascii) : bool :=
  bool_decide (48 ≤ Ascii.nat_of_ascii c ≤ 57)%nat.

(** [/^[6-9]\d{9}$/.test(phone)] *)
Definition phoneRegex_test (phone : string) : bool :=
  match phone with
  | String c rest =>
      bool_decide (54 ≤ Ascii.nat_of_ascii c ≤ 57)%nat
      && bool_decide (String.length rest = 9%nat)
      && forallb is_digit (String.list_ascii_of_string rest)
  | EmptyString => false
  end.

Definition invalid_phone_error :=
  json 400 (ErrorBody
    "Invalid phone number format. Please enter a valid 10-digit Indian mobile number.").

Record CreatePatientBody := mkCreatePatient {
  cp_name : string;
  cp_phone : string;
  cp_clinicId : string }.

Definition createPatient (db : Db) (userId : string) (b : CreatePatientBody)
    (newId : string) : Response * Db :=
  let? user := users db !! userId
    else (json 500 (ErrorBody "Failed to create patient"), db);
  let? (orgId, _) := organization db user
    else (json 404 (ErrorBody "Organization not found"), db);
  (* Validate phone number format *)
  return_if negb (phoneRegex_test (cp_phone b)) then (invalid_phone_error, db);
  (* Check for duplicate phone number within organization *)
  let existingPatient :=
    findFirst (λ _ p, bool_decide (Patient.phone p = cp_phone b)
                      && clinic_in db (Patient.clinicId p) orgId)
              (patients db) in
  match existingPatient with
  | Some existing =>
      (json 400 (DuplicatePatientBody
                   "Patient with this phone number already exists"
                   (existing.1, Patient.name existing.2, Patient.phone existing.2)),
       db)
  | None =>
      (* Validate clinic belongs to organization *)
      let? clinic :=
          findFirst (λ id c, bool_decide (id = cp_clinicId b)
                             && bool_decide (Clinic.organizationId c = orgId))
                    (clinics db)
        else (json 400 (ErrorBody "Invalid clinic selected"), db);
      (* Create patient *)
      let patient := Patient.mk (cp_name b) (cp_phone b) (cp_clinicId b) in
      (json 201 (PatientBody newId patient),
       set_patients db (<[newId := patient]> (patients db)))
  end.

Definition getPatientById (db : Db) (userId id : string) : Response :=
  let? user := users db !! userId
    else json 404 (ErrorBody "Patient not found");
  let? (orgId, _) := organization db user
    else json 404 (ErrorBody "Organization not found");
  let? patient :=
      findFirst (λ k p, bool_decide (k = id)
                        && clinic_in db (Patient.clinicId p) orgId)
                (patients db)
    else json 404 (ErrorBody "Patient not found");
  json 200 (PatientBody patient.1 patient.2).

Record UpdatePatientBody := mkUpdatePatient {
  up_name : option string;
  up_phone : option string;
  up_clinicId : option string }.

Definition duplicate_phone_error :=
  json 400 (ErrorBody "Another patient with this phone number already exists").

Definition patient_data (b : UpdatePatientBody) (p : Patient.t) : Patient.t :=
  Patient.mk (default (Patient.name p) (up_name b))
             (default (Patient.phone p) (up_phone b))
             (default (Patient.clinicId p) (up_clinicId b)).

(** [prisma.patient.update({ where: { id }, data })]; [None] when the store
    throws: no such row, or a [clinicId] that refers to no clinic. *)
Definition patient_update (db : Db) (id : string) (b : UpdatePatientBody)
    : option Db :=
  if bool_decide (is_Some (patients db !! id))
     && holds (up_clinicId b) (λ c, bool_decide (is_Some (clinics db !! c)))
  then Some (set_patients db (alter (patient_data b) id (patients db)))
  else None.

Definition updatePatient (db : Db) (userId id : string) (b : UpdatePatientBody)
    : Response * Db :=
  let? user := users db !! userId
    else (json 404 (ErrorBody "Patient not found"), db);
  let? (orgId, _) := organization db user
    else (json 404 (ErrorBody "Organization not found"), db);
  let? existingPatient :=
      findFirst (λ k p, bool_decide (k = id)
                        && clinic_in db (Patient.clinicId p) orgId)
                (patients db)
    else (json 404 (ErrorBody "Patient not found"), db);
  (* If phone is being updated, check for duplicates *)
  let phone_check : option Response :=
    match truthy_str (up_phone b) with
    | Some phone =>
        if bool_decide (phone ≠ Patient.phone existingPatient.2) then
          if negb (phoneRegex_test phone) then Some invalid_phone_error
          else
            let duplicatePatient :=
              findFirst (λ k p, bool_decide (Patient.phone p = phone)
                                && negb (bool_decide (k = id))
                                && clinic_in db (Patient.clinicId p) orgId)
                        (patients db) in
            if bool_decide (is_Some duplicatePatient)
            then Some duplicate_phone_error else None
        else None
    | None => None
    end in
  match phone_check with
  | Some rejection => (rejection, db)
  | None =>
      (* Update patient *)
      let? db' := patient_update db id b
        else (json 404 (ErrorBody "Patient not found"), db);
      (json 200 (PatientBody id (patient_data b existingPatient.2)), db')
  end.

(** ** controllers/clinics.controller.js and controllers/ehr.controller.js *)

Definition getClinicById (db : Db) (userId id : string) : Response :=
  let? user := users db !! userId
    else json 404 (ErrorBody "Clinic not found");
  let? (orgId, _) := organization db user
    else json 404 (ErrorBody "Organization not found");
  let? clinic :=
      findFirst (λ k c, bool_decide (k = id)
                        && bool_decide (Clinic.organizationId c = orgId))
                (clinics db)
    else json 404 (ErrorBody "Clinic not found");
  json 200 (ClinicBody clinic.1 clinic.2).

Definition getEHRRecordById (db : Db) (userId id : string) : Response :=
  let? user := users db !! userId
    else json 404 (ErrorBody "EHR record not found");
  let? (orgId, _) := organization db user
    else json 404 (ErrorBody "Organization not found");
  let? ehrRecord :=
      findFirst (λ k r, bool_decide (k = id)
                        && patient_in db (EHRRecord.patientId r) orgId)
                (ehrRecords db)
    else json 404 (ErrorBody "EHR record not found");
  json 200 (EHRRecordBody ehrRecord.1 ehrRecord.2).

(** ** middleware/auth.js *)

(** What a middleware does with the request: answer it, or call [next()]
    after attaching a row to it. *)
Inductive Outcome (A : Type) :=
| Answer (r : Response)
| Next (attached : A).
Arguments Answer {A} r.
Arguments Next {A} attached.

(** [req.params.patientId || req.params.id || req.body.patientId] *)
Definition first_truthy (l : list (option string)) : option string :=
  head (omap truthy_str l).

(** [organizationId] is [req.user.organizationId], as [authenticateToken]
    attached it.  [auth.js] exports [verifyPatientAccess] and
    [verifyClinicAccess]; no route of the repository mounts them. *)
Definition verifyPatientAccess (db : Db) (organizationId : string)
    (params_patientId params_id body_patientId : option string)
    : Outcome (string * Patient.t) :=
  let? patientId := first_truthy [params_patientId; params_id; body_patientId]
    else Answer (json 400 (ErrorCodeBody "Patient ID required" "PATIENT_ID_REQUIRED"));
  (* Check if patient belongs to user's organization *)
  let? patient :=
      findFirst (λ k p, bool_decide (k = patientId)
                        && clinic_in db (Patient.clinicId p) organizationId)
                (patients db)
    else Answer (json 403 (ErrorCodeBody "Access denied to this patient"
                                         "PATIENT_ACCESS_DENIED"));
  Next patient.

Definition verifyClinicAccess (db : Db) (organizationId : string)
    (params_clinicId body_clinicId : option string)
    : Outcome (string * Clinic.t) :=
  let? clinicId := first_truthy [params_clinicId; body_clinicId]
    else Answer (json 400 (ErrorCodeBody "Clinic ID required" "CLINIC_ID_REQUIRED"));
  (* Check if clinic belongs to user's organization *)
  let? clinic :=
      findFirst (λ k c, bool_decide (k = clinicId)
                        && bool_decide (Clinic.organizationId c = organizationId))
                (clinics db)
    else Answer (json 403 (ErrorCodeBody "Access denied to this clinic"
                                         "CLINIC_ACCESS_DENIED"));
  Next clinic.

(** ** controllers/organizations.controller.js *)

Definition seven_days : Z := 7 * 24 * 60 * 60 * 1000.

(** [token] is the value of [crypto.randomBytes(32).toString('hex')], [newId]
    the key of the created row, [delivered] whether [sendEmail] resolves. *)
Definition inviteUser (db : Db) (userId email : string) (role : option string)
    (now : Z) (token newId : string) (delivered : bool) : Response * Db :=
  let failed := json 500 (ErrorBody "Failed to send invitation") in
  let? user := users db !! userId else (failed, db);
  let? (orgId, _) := organization db user
    else (json 404 (ErrorBody "Organization not found"), db);
  (* 1. Check if email is already registered or invited *)
  let existingUser :=
    findFirst (λ _ u, bool_decide (User.email u = email)) (users db) in
  return_if bool_decide (is_Some existingUser)
    then (json 400 (ErrorBody "User with this email already exists"), db);
  let existingInvite :=
    findFirst (λ _ i, bool_decide (Invite.email i = email)
                      && bool_decide (Invite.organizationId i = orgId)
                      && negb (Invite.isUsed i)
                      && bool_decide (now < Invite.expiresAt i))
              (invites db) in
  return_if bool_decide (is_Some existingInvite)
    then (json 400 (ErrorBody "Invitation already sent to this email"), db);
  (* 2. Generate invite token with expiry (7 days) *)
  let expiresAt := now + seven_days in
  (* 3. Create invite record in database *)
  let invite :=
    Invite.mk email token (str_or role DOCTOR) orgId userId expiresAt false in
  let db' := set_invites db (<[newId := invite]> (invites db)) in
  (* 4. Send invite email with join link *)
  return_if negb delivered then (failed, db');
  (json 200 (MessageBody "Invitation sent successfully"), db').

Definition set_membership (organizationId : option string) (role : string)
    (u : User.t) : User.t :=
  User.mk (User.email u) role organizationId (User.isEmailVerified u).

Definition mark_used (i : Invite.t) : Invite.t :=
  Invite.mk (Invite.email i) (Invite.token i) (Invite.role i)
    (Invite.organizationId i) (Invite.invitedBy i) (Invite.expiresAt i) true.

Definition used_error := json 400 (ErrorBody "Invitation has already been used").
Definition expired_error := json 400 (ErrorBody "Invitation has expired").

Definition joinOrganization (db : Db) (token userId : string) (now : Z)
    : Response * Db :=
  let thrown := json 400 (ErrorBody "Invalid or expired invitation") in
  (* 1. Find invite by token *)
  let? invite :=
      findFirst (λ _ i, bool_decide (Invite.token i = token)) (invites db)
    else (json 400 (ErrorBody "Invalid invitation token"), db);
  (* 2. Check if invite is valid, not used, and not expired *)
  return_if Invite.isUsed invite.2 then (used_error, db);
  return_if bool_decide (Invite.expiresAt invite.2 < now) then (expired_error, db);
  (* 3. Check if user doesn't already belong to an organization *)
  let? user := users db !! userId else (thrown, db);
  return_if bool_decide (is_Some (truthy_str (User.organizationId user)))
    then (json 400 (ErrorBody "User already belongs to an organization"), db);
  (* 4. Update user: set organizationId and role from invite *)
  let db1 :=
    set_users db
      (alter (set_membership (Some (Invite.organizationId invite.2))
                             (Invite.role invite.2))
             userId (users db)) in
  (* 5. Mark invite as used *)
  let db2 := set_invites db1 (alter mark_used invite.1 (invites db1)) in
  (* 6. Return success message with organization details *)
  let? _ := organizations db !! Invite.organizationId invite.2
    else (thrown, db2);
  (json 200 (JoinedBody "Successfully joined organization"
                        (Invite.organizationId invite.2)),
   db2).

Definition last_admin_error :=
  json 400 (ErrorBody "Cannot remove the last admin from organization").

Definition leave (u : User.t) : User.t :=
  User.mk (User.email u) (User.role u) None (User.isEmailVerified u).

(** [count({ where: { organizationId, role: 'ADMIN' } })] *)
Definition adminCount (db : Db) (orgId : string) : Z :=
  count (λ _ u, bool_decide (User.organizationId u = Some orgId)
                && bool_decide (User.role u = ADMIN))
        (users db).

Definition removeUserFromOrganization (db : Db) (adminUserId targetUserId : string)
    : Response * Db :=
  let? adminUser := users db !! adminUserId
    else (json 400 (ErrorBody "Cannot remove user"), db);
  let? (orgId, _) := organization db adminUser
    else (json 404 (ErrorBody "Organization not found"), db);
  (* 1. Check if user exists and belongs to the organization *)
  let? targetUser :=
      findFirst (λ k u, bool_decide (k = targetUserId)
                        && bool_decide (User.organizationId u = Some orgId))
                (users db)
    else (json 404 (ErrorBody "User not found in organization"), db);
  (* 2. Check if user is not the last admin *)
  return_if bool_decide (User.role targetUser.2 = ADMIN)
            && bool_decide (adminCount db orgId ≤ 1)
    then (last_admin_error, db);
  (* 3. Remove user from organization (set organizationId to null) *)
  (json 200 (MessageBody "User removed from organization"),
   set_users db (alter leave targetUserId (users db))).

(** ** utils/backup.js and controllers/backup.controller.js *)

(** The [doctor] that the backup nests under every appointment and EHR
    record: the user the row names, of whatever organization.  Of the
    columns selected (id, name, specialization) the store has the id;
    [None] when no user has the key. *)
Definition nested_doctor (db : Db) (doctorId : string) : option string :=
  (λ _, doctorId) <$> users db !! doctorId.

(** The document that [generateLocalBackup] returns: the organization with
    the rows its [include] reaches (the nesting of the JSON is flattened into
    one list per table, an appointment and an EHR record keeping the doctor
    nested under it), [backupDate] and [version]. *)
Record Snapshot := mkSnapshot {
  s_organization : string * Organization.t;
  s_users : list (string * User.t);
  s_clinics : list (string * Clinic.t);
  s_patients : list (string * Patient.t);
  s_appointments : list (string * (Appointment.t * option string));
  s_ehrRecords : list (string * (EHRRecord.t * option string));
  s_organizationAddOns : list (string * OrganizationAddOn.t);
  s_subscriptions : list (string * Subscription.t);
  s_backups : list (string * Backup.t);
  s_invites : list (string * Invite.t);
  s_backupDate : Z;
  s_version : string }.

(** [None] when it throws ('Organization not found'). *)
Definition generateLocalBackup (db : Db) (organizationId : string) (now : Z)
    : option Snapshot :=
  row ← organizations db !! organizationId;
  Some (mkSnapshot (organizationId, row)
    (findMany (λ _ u, bool_decide (User.organizationId u = Some organizationId))
              (users db))
    (findMany (λ _ c, bool_decide (Clinic.organizationId c = organizationId))
              (clinics db))
    (findMany (λ _ p, clinic_in db (Patient.clinicId p) organizationId)
              (patients db))
    ((λ kv, (kv.1, (kv.2, nested_doctor db (Appointment.doctorId kv.2)))) <$>
       findMany (λ _ a, patient_in db (Appointment.patientId a) organizationId)
                (appointments db))
    ((λ kv, (kv.1, (kv.2, nested_doctor db (EHRRecord.doctorId kv.2)))) <$>
       findMany (λ _ r, patient_in db (EHRRecord.patientId r) organizationId)
                (ehrRecords db))
    (findMany (λ _ o, bool_decide (OrganizationAddOn.organizationId o = organizationId))
              (organizationAddOns db))
    (findMany (λ _ s, bool_decide (Subscription.organizationId s = organizationId))
              (subscriptions db))
    (findMany (λ _ b, bool_decide (Backup.organizationId b = organizationId))
              (backups db))
    (findMany (λ _ i, bool_decide (Invite.organizationId i = organizationId))
              (invites db))
    now "1.0.0").

(** The placeholder restoration: it writes nothing and reports the sizes of
    the incoming lists. *)
Definition restoreFromBackup (backupData : JsValue) (organizationId : string)
    : JsValue * JsValue * JsValue :=
  (js_or (js_length (js_get backupData "patients")) (JNum 0),
   js_or (js_length (js_get backupData "appointments")) (JNum 0),
   js_or (js_length (js_get backupData "ehrRecords")) (JNum 0)).

Definition LOCAL := "LOCAL".
Definition CLOUD := "CLOUD".

Section Backup.
(** [JSON.stringify] on a backup document. *)
Variable JSON_stringify : Snapshot → string.

Definition restoreBackup (db : Db) (userId : string) (backupData : JsValue)
    (now : Z) (newId : string) : Response * Db :=
  let failed := json 400 (ErrorBody "Failed to restore backup") in
  let? user := users db !! userId else (failed, db);
  let? (orgId, _) := organization db user
    else (json 404 (ErrorBody "Organization not found"), db);
  return_if negb (truthy backupData)
    then (json 400 (ErrorBody "Backup data is required"), db);
  (* Validate backup data structure *)
  return_if negb (truthy (js_get backupData "organization"))
            || negb (truthy (js_get backupData "patients"))
            || negb (truthy (js_get backupData "appointments"))
    then (json 400 (ErrorBody "Invalid backup data format"), db);
  (* Create restore point (backup current data) *)
  let? currentBackup := generateLocalBackup db orgId now else (failed, db);
  let restorePoint :=
    Backup.mk orgId LOCAL (JSON_stringify currentBackup) userId in
  let db' := set_backups db (<[newId := restorePoint]> (backups db)) in
  (* Restore data *)
  let '(patients, appointments, ehrRecords) :=
    restoreFromBackup backupData orgId in
  (json 200 (RestoredBody "Data restored successfully"
               (js_or patients (JNum 0), js_or appointments (JNum 0),
                js_or ehrRecords (JNum 0))
               newId),
   db').
End Backup.

(** ** utils/razorpay.js and controllers/addons.controller.js *)

(** [instance] is [None] when [getRazorpayInstance()] throws. *)
Definition verifyRazorpayWebhook (instance : option unit) : bool :=
  match instance with
  | Some _ => true
  | None => false
  end.

Definition ACTIVE := "ACTIVE".

Definition set_status (status : string) (endDate : option Z)
    (s : Subscription.t) : Subscription.t :=
  Subscription.mk (Subscription.organizationId s)
    (Subscription.razorpaySubscriptionId s) (Subscription.amount s) status
    (match endDate with Some d => Some d | None => Subscription.endDate s end).

Definition set_isActive (isActive : bool) (o : OrganizationAddOn.t)
    : OrganizationAddOn.t :=
  OrganizationAddOn.mk (OrganizationAddOn.organizationId o)
    (OrganizationAddOn.addOnId o) isActive (OrganizationAddOn.usageCount o).

(** The two subscription events: write the status of the subscriptions with
    this gateway id, then switch every add-on row of the organization of the
    one that [findFirst] returns. *)
Definition on_subscription (db : Db) (subscriptionId : string)
    (status : string) (endDate : option Z) (isActive : bool) : Db :=
  let by_id (s : Subscription.t) :=
    bool_decide (Subscription.razorpaySubscriptionId s = subscriptionId) in
  let db1 :=
    set_subscriptions db
      (updateMany by_id (set_status status endDate) (subscriptions db)) in
  match findFirst (λ _ s, by_id s) (subscriptions db1) with
  | Some subscription =>
      set_organizationAddOns db1
        (updateMany
           (λ o, bool_decide (OrganizationAddOn.organizationId o
                              = Subscription.organizationId subscription.2))
           (set_isActive isActive) (organizationAddOns db1))
  | None => db1
  end.

(** [event] is [req.body.event]; [subscriptionId] is
    [req.body.payload.subscription.id], a string as the gateway sends it, and
    [None] when reading it throws (no [payload] or no [subscription]).  A
    [subscription] without an [id], for which the store would take the
    filter as absent, is not among the inputs. *)
Definition handleRazorpayWebhook (db : Db) (instance : option unit)
    (event : string) (subscriptionId : option string) (now : Z)
    : Response * Db :=
  return_if negb (verifyRazorpayWebhook instance)
    then (json 400 (ErrorBody "Invalid webhook signature"), db);
  let thrown := (json 400 (ErrorBody "Webhook verification failed"), db) in
  let ok := json 200 (StatusBody "ok") in
  if bool_decide (event = "subscription.activated") then
    let? id := subscriptionId else thrown;
    (ok, on_subscription db id ACTIVE None true)
  else if bool_decide (event = "subscription.cancelled") then
    let? id := subscriptionId else thrown;
    (ok, on_subscription db id CANCELLED (Some now) false)
  else if bool_decide (event = "payment.failed") then
    let? id := subscriptionId else thrown;
    match findFirst (λ _ s, bool_decide (Subscription.razorpaySubscriptionId s = id))
                    (subscriptions db) with
    | Some failedSubscription =>
        let? _ := organizations db !! Subscription.organizationId failedSubscription.2
          else thrown;
        (ok, db)
    | None => (ok, db)
    end
  else (ok, db).

(** ** Tenants *)

Inductive EntityKind := PatientKind | AppointmentKind | EHRRecordKind | ClinicKind.

Definition clinic_owner (db : Db) (clinicId : string) : option string :=
  Clinic.organizationId <$> clinics db !! clinicId.

Definition patient_owner (db : Db) (patientId : string) : option string :=
  p ← patients db !! patientId; clinic_owner db (Patient.clinicId p).

(** The organization an entity belongs to: a clinic by its column, a patient
    and an appointment through their clinic, an EHR record through its
    patient. *)
Definition owner (db : Db) (kind : EntityKind) (id : string) : option string :=
  match kind with
  | ClinicKind => clinic_owner db id
  | PatientKind => patient_owner db id
  | AppointmentKind =>
      a ← appointments db !! id; clinic_owner db (Appointment.clinicId a)
  | EHRRecordKind =>
      r ← ehrRecords db !! id; patient_owner db (EHRRecord.patientId r)
  end.

(** [GET /api/<kind>/:id] *)
Definition getById (kind : EntityKind) : Db → string → string → Response :=
  match kind with
  | PatientKind => getPatientById
  | AppointmentKind => getAppointmentById
  | EHRRecordKind => getEHRRecordById
  | ClinicKind => getClinicById
  end.

Definition not_found (r : Response) : bool := bool_decide (status r = 404%nat).

(** What the scoped [whereConditions] of the appointment handlers ask of the
    row under [id]. *)
Definition in_scope (db : Db) (userId : string) (user : User.t)
    (orgId : string) (a : Appointment.t) : bool :=
  clinic_in db (Appointment.clinicId a) orgId
  && (if bool_decide (User.role user = DOCTOR)
      then bool_decide (Appointment.doctorId a = userId) else true).

(** ** Scheduling *)

(** Some appointment of [doctorId] other than [exclude], SCHEDULED or
    CONFIRMED, starts inside [start - minutes, start + minutes]. *)
Definition window_conflict (db : Db) (doctorId : string)
    (exclude : option string) (start minutes : Z) : Prop :=
  ∃ id a,
    appointments db !! id = Some a
    ∧ Some id ≠ exclude
    ∧ Appointment.doctorId a = doctorId
    ∧ start - minutes * 60 * 1000 ≤ Appointment.appointmentDate a
    ∧ Appointment.appointmentDate a ≤ start + minutes * 60 * 1000
    ∧ (Appointment.status a = SCHEDULED ∨ Appointment.status a = CONFIRMED).

(** A request that schedules: [POST /api/appointments] or
    [PUT /api/appointments/:id]. *)
Inductive Booking :=
| Create (b : CreateAppointmentBody) (newId : string)
| Update (id : string) (b : UpdateAppointmentBody).

Definition book (db : Db) (userId : string) (req : Booking) (now : Z)
    : Response * Db :=
  match req with
  | Create b newId => createAppointment db userId b now newId
  | Update id b => updateAppointment db userId id b now
  end.

(** The answer of the [catch] of the handler. *)
Definition thrown_by (req : Booking) : Response :=
  match req with
  | Create _ _ => json 500 (ErrorBody "Failed to create appointment")
  | Update _ _ => json 404 (ErrorBody "Appointment not found")
  end.

(** The doctor, the excluded row, the start and the minutes of the window a
    request asks for; an update without a start time asks for none. *)
Definition requested_window (db : Db) (req : Booking)
    : option (string * option string * Z * Z) :=
  match req with
  | Create b _ =>
      Some (c_doctorId b, None, c_appointmentDate b, num_or (c_duration b) 30)
  | Update id b =>
      existing ← appointments db !! id;
      start ← u_appointmentDate b;
      Some (str_or (u_doctorId b) (Appointment.doctorId existing), Some id,
            start, num_or (u_duration b) (Appointment.duration existing))
  end.

(** The checks that precede the conflict query. *)
Definition passes_earlier_checks (db : Db) (userId : string) (req : Booking)
    (now : Z) : Prop :=
  ∃ user orgId row,
    users db !! userId = Some user
    ∧ organization db user = Some (orgId, row)
    ∧ match req with
      | Create b _ =>
          patient_owner db (c_patientId b) = Some orgId
          ∧ (∃ d, users db !! c_doctorId b = Some d
                  ∧ User.organizationId d = Some orgId ∧ User.role d = DOCTOR)
          ∧ clinic_owner db (c_clinicId b) = Some orgId
          ∧ now < c_appointmentDate b
      | Update id b =>
          (∃ a, appointments db !! id = Some a
                ∧ in_scope db userId user orgId a = true)
          ∧ (∀ s, u_status b = Some s → s = "" ∨ s ∈ valid_statuses)
          ∧ (∀ start, u_appointmentDate b = Some start → now < start)
      end.

Definition rejected (r : Response) : bool := bool_decide (400 ≤ status r)%nat.

(** ** Patient phones *)

(** A patient of the organization, other than [exclude], holds [phone]. *)
Definition phone_taken (db : Db) (orgId phone : string)
    (exclude : option string) : Prop :=
  ∃ id p,
    patients db !! id = Some p
    ∧ Some id ≠ exclude
    ∧ Patient.phone p = phone
    ∧ clinic_owner db (Patient.clinicId p) = Some orgId.

(** A request that writes a patient: [POST /api/patients] or
    [PUT /api/patients/:id]. *)
Inductive PatientWrite :=
| CreatePatient (b : CreatePatientBody) (newId : string)
| UpdatePatient (id : string) (b : UpdatePatientBody).

Definition write_patient (db : Db) (userId : string) (req : PatientWrite)
    : Response * Db :=
  match req with
  | CreatePatient b newId => createPatient db userId b newId
  | UpdatePatient id b => updatePatient db userId id b
  end.

(** The phone the request asks to store, the phone the patient written has,
    and the patient written. *)
Definition new_phone (req : PatientWrite) : option string :=
  match req with
  | CreatePatient b _ => Some (cp_phone b)
  | UpdatePatient _ b => truthy_str (up_phone b)
  end.

Definition own_phone (db : Db) (req : PatientWrite) : option string :=
  match req with
  | CreatePatient _ _ => None
  | UpdatePatient id _ => Patient.phone <$> patients db !! id
  end.

Definition written (req : PatientWrite) : option string :=
  match req with
  | CreatePatient _ _ => None
  | UpdatePatient id _ => Some id
  end.

(** The patient to update is one of the caller's organization. *)
Definition target_in_scope (db : Db) (orgId : string) (req : PatientWrite)
    : Prop :=
  match req with
  | CreatePatient _ _ => True
  | UpdatePatient id _ => patient_owner db id = Some orgId
  end.

(** The two answers that report a duplicate phone. *)
Definition duplicate_rejection (r : Response) : bool :=
  bool_decide (status r = 400%nat)
  && match body r with
     | DuplicatePatientBody error _ =>
         bool_decide (error = "Patient with this phone number already exists")
     | ErrorBody error =>
         bool_decide
           (error = "Another patient with this phone number already exists")
     | _ => false
     end.

(** ** Membership *)



Definition b2z (b : bool) : Z := if b then 1 else 0.

(** ** Invitations *)

(** [token] is a unique column of the invite table ([findUnique] reads by
    it). *)
Definition unique_tokens (db : Db) : Prop :=
  ∀ k1 k2 i1 i2,
    invites db !! k1 = Some i1 → invites db !! k2 = Some i2 →
    Invite.token i1 = Invite.token i2 → k1 = k2.

(** A run of [POST /api/organizations/join/:token] requests with one token,
    each given by the caller and the time of the call. *)
Fixpoint join_all (db : Db) (token : string) (calls : list (string * Z))
    : list Response * Db :=
  match calls with
  | [] => ([], db)
  | (userId, now) :: rest =>
      let (r, db1) := joinOrganization db token userId now in
      let (rs, db2) := join_all db1 token rest in
      (r :: rs, db2)
  end.

(** ** Restore *)

(** The top-level shape that [restoreBackup] asks of the payload. *)
Definition valid_backup (backupData : JsValue) : bool :=
  truthy backupData
  && truthy (js_get backupData "organization")
  && truthy (js_get backupData "patients")
  && truthy (js_get backupData "appointments").

(** ** Webhook events *)

(** The value that a subscription event writes to [isActive]. *)
Definition toggles (event : string) : option bool :=
  if bool_decide (event = "subscription.activated") then Some true
  else if bool_decide (event = "subscription.cancelled") then Some false
  else None.

(** ** A small store, used to run the handlers *)

Module Example.
Definition t0 : Z := 1700000000000.
Definition minute : Z := 60 * 1000.

Definition db : Db := {|
  organizations := list_to_map
    [("org1", Organization.mk "North Practice" None);
     ("org2", Organization.mk "South Practice" None)];
  users := list_to_map
    [("admin1", User.mk "admin1@north.example" ADMIN (Some "org1") true);
     ("doc1", User.mk "doc1@north.example" DOCTOR (Some "org1") true);
     ("doc2", User.mk "doc2@north.example" DOCTOR (Some "org1") true);
     ("staff1", User.mk "staff1@north.example" STAFF (Some "org1") true);
     ("admin2", User.mk "admin2@south.example" ADMIN (Some "org2") true);
     ("admin3", User.mk "admin3@south.example" ADMIN (Some "org2") true);
     ("doc3", User.mk "doc3@south.example" DOCTOR (Some "org2") true);
     ("new1", User.mk "new1@mail.example" STAFF None true)];
  clinics := list_to_map
    [("clinic1", Clinic.mk "North Clinic" "org1");
     ("clinic2", Clinic.mk "South Clinic" "org2")];
  patients := list_to_map
    [("pat1", Patient.mk "Asha" "9876543210" "clinic1");
     ("pat2", Patient.mk "Ravi" "9123456780" "clinic1");
     ("pat3", Patient.mk "Meera" "9876543210" "clinic2")];
  appointments := list_to_map
    [("apt1", Appointment.mk "pat1" "doc1" "clinic1" (t0 + 600 * minute) 30
                             None SCHEDULED);
     ("apt2", Appointment.mk "pat2" "doc2" "clinic1" (t0 + 660 * minute) 30
                             None CONFIRMED);
     ("apt3", Appointment.mk "pat3" "doc3" "clinic2" (t0 + 600 * minute) 30
                             None SCHEDULED);
     ("apt4", Appointment.mk "pat1" "doc1" "clinic1" (t0 - 600 * minute) 30
                             None COMPLETED)];
  ehrRecords := list_to_map
    [("ehr1", EHRRecord.mk "pat1" "doc1" (Some "migraine"))];
  invites := list_to_map
    [("inv1", Invite.mk "new1@mail.example" "tok1" DOCTOR "org1" "admin1"
                        (t0 + seven_days) false)];
  organizationAddOns := list_to_map
    [("oa1", OrganizationAddOn.mk "org1" "scribe" true 5);
     ("oa2", OrganizationAddOn.mk "org1" "analytics" false 2);
     ("oa3", OrganizationAddOn.mk "org2" "scribe" true 7)];
  subscriptions := list_to_map
    [("sub1", Subscription.mk "org1" "rzp_1" 4999 ACTIVE None);
     ("sub2", Subscription.mk "org2" "rzp_2" 4999 ACTIVE None)];
  backups := ∅ |}.

(** A stand-in for [JSON.stringify]. *)
Definition stringify (snapshot : Snapshot) : string :=
  "backup of " +:+ (s_organization snapshot).1.

(** The document that [generateLocalBackup] itself produces has the keys
    [organization], [backupDate] and [version]. *)
Definition own_format : JsValue :=
  JObj [("organization", JObj [("id", JStr "org1")]);
        ("backupDate", JStr "2023-11-14T22:13:20.000Z");
        ("version", JStr "1.0.0")].

Definition full_format : JsValue :=
  JObj [("organization", JObj [("id", JStr "org1")]);
        ("patients", JArr [JObj []; JObj []]);
        ("appointments", JArr [])].
End Example.

(** * The other handlers of the cited files *)

Definition set_organizations (db : Db) (m : gmap string Organization.t) : Db :=
  mkDb m (users db) (clinics db) (patients db) (appointments db)
       (ehrRecords db) (invites db) (organizationAddOns db)
       (subscriptions db) (backups db).

Definition set_clinics (db : Db) (m : gmap string Clinic.t) : Db :=
  mkDb (organizations db) (users db) m (patients db) (appointments db)
       (ehrRecords db) (invites db) (organizationAddOns db)
       (subscriptions db) (backups db).

Definition set_ehrRecords (db : Db) (m : gmap string EHRRecord.t) : Db :=
  mkDb (organizations db) (users db) (clinics db) (patients db)
       (appointments db) m (invites db) (organizationAddOns db)
       (subscriptions db) (backups db).

(** What a handler sends when its success body is not one of [Body]: an
    error response, or a status code with the payload of the JSON. *)
Inductive Reply (A : Type) :=
| Failure (r : Response)
| Success (code : nat) (payload : A).
Arguments Failure {A} r.
Arguments Success {A} code payload.

(** ** middleware/auth.js, the gates *)

Definition is_space (c : Ascii.ascii) : bool := bool_decide (c = Ascii.Space).

(** [s.split(' ')]; [acc] is the piece being read. *)
Fixpoint split_space (s acc : string) : list string :=
  match s with
  | EmptyString => [acc]
  | String c rest =>
      if is_space c then acc :: split_space rest ""
      else split_space rest (acc +:+ String c "")
  end.

(** [authHeader && authHeader.split(' ')[1]], when it is truthy. *)
Definition bearer_token (authHeader : option string) : option string :=
  header ← truthy_str authHeader;
  truthy_str (split_space header "" !! 1%nat).

(** What [jwt.verify] does with a token: the [userId] of the payload, or the
    error it throws, by [error.name]. *)
Inductive Verified :=
| Decoded (userId : string)
| JsonWebTokenError
| TokenExpiredError
| OtherError.

(** [req.user] *)
Record ReqUser := mkReqUser {
  ru_id : string;
  ru_email : string;
  ru_role : string;
  ru_organizationId : option string;
  ru_clinics : list (string * Clinic.t) }.

(** [user.organization?.clinics || []] *)
Definition clinics_of (db : Db) (organizationId : string)
    : list (string * Clinic.t) :=
  match organizations db !! organizationId with
  | Some _ =>
      findMany (λ _ c, bool_decide (Clinic.organizationId c = organizationId))
               (clinics db)
  | None => []
  end.

Section Tokens.
Variable jwt_verify : string → Verified.

Definition authenticateToken (db : Db) (authorization : option string)
    : Outcome ReqUser :=
  (* 1. Extract token from Authorization header *)
  let? token := bearer_token authorization
    else Answer (json 401 (ErrorCodeBody "Access token required" "TOKEN_MISSING"));
  (* 2. Verify JWT token *)
  match jwt_verify token with
  | JsonWebTokenError =>
      Answer (json 401 (ErrorCodeBody "Invalid token" "INVALID_TOKEN"))
  | TokenExpiredError =>
      Answer (json 401 (ErrorCodeBody "Token expired" "TOKEN_EXPIRED"))
  | OtherError =>
      Answer (json 500 (ErrorCodeBody "Authentication failed" "AUTH_ERROR"))
  | Decoded userId =>
      (* 3. Find user in database and verify they still exist *)
      let? user := users db !! userId
        else Answer (json 401 (ErrorCodeBody "User not found" "USER_NOT_FOUND"));
      (* 4. Check if user's email is verified *)
      return_if negb (User.isEmailVerified user)
        then Answer (json 403 (ErrorCodeBody "Email verification required"
                                             "EMAIL_NOT_VERIFIED"));
      (* 5. Check if user belongs to an organization *)
      let? organizationId := truthy_str (User.organizationId user)
        else Answer (json 403 (ErrorCodeBody "User must belong to an organization"
                                             "NO_ORGANIZATION"));
      (* 6. Attach user info to request object *)
      Next (mkReqUser userId (User.email user) (User.role user)
                      (Some organizationId) (clinics_of db organizationId))
  end.

(** [optionalAuth] always calls [next()]; the result is the [req.user] it
    attached, if any. *)
Definition optionalAuth (db : Db) (authorization : option string)
    : option ReqUser :=
  token ← bearer_token authorization;
  match jwt_verify token with
  | Decoded userId =>
      user ← users db !! userId;
      if User.isEmailVerified user
      then Some (mkReqUser userId (User.email user) (User.role user)
                           (User.organizationId user) [])
      else None
  | _ => None
  end.
End Tokens.

Definition auth_required :=
  json 401 (ErrorCodeBody "Authentication required" "AUTH_REQUIRED").

Definition requireAdmin (user : option ReqUser) : Outcome ReqUser :=
  let? user := user else Answer auth_required;
  return_if negb (bool_decide (ru_role user = ADMIN))
    then Answer (json 403 (ErrorCodeBody "Admin access required" "ADMIN_REQUIRED"));
  Next user.

Definition requireDoctor (user : option ReqUser) : Outcome ReqUser :=
  let? user := user else Answer auth_required;
  return_if negb (includes [ADMIN; DOCTOR] (ru_role user))
    then Answer (json 403 (ErrorCodeBody "Doctor access required" "DOCTOR_REQUIRED"));
  Next user.

(** The catalog of add-ons; it belongs to no organization. *)
Module AddOn.
Record t := mk {
  name : string;
  price : Z }.
End AddOn.

(** The relation filter [addOn: { name }] on an OrganizationAddOn row. *)
Definition addOn_named (catalog : gmap string AddOn.t) (name : string)
    (o : OrganizationAddOn.t) : bool :=
  match catalog !! OrganizationAddOn.addOnId o with
  | Some a => bool_decide (AddOn.name a = name)
  | None => false
  end.

Definition addon_required (addOnName : string) :=
  json 403 (ErrorCodeBody (addOnName +:+ " add-on is required for this feature")
                          "ADDON_REQUIRED").

Definition checkAddOn (catalog : gmap string AddOn.t) (addOnName : string)
    (db : Db) (user : option ReqUser) : Outcome ReqUser :=
  let? user := user else Answer auth_required;
  (* Check if organization has the add-on enabled *)
  let? organizationAddOn :=
      findFirst (λ _ o, bool_decide (Some (OrganizationAddOn.organizationId o)
                                     = ru_organizationId user)
                        && addOn_named catalog addOnName o
                        && OrganizationAddOn.isActive o)
                (organizationAddOns db)
    else Answer (addon_required addOnName);
  Next user.

(** ** controllers/organizations.controller.js, creation *)

Definition already_member :=
  json 400 (ErrorBody "User already belongs to an organization").

Definition createOrganization (db : Db) (userId name : string)
    (address : option string) (newId : string)
    : Reply (string * Organization.t) * Db :=
  (* 1. Check if user already belongs to an organization *)
  let? existingUser := users db !! userId
    else (Failure (json 500 (ErrorBody "Failed to create organization")), db);
  return_if bool_decide (is_Some (truthy_str (User.organizationId existingUser)))
    then (Failure already_member, db);
  (* 2. Create new organization with provided details *)
  let organization := Organization.mk name address in
  let db1 := set_organizations db (<[newId := organization]> (organizations db)) in
  (* 3. Update user: set organizationId and role as ADMIN *)
  let db2 :=
    set_users db1 (alter (set_membership (Some newId) ADMIN) userId (users db1)) in
  (* 4. Return organization details *)
  (Success 201 (newId, organization), db2).

(** ** controllers/patients.controller.js, search, removal and import *)

(** The [appointments] that the handler includes (the last five) are left
    out of the payload. *)
Definition searchPatientByPhone (db : Db) (userId phone : string)
    : Reply (option (string * Patient.t)) :=
  let? user := users db !! userId
    else Failure (json 500 (ErrorBody "Failed to search patient"));
  let? (orgId, _) := organization db user
    else Failure (json 404 (ErrorBody "Organization not found"));
  (* Find patient by phone number within organization *)
  Success 200
    (findFirst (λ _ p, bool_decide (Patient.phone p = phone)
                       && clinic_in db (Patient.clinicId p) orgId)
               (patients db)).

(** The appointments that [deletePatient] includes: those of the patient
    that start at [now] or later and are SCHEDULED or CONFIRMED. *)
Definition active_appointment (patientId : string) (now : Z)
    (a : Appointment.t) : bool :=
  bool_decide (Appointment.patientId a = patientId)
  && bool_decide (now ≤ Appointment.appointmentDate a)
  && includes [SCHEDULED; CONFIRMED] (Appointment.status a).

Definition has_active_error :=
  json 400 (ErrorBody
    "Cannot delete patient with active appointments. Please cancel appointments first.").

Section DeletePatient.
(** [prisma.patient.delete({ where: { id } })]: what it does with the rows
    that refer to the patient is the schema's; [None] when it throws. *)
Variable patient_delete : Db → string → option Db.

Definition deletePatient (db : Db) (userId id : string) (now : Z)
    : Response * Db :=
  let thrown :=
    json 400 (ErrorBody "Cannot delete patient with active appointments") in
  let? user := users db !! userId else (thrown, db);
  let? (orgId, _) := organization db user
    else (json 404 (ErrorBody "Organization not found"), db);
  let? patient :=
      findFirst (λ k p, bool_decide (k = id)
                        && clinic_in db (Patient.clinicId p) orgId)
                (patients db)
    else (json 404 (ErrorBody "Patient not found"), db);
  return_if bool_decide
              (findMany (λ _ a, active_appointment id now a) (appointments db) ≠ [])
    then (has_active_error, db);
  let? db' := patient_delete db id else (thrown, db);
  (json 200 (MessageBody "Patient archived successfully"), db').
End DeletePatient.

(** An element of [req.body.patients]; a key may be missing. *)
Record ImportItem := mkImportItem {
  i_name : option string;
  i_phone : option string;
  i_clinicId : option string }.

(** The [results] object of the import. *)
Record ImportResults := mkImportResults {
  r_successful : list (string * Patient.t);
  r_failed : list (ImportItem * string);
  r_duplicates : list (ImportItem * string) }.

Definition push_failed (r : ImportResults) (i : ImportItem) (error : string) :=
  mkImportResults (r_successful r) (r_failed r ++ [(i, error)]) (r_duplicates r).

Definition push_duplicate (r : ImportResults) (i : ImportItem) (existing : string) :=
  mkImportResults (r_successful r) (r_failed r) (r_duplicates r ++ [(i, existing)]).

Definition push_successful (r : ImportResults) (id : string) (p : Patient.t) :=
  mkImportResults (r_successful r ++ [(id, p)]) (r_failed r) (r_duplicates r).

(** One turn of the loop, for an item and the key the store gives the row if
    one is created. *)
Definition import_one (orgId : string) (st : ImportResults * Db)
    (item : ImportItem * string) : ImportResults * Db :=
  let '(results, db) := st in
  let '(patientData, newId) := item in
  (* Validate required fields *)
  match truthy_str (i_name patientData), truthy_str (i_phone patientData),
        truthy_str (i_clinicId patientData) with
  | Some name, Some phone, Some clinicId =>
      (* Validate phone format *)
      return_if negb (phoneRegex_test phone)
        then (push_failed results patientData "Invalid phone number format", db);
      (* Check for duplicates *)
      let existingPatient :=
        findFirst (λ _ p, bool_decide (Patient.phone p = phone)
                          && clinic_in db (Patient.clinicId p) orgId)
                  (patients db) in
      match existingPatient with
      | Some existing => (push_duplicate results patientData existing.1, db)
      | None =>
          (* Validate clinic belongs to organization *)
          let? clinic :=
              findFirst (λ id c, bool_decide (id = clinicId)
                                 && bool_decide (Clinic.organizationId c = orgId))
                        (clinics db)
            else (push_failed results patientData "Invalid clinic selected", db);
          (* Create patient *)
          let patient := Patient.mk name phone clinicId in
          (push_successful results newId patient,
           set_patients db (<[newId := patient]> (patients db)))
      end
  | _, _, _ =>
      (push_failed results patientData
         "Missing required fields: name, phone, or clinicId", db)
  end.

(** [importSummary] *)
Record ImportSummary := mkImportSummary {
  s_total : nat;
  s_successful : nat;
  s_failed : nat;
  s_duplicates : nat;
  s_errors : list (ImportItem * string) }.

(** [patients] is [None] when [req.body.patients] is not an array. *)
Definition bulkImportPatients (db : Db) (userId : string)
    (patients : option (list (ImportItem * string)))
    : Reply ImportSummary * Db :=
  let? user := users db !! userId
    else (Failure (json 500 (ErrorBody "Failed to import patients")), db);
  let? (orgId, _) := organization db user
    else (Failure (json 404 (ErrorBody "Organization not found")), db);
  match patients with
  | None | Some [] =>
      (Failure (json 400 (ErrorBody "No patients data provided")), db)
  | Some items =>
      let '(results, db') :=
        foldl (import_one orgId) (mkImportResults [] [] [], db) items in
      (Success 200
         (mkImportSummary (length items) (length (r_successful results))
            (length (r_failed results)) (length (r_duplicates results))
            (r_failed results)),
       db')
  end.

(** ** controllers/clinics.controller.js, writes *)

Definition createClinic (db : Db) (userId name newId : string)
    : Response * Db :=
  let? user := users db !! userId
    else (json 500 (ErrorBody "Failed to create clinic"), db);
  let? (orgId, _) := organization db user
    else (json 404 (ErrorBody "Organization not found"), db);
  (* 1. Create new clinic under user's organization *)
  let clinic := Clinic.mk name orgId in
  (json 201 (ClinicBody newId clinic),
   set_clinics db (<[newId := clinic]> (clinics db))).

Definition rename (name : option string) (c : Clinic.t) : Clinic.t :=
  Clinic.mk (default (Clinic.name c) name) (Clinic.organizationId c).

Definition clinic_not_found := json 404 (ErrorBody "Clinic not found").

Definition updateClinic (db : Db) (userId id : string) (name : option string)
    : Response * Db :=
  let? user := users db !! userId else (clinic_not_found, db);
  let? (orgId, _) := organization db user
    else (json 404 (ErrorBody "Organization not found"), db);
  (* 1. Find clinic by ID *)
  let? existingClinic :=
      findFirst (λ k c, bool_decide (k = id)
                        && bool_decide (Clinic.organizationId c = orgId))
                (clinics db)
    else (clinic_not_found, db);
  (* 3. Update clinic details *)
  (json 200 (ClinicBody id (rename name existingClinic.2)),
   set_clinics db (alter (rename name) id (clinics db))).

Definition has_patients_error :=
  json 400 (ErrorBody
    "Cannot delete clinic with existing patients. Please transfer or archive patients first.").

Definition has_appointments_error :=
  json 400 (ErrorBody
    "Cannot delete clinic with existing appointments. Please cancel or reschedule appointments first.").

(** The rows that refer to a clinic are the patients and the appointments
    the handler counts; with none of either the store deletes the row. *)
Definition deleteClinic (db : Db) (userId id : string) : Response * Db :=
  let? user := users db !! userId
    else (json 400 (ErrorBody "Cannot delete clinic with active data"), db);
  let? (orgId, _) := organization db user
    else (json 404 (ErrorBody "Organization not found"), db);
  (* 1. Find clinic by ID *)
  let? clinic :=
      findFirst (λ k c, bool_decide (k = id)
                        && bool_decide (Clinic.organizationId c = orgId))
                (clinics db)
    else (clinic_not_found, db);
  (* 3. Check if clinic has no active appointments or patients *)
  return_if bool_decide
              (0 < count (λ _ p, bool_decide (Patient.clinicId p = id)) (patients db))
    then (has_patients_error, db);
  return_if bool_decide
              (0 < count (λ _ a, bool_decide (Appointment.clinicId a = id))
                         (appointments db))
    then (has_appointments_error, db);
  (* 4. Delete clinic *)
  (json 200 (MessageBody "Clinic deleted successfully"),
   set_clinics db (delete id (clinics db))).

(** ** controllers/ehr.controller.js, writes and the billed features *)

Definition patient_not_found := json 404 (ErrorBody "Patient not found").

Definition createEHRRecord (db : Db) (userId patientId : string)
    (diagnosis : option string) (newId : string) : Response * Db :=
  let? user := users db !! userId
    else (json 500 (ErrorBody "Failed to create EHR record"), db);
  let? (orgId, _) := organization db user
    else (json 404 (ErrorBody "Organization not found"), db);
  let? patient :=
      findFirst (λ k p, bool_decide (k = patientId)
                        && clinic_in db (Patient.clinicId p) orgId)
                (patients db)
    else (patient_not_found, db);
  (* Create EHR record *)
  let ehrRecord := EHRRecord.mk patientId userId diagnosis in
  (json 201 (EHRRecordBody newId ehrRecord),
   set_ehrRecords db (<[newId := ehrRecord]> (ehrRecords db))).

Definition rediagnose (diagnosis : option string) (r : EHRRecord.t)
    : EHRRecord.t :=
  EHRRecord.mk (EHRRecord.patientId r) (EHRRecord.doctorId r)
    (match diagnosis with Some d => Some d | None => EHRRecord.diagnosis r end).

Definition ehr_not_found := json 404 (ErrorBody "EHR record not found").

Definition no_permission :=
  json 403 (ErrorBody "You do not have permission to edit this record").

Definition updateEHRRecord (db : Db) (userId id : string)
    (diagnosis : option string) : Response * Db :=
  let? user := users db !! userId else (ehr_not_found, db);
  let? (orgId, _) := organization db user
    else (json 404 (ErrorBody "Organization not found"), db);
  let? ehrRecord :=
      findFirst (λ k r, bool_decide (k = id)
                        && patient_in db (EHRRecord.patientId r) orgId)
                (ehrRecords db)
    else (ehr_not_found, db);
  (* Check if user has permission to edit *)
  return_if negb (bool_decide (EHRRecord.doctorId ehrRecord.2 = userId))
            && negb (bool_decide (User.role user = ADMIN))
    then (no_permission, db);
  (json 200 (EHRRecordBody id (rediagnose diagnosis ehrRecord.2)),
   set_ehrRecords db (alter (rediagnose diagnosis) id (ehrRecords db))).

Definition used_once (o : OrganizationAddOn.t) : OrganizationAddOn.t :=
  OrganizationAddOn.mk (OrganizationAddOn.organizationId o)
    (OrganizationAddOn.addOnId o) (OrganizationAddOn.isActive o)
    (OrganizationAddOn.usageCount o + 1).

(** The [updateMany] that bills a use: [usageCount: { increment: 1 }] on the
    rows of the organization whose add-on is named 'AI Scribe'. *)
Definition increment_usage (catalog : gmap string AddOn.t) (db : Db)
    (orgId : string) : Db :=
  set_organizationAddOns db
    (updateMany
       (λ o, bool_decide (OrganizationAddOn.organizationId o = orgId)
             && addOn_named catalog "AI Scribe" o)
       used_once (organizationAddOns db)).

(** The common body of [voiceToText], [extractTextFromImage] and
    [generateSummary]: [input] is the field of the body that is read,
    [service] the result of the AI call ([None] when it throws). *)
Definition billed_feature (failed required : string)
    (catalog : gmap string AddOn.t) (db : Db) (userId : string)
    (input : option string) (service : option string) : Reply string * Db :=
  let thrown := (Failure (json 500 (ErrorBody failed)), db) in
  let? user := users db !! userId else thrown;
  let? (orgId, _) := organization db user
    else (Failure (json 404 (ErrorBody "Organization not found")), db);
  let? input := truthy_str input
    else (Failure (json 400 (ErrorBody required)), db);
  (* Call AI service *)
  let? text := service else thrown;
  (* Increment usage count for billing *)
  (Success 200 text, increment_usage catalog db orgId).

Definition voiceToText :=
  billed_feature "Failed to transcribe audio" "Audio data is required".

Definition extractTextFromImage :=
  billed_feature "Failed to extract text from image" "Image data is required".

Definition generateSummary :=
  billed_feature "Failed to generate AI summary" "Text input is required".

(** ** controllers/addons.controller.js, subscription *)

(** [organizationAddOn.upsert] on the unique pair
    [(organizationId, addOnId)]; [newId] is the key of the row if one is
    created. *)
Definition upsert_addon (orgId : string) (newId : string → string)
    (m : gmap string OrganizationAddOn.t) (addOnId : string)
    : gmap string OrganizationAddOn.t :=
  match findFirst (λ _ o, bool_decide (OrganizationAddOn.organizationId o = orgId)
                          && bool_decide (OrganizationAddOn.addOnId o = addOnId))
                  m with
  | Some row => alter (set_isActive true) row.1 m
  | None => <[newId addOnId := OrganizationAddOn.mk orgId addOnId true 0]> m
  end.

(** [subscription] of the answer: the key of the row, the amount, the
    status. *)
Definition SubscriptionSummary : Type := string * Z * string.

(** [addonIds] is [None] when [req.body.addonIds] is not an array; [gateway]
    is the [id] of the object [createRazorpaySubscription] returns, [None]
    when it throws; [rowId] and [subscriptionKey] are the keys the store
    gives to created rows. *)
Definition subscribeToAddons (catalog : gmap string AddOn.t) (db : Db)
    (userId : string) (addonIds : option (list string))
    (rowId : string → string) (gateway : option string)
    (subscriptionKey : string) : Reply SubscriptionSummary * Db :=
  let failed := Failure (json 500 (ErrorBody "Failed to create subscription")) in
  let? user := users db !! userId else (failed, db);
  let? (orgId, _) := organization db user
    else (Failure (json 404 (ErrorBody "Organization not found")), db);
  match addonIds with
  | None | Some [] =>
      (Failure (json 400 (ErrorBody "Please select at least one add-on")), db)
  | Some addonIds =>
      (* Validate add-ons exist *)
      let addons := findMany (λ id _, bool_decide (id ∈ addonIds)) catalog in
      return_if negb (bool_decide (length addons = length addonIds))
        then (Failure (json 400
                (ErrorBody "One or more selected add-ons are invalid")), db);
      (* Calculate total amount *)
      let totalAmount := foldl (λ sum addon, sum + AddOn.price addon.2) 0 addons in
      (* Create/update organization add-ons *)
      let db1 :=
        set_organizationAddOns db
          (foldl (upsert_addon orgId rowId) (organizationAddOns db) addonIds) in
      (* Create Razorpay subscription *)
      let? subscriptionId := gateway else (failed, db1);
      (* Create subscription record in database *)
      let dbSubscription :=
        Subscription.mk orgId subscriptionId totalAmount ACTIVE None in
      (Success 200 (subscriptionKey, totalAmount, ACTIVE),
       set_subscriptions db1
         (<[subscriptionKey := dbSubscription]> (subscriptions db1)))
  end.

(** ** More of the small store *)

Module Sample.
Definition catalog : gmap string AddOn.t :=
  list_to_map [("scribe", AddOn.mk "AI Scribe" 4999);
               ("analytics", AddOn.mk "Analytics" 1999)].

(** A stand-in for [jwt.verify]: the token [t-<id>] carries the user id. *)
Definition jwt_verify (token : string) : Verified :=
  if bool_decide (String.substring 0 2 token = "t-")
  then Decoded (String.substring 2 (String.length token - 2) token)
  else if bool_decide (token = "expired") then TokenExpiredError
  else JsonWebTokenError.

(** A stand-in for a store that refuses to delete a patient to whom an
    appointment or an EHR record refers. *)
Definition patient_delete (db : Db) (id : string) : option Db :=
  if bool_decide
       (findMany (λ _ a, bool_decide (Appointment.patientId a = id))
                 (appointments db) = []
        ∧ findMany (λ _ r, bool_decide (EHRRecord.patientId r = id))
                   (ehrRecords db) = [])
  then Some (set_patients db (delete id (patients db)))
  else None.

Definition rowId (addOnId : string) : string := "oa-" +:+ addOnId.
End Sample.

(** ** Vocabulary of the further properties *)

(** No user refers to the organization [orgId]. *)
Definition unreferenced (db : Db) (orgId : string) : Prop :=
  ∀ k u, users db !! k = Some u → User.organizationId u ≠ Some orgId.

(** No invite carries [token]. *)
Definition unused_token (db : Db) (token : string) : Prop :=
  ∀ k i, invites db !! k = Some i → Invite.token i ≠ token.

(** The routes put [authenticateToken] before [requireAdmin]. *)
Definition admin_gate (jwt_verify : string → Verified) (db : Db)
    (authorization : option string) : Outcome ReqUser :=
  match authenticateToken jwt_verify db authorization with
  | Answer r => Answer r
  | Next user => requireAdmin (Some user)
  end.

Definition no_space (s : string) : Prop :=
  Forall (λ c, c ≠ Ascii.Space) (String.list_ascii_of_string s).

(** The organization has an active row for the add-on. *)
Definition enabled (m : gmap string OrganizationAddOn.t)
    (orgId addOnId : string) : Prop :=
  ∃ k o, m !! k = Some o
         ∧ OrganizationAddOn.organizationId o = orgId
         ∧ OrganizationAddOn.addOnId o = addOnId
         ∧ OrganizationAddOn.isActive o = true.

(** A row under a key that the store would give to a new row of the
    organization for an add-on is the row of that pair; it holds of a store
    in which no such key is taken. *)
Definition keys_own (rowId : string → string) (orgId : string)
    (m : gmap string OrganizationAddOn.t) : Prop :=
  ∀ id k o, m !! k = Some o → k = rowId id →
    OrganizationAddOn.organizationId o = orgId
    ∧ OrganizationAddOn.addOnId o = id.

Definition valid_selection (catalog : gmap string AddOn.t)
    (addonIds : list string) : Prop :=
  NoDup addonIds ∧ ∀ id, id ∈ addonIds → is_Some (catalog !! id).

Definition invalid_selection :=
  json 400 (ErrorBody "One or more selected add-ons are invalid").

Definition subscription_failed :=
  json 500 (ErrorBody "Failed to create subscription").

(** Every patient and every appointment refers to a stored clinic. *)
Definition clinic_refs_ok (db : Db) : Prop :=
  (∀ k p, patients db !! k = Some p → is_Some (clinics db !! Patient.clinicId p))
  ∧ (∀ k a, appointments db !! k = Some a →
            is_Some (clinics db !! Appointment.clinicId a)).

(** An appointment of the patient that starts at [now] or later and is
    SCHEDULED or CONFIRMED. *)
Definition has_active_appointment (db : Db) (patientId : string) (now : Z)
    : Prop :=
  ∃ k a, appointments db !! k = Some a
         ∧ Appointment.patientId a = patientId
         ∧ now ≤ Appointment.appointmentDate a
         ∧ (Appointment.status a = SCHEDULED ∨ Appointment.status a = CONFIRMED).

(** No patient and no appointment refers to the clinic. *)
Definition clinic_unreferenced (db : Db) (id : string) : Prop :=
  (∀ k p, patients db !! k = Some p → Patient.clinicId p ≠ id)
  ∧ (∀ k a, appointments db !! k = Some a → Appointment.clinicId a ≠ id).

(** No two patients of one organization hold the same phone. *)
Definition phones_unique (db : Db) : Prop :=
  ∀ k1 k2 p1 p2 orgId,
    patients db !! k1 = Some p1 → patients db !! k2 = Some p2 →
    Patient.phone p1 = Patient.phone p2 →
    clinic_owner db (Patient.clinicId p1) = Some orgId →
    clinic_owner db (Patient.clinicId p2) = Some orgId →
    k1 = k2.

(** The keys are distinct and none of them is a patient's yet. *)
Definition fresh_ids (db : Db) (ids : list string) : Prop :=
  NoDup ids ∧ ∀ id, id ∈ ids → patients db !! id = None.

(** The users a backup document holds columns of: the members it lists and
    the doctors nested under its appointments and EHR records. *)
Definition snapshot_users (s : Snapshot) : list string :=
  (s_users s).*1 ++ omap (λ kv, kv.2.2) (s_appointments s)
  ++ omap (λ kv, kv.2.2) (s_ehrRecords s).

(** The appointments and the EHR records of an organization's patients name
    doctors of that organization. *)
Definition doctors_in_tenant (db : Db) : Prop :=
  (∀ k a o, appointments db !! k = Some a →
            patient_owner db (Appointment.patientId a) = Some o →
            ∃ u, users db !! Appointment.doctorId a = Some u
                 ∧ User.organizationId u = Some o)
  ∧ (∀ k r o, ehrRecords db !! k = Some r →
              patient_owner db (EHRRecord.patientId r) = Some o →
              ∃ u, users db !! EHRRecord.doctorId r = Some u
                   ∧ User.organizationId u = Some o).

(** * Properties *)

(** ** The queries *)

Section QueryFacts.
Context {A : Type}.
Implicit Types (m : gmap string A) (P : string → A → bool).

Lemma findMany_spec P m k a :
  (k, a) ∈ findMany P m ↔ m !! k = Some a ∧ P k a = true.
Proof.
  unfold findMany. rewrite list_elem_of_filter, elem_of_map_to_list.
  simpl. tauto.
Qed.

Lemma findFirst_Some P m k a :
  findFirst P m = Some (k, a) → m !! k = Some a ∧ P k a = true.
Proof.
  unfold findFirst. intros H. apply findMany_spec.
  by apply head_Some_elem_of.
Qed.

Lemma findFirst_None P m :
  findFirst P m = None ↔ ∀ k a, m !! k = Some a → P k a = false.
Proof.
  unfold findFirst. rewrite head_None. split.
  - intros E k a Hk. destruct (P k a) eqn:HP; [|done].
    assert ((k, a) ∈ findMany P m) as Hin by by apply findMany_spec.
    rewrite E in Hin. by apply elem_of_nil in Hin.
  - intros H. destruct (findMany P m) as [|[k a] l] eqn:E; [done|].
    assert ((k, a) ∈ findMany P m) as Hin by (rewrite E; left).
    apply findMany_spec in Hin as [Hk HP].
    rewrite (H k a Hk) in HP. done.
Qed.

Lemma findFirst_is_Some P m k a :
  m !! k = Some a → P k a = true → is_Some (findFirst P m).
Proof.
  intros Hk HP. destruct (findFirst P m) eqn:E; [by eexists|].
  rewrite findFirst_None in E. rewrite (E k a Hk) in HP. done.
Qed.

(** A [where] that fixes the primary key selects the row under that key. *)
Lemma findFirst_by_id (Q : string → A → bool) m id :
  findFirst (λ k a, bool_decide (k = id) && Q k a) m
  = match m !! id with
    | Some a => if Q id a then Some (id, a) else None
    | None => None
    end.
Proof.
  destruct (findFirst _ m) as [[k a]|] eqn:E.
  - apply findFirst_Some in E as [Hk HP].
    apply andb_true_iff in HP as [Hid HQ].
    apply bool_decide_eq_true in Hid. subst k.
    by rewrite Hk, HQ.
  - rewrite findFirst_None in E.
    destruct (m !! id) as [a|] eqn:Hk; [|done].
    specialize (E id a Hk). rewrite bool_decide_eq_true_2 in E by done.
    simpl in E. by rewrite E.
Qed.
End QueryFacts.

Section QueryExt.
Context {A : Type}.

Lemma findMany_ext (P Q : string → A → bool) (m : gmap string A) :
  (∀ k a, P k a = Q k a) → findMany P m = findMany Q m.
Proof.
  intros H. unfold findMany. apply list_filter_iff.
  intros [k a]. simpl. by rewrite H.
Qed.

Lemma findFirst_ext (P Q : string → A → bool) (m : gmap string A) :
  (∀ k a, P k a = Q k a) → findFirst P m = findFirst Q m.
Proof. intros H. unfold findFirst. by rewrite (findMany_ext P Q m H). Qed.
End QueryExt.

(** ** Tenant scope of the by-id handlers *)

Lemma findFirst_scoped db id userId user orgId :
  findFirst (matches db (scoped_where id userId user orgId)) (appointments db)
  = match appointments db !! id with
    | Some a => if in_scope db userId user orgId a then Some (id, a) else None
    | None => None
    end.
Proof.
  rewrite <- (findFirst_by_id (λ _ a, in_scope db userId user orgId a)).
  apply findFirst_ext. intros k a.
  unfold matches, scoped_where, in_scope.
  destruct (bool_decide (User.role user = DOCTOR)); simpl;
    rewrite ?andb_true_r; by rewrite ?andb_assoc.
Qed.

Lemma clinic_in_owner db clinicId orgId :
  clinic_in db clinicId orgId = bool_decide (clinic_owner db clinicId = Some orgId).
Proof.
  unfold clinic_in, clinic_owner.
  destruct (clinics db !! clinicId) as [c|]; simpl.
  - apply bool_decide_ext. split; [congruence|]. by intros [= ->].
  - done.
Qed.

Lemma patient_in_owner db patientId orgId :
  patient_in db patientId orgId
  = bool_decide (patient_owner db patientId = Some orgId).
Proof.
  unfold patient_in, patient_owner.
  destruct (patients db !! patientId) as [p|]; simpl.
  - apply clinic_in_owner.
  - done.
Qed.

Lemma organization_Some db u orgId row :
  organization db u = Some (orgId, row) →
  User.organizationId u = Some orgId ∧ organizations db !! orgId = Some row.
Proof.
  unfold organization. destruct (User.organizationId u) as [o|]; simpl; [|done].
  destruct (organizations db !! o) eqn:E; simpl; [|done].
  intros [= <- <-]. done.
Qed.

(** Claim C1.  An entity of organization [o1], requested by id by a caller
    whose organization is [o2 ≠ o1]: each of the four [GET /:id] controllers
    answers 404, with an error body that carries no row. *)
Theorem C1_out_of_scope_by_id db kind userId user o1 o2 row id :
  users db !! userId = Some user →
  organization db user = Some (o2, row) →
  owner db kind id = Some o1 →
  o1 ≠ o2 →
  not_found (getById kind db userId id) = true
  ∧ carries_no_entity (body (getById kind db userId id)) = true.
Proof.
  intros Hu Ho Hown Hne.
  assert (∀ cid, clinic_owner db cid = Some o1 → clinic_in db cid o2 = false)
    as Hclinic.
  { intros cid Hc. rewrite clinic_in_owner, Hc.
    apply bool_decide_eq_false_2. congruence. }
  assert (∀ pid, patient_owner db pid = Some o1 → patient_in db pid o2 = false)
    as Hpatient.
  { intros pid Hp. rewrite patient_in_owner, Hp.
    apply bool_decide_eq_false_2. congruence. }
  destruct kind; simpl in *;
    unfold getPatientById, getAppointmentById, getEHRRecordById, getClinicById;
    rewrite Hu, Ho; simpl.
  - rewrite (findFirst_by_id (λ _ p, clinic_in db (Patient.clinicId p) o2)).
    unfold patient_owner in Hown.
    destruct (patients db !! id) as [p|]; simpl in *; [|done].
    by rewrite (Hclinic _ Hown).
  - rewrite findFirst_scoped.
    destruct (appointments db !! id) as [a|]; simpl in *; [|done].
    unfold in_scope. by rewrite (Hclinic _ Hown).
  - rewrite (findFirst_by_id (λ _ r, patient_in db (EHRRecord.patientId r) o2)).
    destruct (ehrRecords db !! id) as [r|]; simpl in *; [|done].
    by rewrite (Hpatient _ Hown).
  - rewrite (findFirst_by_id (λ _ c, bool_decide (Clinic.organizationId c = o2))).
    unfold clinic_owner in Hown.
    destruct (clinics db !! id) as [c|]; simpl in *; [|done].
    injection Hown as Hown. rewrite bool_decide_eq_false_2; [done|congruence].
Qed.

(** Claim C1 at work: [doc3] of [org2] asks for the patient [pat1], the
    appointment [apt1], the EHR record [ehr1] and the clinic [clinic1] of
    [org1]. *)
Lemma C1_out_of_scope_by_id_witness :
  Forall (λ request,
            not_found (getById request.1 Example.db "doc3" request.2) = true
            ∧ carries_no_entity
                (body (getById request.1 Example.db "doc3" request.2)) = true)
         [(PatientKind, "pat1"); (AppointmentKind, "apt1");
          (EHRRecordKind, "ehr1"); (ClinicKind, "clinic1")].
Proof.
  repeat first [apply Forall_cons_2 | apply Forall_nil_2]; cbn [fst snd].
  all: apply (C1_out_of_scope_by_id Example.db _ "doc3"
                (User.mk "doc3@south.example" DOCTOR (Some "org2") true)
                "org1" "org2" (Organization.mk "South Practice" None));
    [reflexivity|reflexivity|reflexivity|discriminate].
Defined.

(** ** Listing appointments *)

Lemma getAppointments_where_doctorId userId user orgId q :
  w_doctorId (getAppointments_where userId user orgId q)
  = match truthy_str (q_doctor q) with
    | Some doctor => Some doctor
    | None => if bool_decide (User.role user = DOCTOR) then Some userId else None
    end.
Proof.
  unfold getAppointments_where.
  destruct (bool_decide (User.role user = DOCTOR)), (q_date q),
    (truthy_str (q_doctor q)), (truthy_str (q_clinic q)),
    (truthy_str (q_status q)); reflexivity.
Qed.

Lemma getAppointments_where_organization userId user orgId q :
  w_clinic_organizationId (getAppointments_where userId user orgId q) = Some orgId
  ∧ w_id (getAppointments_where userId user orgId q) = None.
Proof.
  unfold getAppointments_where.
  destruct (bool_decide (User.role user = DOCTOR)), (q_date q),
    (truthy_str (q_doctor q)), (truthy_str (q_clinic q)),
    (truthy_str (q_status q)); split; reflexivity.
Qed.

(** The list sent is the selection of the [whereConditions] built. *)
Lemma getAppointments_lists db userId user orgId row q :
  users db !! userId = Some user →
  organization db user = Some (orgId, row) →
  ∃ l, getAppointments db userId q = json 200 (AppointmentsBody l)
       ∧ ∀ k a, (k, a) ∈ l ↔
           appointments db !! k = Some a
           ∧ matches db (getAppointments_where userId user orgId q) k a = true.
Proof.
  intros Hu Ho. unfold getAppointments. rewrite Hu, Ho. simpl.
  eexists. split; [reflexivity|]. intros k a.
  rewrite merge_sort_Permutation. apply findMany_spec.
Qed.

(** Without a [doctor] filter, a DOCTOR is sent only their own appointments. *)
Lemma getAppointments_doctor_own db userId user orgId row q l :
  users db !! userId = Some user →
  organization db user = Some (orgId, row) →
  User.role user = DOCTOR →
  truthy_str (q_doctor q) = None →
  getAppointments db userId q = json 200 (AppointmentsBody l) →
  ∀ k a, (k, a) ∈ l → Appointment.doctorId a = userId.
Proof.
  intros Hu Ho Hr Hq Hl k a Hin.
  destruct (getAppointments_lists db userId user orgId row q Hu Ho)
    as (l' & Hl' & Hspec).
  rewrite Hl in Hl'. injection Hl' as <-.
  apply Hspec in Hin as [_ Hm]. unfold matches in Hm.
  rewrite getAppointments_where_doctorId, Hq in Hm.
  rewrite bool_decide_eq_true_2 in Hm by done.
  rewrite !andb_true_iff in Hm. simpl in Hm.
  destruct Hm as [[[[_ Hd] _] _] _]. by apply bool_decide_eq_true in Hd.
Qed.

(** Without filters, STAFF and ADMIN are sent every appointment of their
    organization. *)
Lemma getAppointments_staff_all db userId user orgId row l :
  users db !! userId = Some user →
  organization db user = Some (orgId, row) →
  User.role user ≠ DOCTOR →
  getAppointments db userId (mkQuery None None None None)
    = json 200 (AppointmentsBody l) →
  ∀ k a, (k, a) ∈ l ↔
    appointments db !! k = Some a ∧ owner db AppointmentKind k = Some orgId.
Proof.
  intros Hu Ho Hr Hl k a.
  destruct (getAppointments_lists db userId user orgId row
              (mkQuery None None None None) Hu Ho) as (l' & Hl' & Hspec).
  rewrite Hl in Hl'. injection Hl' as <-.
  rewrite Hspec. unfold matches, getAppointments_where. simpl.
  rewrite bool_decide_eq_false_2 by done. simpl.
  rewrite !andb_true_r, clinic_in_owner, bool_decide_eq_true.
  split; intros [Hk H]; (split; [done|]); by rewrite Hk in *.
Qed.

(** With a [doctor] filter, whatever the role of the caller, the list holds
    the appointments of that doctor. *)
Lemma getAppointments_doctor_filter db userId user orgId row q doctor l :
  users db !! userId = Some user →
  organization db user = Some (orgId, row) →
  truthy_str (q_doctor q) = Some doctor →
  getAppointments db userId q = json 200 (AppointmentsBody l) →
  ∀ k a, (k, a) ∈ l → Appointment.doctorId a = doctor.
Proof.
  intros Hu Ho Hq Hl k a Hin.
  destruct (getAppointments_lists db userId user orgId row q Hu Ho)
    as (l' & Hl' & Hspec).
  rewrite Hl in Hl'. injection Hl' as <-.
  apply Hspec in Hin as [_ Hm]. unfold matches in Hm.
  rewrite getAppointments_where_doctorId, Hq in Hm.
  rewrite !andb_true_iff in Hm. simpl in Hm.
  destruct Hm as [[[[_ Hd] _] _] _]. by apply bool_decide_eq_true in Hd.
Qed.

(** Claim C2 fails on the code at this request: [doc1], whose role is DOCTOR,
    lists with the query filter [doctor=doc2] and is sent [apt2], an
    appointment of [doc2]: the assignment of the [doctor] filter replaces the
    [doctorId] that the role had set. *)
Theorem C2_doctor_filter_replaces_role_scope :
  ∃ user a,
    users Example.db !! "doc1" = Some user
    ∧ User.role user = DOCTOR
    ∧ getAppointments Example.db "doc1" (mkQuery None (Some "doc2") None None)
      = json 200 (AppointmentsBody [("apt2", a)])
    ∧ Appointment.doctorId a = "doc2".
Proof.
  eexists _, _. split; [reflexivity|]. split; [reflexivity|].
  split; [vm_compute; reflexivity|reflexivity].
Qed.

(** ** Scheduling conflicts *)

Lemma conflicts_spec doctorId exclude start minutes id a :
  conflicts doctorId exclude start minutes id a = true ↔
    Some id ≠ exclude
    ∧ Appointment.doctorId a = doctorId
    ∧ start - minutes * 60 * 1000 ≤ Appointment.appointmentDate a
    ∧ Appointment.appointmentDate a ≤ start + minutes * 60 * 1000
    ∧ (Appointment.status a = SCHEDULED ∨ Appointment.status a = CONFIRMED).
Proof.
  unfold conflicts, includes.
  rewrite !andb_true_iff, !bool_decide_eq_true.
  rewrite !elem_of_cons, elem_of_nil.
  assert (holds exclude (λ i, negb (bool_decide (id = i))) = true
          ↔ Some id ≠ exclude) as ->.
  { destruct exclude as [i|]; simpl; [|done].
    rewrite negb_true_iff, bool_decide_eq_false. split; congruence. }
  tauto.
Qed.

Lemma conflict_found db doctorId exclude start minutes :
  window_conflict db doctorId exclude start minutes ↔
  is_Some (findFirst (conflicts doctorId exclude start minutes) (appointments db)).
Proof.
  unfold window_conflict. split.
  - intros (id & a & Hk & H). apply (findFirst_is_Some _ _ id a Hk).
    apply conflicts_spec. tauto.
  - intros [[id a] H]. apply findFirst_Some in H as [Hk H].
    apply conflicts_spec in H. exists id, a. tauto.
Qed.

Lemma createAppointment_conflict_rejected db userId b now newId :
  window_conflict db (c_doctorId b) None (c_appointmentDate b)
                  (num_or (c_duration b) 30) →
  (createAppointment db userId b now newId).2 = db
  ∧ rejected (createAppointment db userId b now newId).1 = true.
Proof.
  intros Hc. apply conflict_found in Hc. unfold createAppointment.
  repeat case_match; simpl; try done.
  exfalso. by rewrite bool_decide_eq_true_2 in * by done.
Qed.

Lemma createAppointment_conflict_error db userId b now newId :
  window_conflict db (c_doctorId b) None (c_appointmentDate b)
                  (num_or (c_duration b) 30) →
  passes_earlier_checks db userId (Create b newId) now →
  valid_window (c_appointmentDate b) (num_or (c_duration b) 30) = true →
  (createAppointment db userId b now newId).1 = conflict_error.
Proof.
  intros Hc (user & orgId & row & Hu & Ho & Hp & (d & Hd & Hdo & Hdr) & Hcl & Hfut)
    Hvalid.
  apply conflict_found in Hc. unfold createAppointment.
  rewrite Hu, Ho. simpl.
  rewrite (findFirst_by_id (λ _ p, clinic_in db (Patient.clinicId p) orgId)).
  unfold patient_owner in Hp.
  destruct (patients db !! c_patientId b) as [p|]; simpl in Hp; [|done].
  rewrite clinic_in_owner, Hp, bool_decide_eq_true_2 by done.
  rewrite (findFirst_ext _
             (λ k u, bool_decide (k = c_doctorId b)
                     && (bool_decide (User.organizationId u = Some orgId)
                         && bool_decide (User.role u = DOCTOR))))
    by (intros; by rewrite andb_assoc).
  rewrite (findFirst_by_id
             (λ _ u, bool_decide (User.organizationId u = Some orgId)
                     && bool_decide (User.role u = DOCTOR))).
  rewrite Hd, !bool_decide_eq_true_2 by done. simpl.
  rewrite (findFirst_by_id (λ _ c, bool_decide (Clinic.organizationId c = orgId))).
  unfold clinic_owner in Hcl.
  destruct (clinics db !! c_clinicId b) as [c|]; simpl in Hcl; [|done].
  injection Hcl as Hcl. rewrite bool_decide_eq_true_2 by done.
  rewrite bool_decide_eq_false_2 by lia. rewrite Hvalid.
  by rewrite bool_decide_eq_true_2 by done.
Qed.

Lemma updateAppointment_conflict_rejected db userId id b now existing start :
  appointments db !! id = Some existing →
  u_appointmentDate b = Some start →
  window_conflict db (str_or (u_doctorId b) (Appointment.doctorId existing))
                  (Some id) start
                  (num_or (u_duration b) (Appointment.duration existing)) →
  (updateAppointment db userId id b now).2 = db
  ∧ rejected (updateAppointment db userId id b now).1 = true.
Proof.
  intros Hk Hs Hc. apply conflict_found in Hc. unfold updateAppointment.
  destruct (users db !! userId) as [user|]; [|done].
  destruct (organization db user) as [[orgId row]|]; [|done].
  rewrite findFirst_scoped, Hk.
  destruct (in_scope db userId user orgId existing); [|done].
  case_match; [done|]. rewrite Hs. simpl.
  case_bool_decide; [done|]. destruct (valid_window _ _); [|done].
  by rewrite bool_decide_eq_true_2 by done.
Qed.

Lemma updateAppointment_conflict_error db userId id b now existing start :
  appointments db !! id = Some existing →
  u_appointmentDate b = Some start →
  window_conflict db (str_or (u_doctorId b) (Appointment.doctorId existing))
                  (Some id) start
                  (num_or (u_duration b) (Appointment.duration existing)) →
  passes_earlier_checks db userId (Update id b) now →
  valid_window start (num_or (u_duration b) (Appointment.duration existing))
  = true →
  (updateAppointment db userId id b now).1 = conflict_error.
Proof.
  intros Hk Hs Hc (user & orgId & row & Hu & Ho & (a & Ha & Hscope) & Hst & Hfut)
    Hvalid.
  apply conflict_found in Hc. unfold updateAppointment.
  rewrite Hu, Ho. simpl. rewrite findFirst_scoped, Hk.
  rewrite Hk in Ha. injection Ha as <-. rewrite Hscope.
  assert (match truthy_str (u_status b) with
          | Some status => negb (includes valid_statuses status)
          | None => false
          end = false) as ->.
  { destruct (u_status b) as [s|]; simpl; [|done].
    case_bool_decide; [done|]. destruct (Hst s eq_refl) as [?|Hin]; [done|].
    unfold includes. by rewrite bool_decide_eq_true_2. }
  rewrite Hs. simpl. rewrite bool_decide_eq_false_2 by (specialize (Hfut _ Hs); lia).
  rewrite Hvalid. by rewrite bool_decide_eq_true_2 by done.
Qed.

Lemma createAppointment_window_thrown db userId b now newId :
  passes_earlier_checks db userId (Create b newId) now →
  valid_window (c_appointmentDate b) (num_or (c_duration b) 30) = false →
  (createAppointment db userId b now newId).1
  = json 500 (ErrorBody "Failed to create appointment").
Proof.
  intros (user & orgId & row & Hu & Ho & Hp & (d & Hd & Hdo & Hdr) & Hcl & Hfut)
    Hvalid.
  unfold createAppointment. rewrite Hu, Ho. simpl.
  rewrite (findFirst_by_id (λ _ p, clinic_in db (Patient.clinicId p) orgId)).
  unfold patient_owner in Hp.
  destruct (patients db !! c_patientId b) as [p|]; simpl in Hp; [|done].
  rewrite clinic_in_owner, Hp, bool_decide_eq_true_2 by done.
  rewrite (findFirst_ext _
             (λ k u, bool_decide (k = c_doctorId b)
                     && (bool_decide (User.organizationId u = Some orgId)
                         && bool_decide (User.role u = DOCTOR))))
    by (intros; by rewrite andb_assoc).
  rewrite (findFirst_by_id
             (λ _ u, bool_decide (User.organizationId u = Some orgId)
                     && bool_decide (User.role u = DOCTOR))).
  rewrite Hd, !bool_decide_eq_true_2 by done. simpl.
  rewrite (findFirst_by_id (λ _ c, bool_decide (Clinic.organizationId c = orgId))).
  unfold clinic_owner in Hcl.
  destruct (clinics db !! c_clinicId b) as [c|]; simpl in Hcl; [|done].
  injection Hcl as Hcl. rewrite bool_decide_eq_true_2 by done.
  rewrite bool_decide_eq_false_2 by lia. by rewrite Hvalid.
Qed.

Lemma updateAppointment_window_thrown db userId id b now existing start :
  appointments db !! id = Some existing →
  u_appointmentDate b = Some start →
  passes_earlier_checks db userId (Update id b) now →
  valid_window start (num_or (u_duration b) (Appointment.duration existing))
  = false →
  (updateAppointment db userId id b now).1
  = json 404 (ErrorBody "Appointment not found").
Proof.
  intros Hk Hs (user & orgId & row & Hu & Ho & (a & Ha & Hscope) & Hst & Hfut)
    Hvalid.
  unfold updateAppointment.
  rewrite Hu, Ho. simpl. rewrite findFirst_scoped, Hk.
  rewrite Hk in Ha. injection Ha as <-. rewrite Hscope.
  assert (match truthy_str (u_status b) with
          | Some status => negb (includes valid_statuses status)
          | None => false
          end = false) as ->.
  { destruct (u_status b) as [s|]; simpl; [|done].
    case_bool_decide; [done|]. destruct (Hst s eq_refl) as [?|Hin]; [done|].
    unfold includes. by rewrite bool_decide_eq_true_2. }
  rewrite Hs. simpl. rewrite bool_decide_eq_false_2 by (specialize (Hfut _ Hs); lia).
  by rewrite Hvalid.
Qed.

(** Claim C3.  A request that creates or updates an appointment and whose
    window [start - minutes, start + minutes] holds the start of another
    SCHEDULED or CONFIRMED appointment of the same doctor (on update, other
    than the row updated) is rejected and writes nothing.  When it passes the
    checks that come before the conflict query, the answer is the conflict
    error if both ends of the window are Dates (as they are for a duration
    of 15 to 480 minutes and a date of a four-digit year, which the
    validation of the route asks for), and the answer of the [catch] if one
    is not. *)
Theorem C3_conflicting_booking_rejected
    db userId req now doctorId exclude start minutes :
  requested_window db req = Some (doctorId, exclude, start, minutes) →
  window_conflict db doctorId exclude start minutes →
  (book db userId req now).2 = db
  ∧ rejected (book db userId req now).1 = true
  ∧ (passes_earlier_checks db userId req now →
     (valid_window start minutes = true →
      (book db userId req now).1 = conflict_error)
     ∧ (valid_window start minutes = false →
        (book db userId req now).1 = thrown_by req)).
Proof.
  intros Hw Hc. destruct req as [b newId|id b]; simpl in *.
  - injection Hw as <- <- <- <-.
    split; [|split; [|split]].
    + by apply createAppointment_conflict_rejected.
    + by apply createAppointment_conflict_rejected.
    + by apply createAppointment_conflict_error.
    + by apply createAppointment_window_thrown.
  - destruct (appointments db !! id) as [existing|] eqn:Hk; simpl in Hw; [|done].
    destruct (u_appointmentDate b) as [start'|] eqn:Hs; simpl in Hw; [|done].
    injection Hw as <- <- <- <-.
    split; [|split; [|split]].
    + by eapply updateAppointment_conflict_rejected.
    + by eapply updateAppointment_conflict_rejected.
    + by eapply updateAppointment_conflict_error.
    + by eapply updateAppointment_window_thrown.
Qed.

(** Claim C3 at work: [doc1] has [apt1] at [t0 + 600] minutes; a second
    booking for [doc1] at [t0 + 615] minutes, 30 minutes long, is refused
    with the conflict error, and one of 200000000000 minutes, the ends of
    whose window are no Dates, with the answer of the [catch]. *)
Lemma C3_conflicting_booking_rejected_witness :
  createAppointment Example.db "staff1"
    (mkCreateAppointment "pat2" "doc1" "clinic1"
       (Example.t0 + 615 * Example.minute) (Some 30) None)
    Example.t0 "apt9"
  = (conflict_error, Example.db)
  ∧ createAppointment Example.db "staff1"
      (mkCreateAppointment "pat2" "doc1" "clinic1"
         (Example.t0 + 615 * Example.minute) (Some 200000000000) None)
      Example.t0 "apt9"
    = (json 500 (ErrorBody "Failed to create appointment"), Example.db).
Proof.
  assert (∀ minutes,
            passes_earlier_checks Example.db "staff1"
              (Create (mkCreateAppointment "pat2" "doc1" "clinic1"
                         (Example.t0 + 615 * Example.minute) (Some minutes) None)
                      "apt9") Example.t0) as Hchecks.
  { intros minutes.
    exists (User.mk "staff1@north.example" STAFF (Some "org1") true),
           "org1", (Organization.mk "North Practice" None).
    split; [reflexivity|]. split; [reflexivity|].
    split; [reflexivity|]. split.
    - exists (User.mk "doc1@north.example" DOCTOR (Some "org1") true).
      split; [reflexivity|]. split; reflexivity.
    - split; [reflexivity|].
      unfold Example.t0, Example.minute. simpl. lia. }
  assert (∀ minutes, 30 ≤ minutes →
            window_conflict Example.db "doc1" None
              (Example.t0 + 615 * Example.minute) minutes) as Hconflict.
  { intros minutes Hm.
    exists "apt1", (Appointment.mk "pat1" "doc1" "clinic1"
                      (Example.t0 + 600 * Example.minute) 30 None SCHEDULED).
    split; [reflexivity|]. split; [discriminate|]. split; [reflexivity|].
    unfold Example.t0, Example.minute. simpl.
    split; [lia|]. split; [lia|]. left. reflexivity. }
  split.
  - destruct (C3_conflicting_booking_rejected Example.db "staff1"
                (Create (mkCreateAppointment "pat2" "doc1" "clinic1"
                           (Example.t0 + 615 * Example.minute) (Some 30) None)
                        "apt9")
                Example.t0 "doc1" None (Example.t0 + 615 * Example.minute) 30)
      as (Hdb & _ & Herr).
    + reflexivity.
    + apply Hconflict. lia.
    + simpl in Hdb, Herr. apply injective_projections; simpl; [|exact Hdb].
      destruct (Herr (Hchecks 30)) as [Hconf _]. apply Hconf. reflexivity.
  - destruct (C3_conflicting_booking_rejected Example.db "staff1"
                (Create (mkCreateAppointment "pat2" "doc1" "clinic1"
                           (Example.t0 + 615 * Example.minute)
                           (Some 200000000000) None)
                        "apt9")
                Example.t0 "doc1" None (Example.t0 + 615 * Example.minute)
                200000000000)
      as (Hdb & _ & Herr).
    + reflexivity.
    + apply Hconflict. lia.
    + simpl in Hdb, Herr. apply injective_projections; simpl; [|exact Hdb].
      destruct (Herr (Hchecks 200000000000)) as [_ Hthrown]. apply Hthrown.
      reflexivity.
Defined.

(** ** Duplicate phones *)

Lemma patient_owner_Some db id orgId :
  patient_owner db id = Some orgId →
  ∃ p, patients db !! id = Some p ∧ clinic_in db (Patient.clinicId p) orgId = true.
Proof.
  unfold patient_owner. destruct (patients db !! id) as [p|]; simpl; [|done].
  intros H. exists p. split; [done|].
  rewrite clinic_in_owner. by apply bool_decide_eq_true.
Qed.

Lemma createPatient_duplicate db userId user orgId row b newId :
  users db !! userId = Some user →
  organization db user = Some (orgId, row) →
  phone_taken db orgId (cp_phone b) None →
  rejected (createPatient db userId b newId).1 = true
  ∧ (createPatient db userId b newId).2 = db
  ∧ (phoneRegex_test (cp_phone b) = true →
     duplicate_rejection (createPatient db userId b newId).1 = true).
Proof.
  intros Hu Ho (id & p & Hk & _ & Hphone & Hown).
  unfold createPatient. rewrite Hu, Ho. simpl.
  destruct (phoneRegex_test (cp_phone b)); simpl; [|done].
  destruct (findFirst _ (patients db)) as [existing|] eqn:E; simpl; [done|].
  rewrite findFirst_None in E. specialize (E id p Hk). simpl in E.
  rewrite clinic_in_owner, Hown, !bool_decide_eq_true_2 in E by done.
  by simpl in E.
Qed.

Lemma updatePatient_duplicate db userId user orgId row id b phone p0 :
  users db !! userId = Some user →
  organization db user = Some (orgId, row) →
  patients db !! id = Some p0 →
  clinic_in db (Patient.clinicId p0) orgId = true →
  truthy_str (up_phone b) = Some phone →
  phone ≠ Patient.phone p0 →
  phone_taken db orgId phone (Some id) →
  rejected (updatePatient db userId id b).1 = true
  ∧ (updatePatient db userId id b).2 = db
  ∧ (phoneRegex_test phone = true →
     duplicate_rejection (updatePatient db userId id b).1 = true).
Proof.
  intros Hu Ho Hp0 Hscope Hphone Hne (id' & p & Hk & Hid & Hp & Hown).
  unfold updatePatient. rewrite Hu, Ho. simpl.
  rewrite (findFirst_by_id (λ _ p, clinic_in db (Patient.clinicId p) orgId)).
  rewrite Hp0, Hscope, Hphone. simpl.
  rewrite bool_decide_eq_true_2 by done.
  destruct (phoneRegex_test phone); simpl; [|done].
  destruct (findFirst _ (patients db)) as [duplicate|] eqn:E; simpl; [done|].
  rewrite findFirst_None in E. specialize (E id' p Hk). simpl in E.
  rewrite clinic_in_owner, Hown in E.
  rewrite (bool_decide_eq_true_2 (Patient.phone p = phone)) in E by done.
  rewrite (bool_decide_eq_false_2 (id' = id)) in E by congruence.
  rewrite bool_decide_eq_true_2 in E by done.
  by simpl in E.
Qed.

Lemma updatePatient_own_phone db userId user orgId row id b phone p0 :
  users db !! userId = Some user →
  organization db user = Some (orgId, row) →
  patients db !! id = Some p0 →
  clinic_in db (Patient.clinicId p0) orgId = true →
  truthy_str (up_phone b) = Some phone →
  phone = Patient.phone p0 →
  duplicate_rejection (updatePatient db userId id b).1 = false.
Proof.
  intros Hu Ho Hp0 Hscope Hphone Heq.
  unfold updatePatient. rewrite Hu, Ho. simpl.
  rewrite (findFirst_by_id (λ _ p, clinic_in db (Patient.clinicId p) orgId)).
  rewrite Hp0, Hscope, Hphone. simpl.
  rewrite bool_decide_eq_false_2 by (intros H; by apply H).
  by destruct (patient_update db id b).
Qed.

(** Claim C4.  For a caller of organization [orgId]: a request that would
    store a phone held by another patient of the organization (creating a
    patient, or changing the phone of one) is rejected and writes nothing,
    with the duplicate-phone error whenever the phone has the ten-digit
    form; an update that keeps the patient's own phone is never answered
    with a duplicate-phone error. *)
Theorem C4_duplicate_phone db userId user orgId row req :
  users db !! userId = Some user →
  organization db user = Some (orgId, row) →
  target_in_scope db orgId req →
  (∀ phone,
     new_phone req = Some phone →
     Some phone ≠ own_phone db req →
     phone_taken db orgId phone (written req) →
     rejected (write_patient db userId req).1 = true
     ∧ (write_patient db userId req).2 = db
     ∧ (phoneRegex_test phone = true →
        duplicate_rejection (write_patient db userId req).1 = true))
  ∧ (∀ phone,
       new_phone req = Some phone →
       Some phone = own_phone db req →
       duplicate_rejection (write_patient db userId req).1 = false).
Proof.
  intros Hu Ho Hscope. destruct req as [b newId|id b]; simpl in *.
  - split.
    + intros phone [= <-] _ Htaken. by eapply createPatient_duplicate.
    + intros phone _ [=].
  - apply patient_owner_Some in Hscope as (p0 & Hp0 & Hin).
    rewrite Hp0. simpl. split.
    + intros phone Hphone Hne Htaken.
      eapply updatePatient_duplicate; eauto. congruence.
    + intros phone Hphone [= ->]. by eapply updatePatient_own_phone.
Qed.

(** Claim C4 at work: [pat2] of [org1] may not take the phone of [pat1],
    and may keep its own. *)
Lemma C4_duplicate_phone_witness :
  updatePatient Example.db "staff1" "pat2"
    (mkUpdatePatient None (Some "9876543210") None)
  = (duplicate_phone_error, Example.db)
  ∧ duplicate_rejection
      (updatePatient Example.db "staff1" "pat2"
         (mkUpdatePatient None (Some "9123456780") None)).1 = false.
Proof.
  split.
  - destruct (C4_duplicate_phone Example.db "staff1"
                (User.mk "staff1@north.example" STAFF (Some "org1") true)
                "org1" (Organization.mk "North Practice" None)
                (UpdatePatient "pat2"
                   (mkUpdatePatient None (Some "9876543210") None))
                eq_refl eq_refl eq_refl) as [Hdup _].
    destruct (Hdup "9876543210") as (_ & Hdb & _).
    + reflexivity.
    + discriminate.
    + exists "pat1", (Patient.mk "Asha" "9876543210" "clinic1").
      split; [reflexivity|]. split; [discriminate|]. split; reflexivity.
    + simpl in Hdb. apply injective_projections; [reflexivity|exact Hdb].
  - destruct (C4_duplicate_phone Example.db "staff1"
                (User.mk "staff1@north.example" STAFF (Some "org1") true)
                "org1" (Organization.mk "North Practice" None)
                (UpdatePatient "pat2"
                   (mkUpdatePatient None (Some "9123456780") None))
                eq_refl eq_refl eq_refl) as [_ Hown].
    apply (Hown "9123456780"); reflexivity.
Defined.

(** ** Counting rows under an update *)

Section CountFacts.
Context {A : Type}.
Implicit Types (m : gmap string A) (P : string → A → bool).

Lemma count_cons P k x m :
  m !! k = None →
  count P (<[k := x]> m) = b2z (P k x) + count P m.
Proof.
  intros Hk. unfold count, findMany.
  rewrite (map_to_list_insert m k x Hk), filter_cons. simpl.
  destruct (decide (P k x = true)) as [->|Hn]; simpl.
  - lia.
  - apply not_true_is_false in Hn. rewrite Hn. simpl. lia.
Qed.

Lemma count_alter P (f : A → A) k x m :
  m !! k = Some x →
  count P (alter f k m) = count P m - b2z (P k x) + b2z (P k (f x)).
Proof.
  intros Hk.
  assert (alter f k m = <[k := f x]> (delete k m)) as ->.
  { apply map_eq. intros j. destruct (decide (j = k)) as [->|Hj].
    - by rewrite lookup_alter_eq, lookup_insert_eq, Hk.
    - by rewrite lookup_alter_ne, lookup_insert_ne, lookup_delete_ne. }
  rewrite <- (insert_delete_id m k x Hk) at 2.
  rewrite !count_cons by apply lookup_delete_eq. lia.
Qed.

Lemma count_nonneg P m : 0 ≤ count P m.
Proof. unfold count. lia. Qed.
End CountFacts.

(** ** The last administrator *)






(** ** Invitations are used once *)

Lemma find_invite db token k invite :
  unique_tokens db →
  invites db !! k = Some invite →
  Invite.token invite = token →
  findFirst (λ _ i, bool_decide (Invite.token i = token)) (invites db)
  = Some (k, invite).
Proof.
  intros Huniq Hk Ht.
  destruct (findFirst _ (invites db)) as [[k' invite']|] eqn:E.
  - apply findFirst_Some in E as [Hk' Ht'].
    apply bool_decide_eq_true in Ht'.
    assert (k' = k) as -> by (eapply Huniq; eauto; congruence).
    congruence.
  - rewrite findFirst_None in E. specialize (E k invite Hk). simpl in E.
    by rewrite bool_decide_eq_true_2 in E.
Qed.

(** A used or expired invite: the call is refused and writes nothing. *)
Lemma join_dead db token k invite userId now :
  unique_tokens db →
  invites db !! k = Some invite →
  Invite.token invite = token →
  Invite.isUsed invite = true ∨ Invite.expiresAt invite < now →
  ∃ r, joinOrganization db token userId now = (r, db)
       ∧ (r = used_error ∨ r = expired_error).
Proof.
  intros Huniq Hk Ht Hdead. unfold joinOrganization.
  rewrite (find_invite db token k invite Huniq Hk Ht). simpl.
  destruct (Invite.isUsed invite) eqn:Hused; [eauto|].
  destruct Hdead as [|Hexp]; [done|].
  rewrite bool_decide_eq_true_2 by done. eauto.
Qed.

Lemma join_all_dead db token k invite calls :
  unique_tokens db →
  invites db !! k = Some invite →
  Invite.token invite = token →
  Forall (λ c, Invite.isUsed invite = true ∨ Invite.expiresAt invite < c.2) calls →
  (join_all db token calls).2 = db
  ∧ Forall (λ r, rejected r = true) (join_all db token calls).1
  ∧ length (join_all db token calls).1 = length calls.
Proof.
  intros Huniq Hk Ht. induction calls as [|[userId now] rest IH]; intros Hall.
  - simpl. split; [done|]. split; [constructor|done].
  - apply Forall_cons in Hall as [Hdead Hrest]. simpl in Hdead.
    destruct (join_dead db token k invite userId now Huniq Hk Ht Hdead)
      as (r & Hr & Hwhich).
    simpl. rewrite Hr.
    destruct (join_all db token rest) as [rs db2] eqn:E. simpl in *.
    destruct (IH Hrest) as (Hdb & Hrs & Hlen).
    split; [done|]. split; [|by rewrite Hlen].
    constructor; [|done]. by destruct Hwhich as [->| ->].
Qed.

(** A successful join marks the invite it found. *)
Lemma join_consumes db token userId now r db' :
  joinOrganization db token userId now = (r, db') →
  status r = 200%nat →
  ∃ k invite,
    invites db !! k = Some invite
    ∧ Invite.token invite = token
    ∧ invites db' = alter mark_used k (invites db).
Proof.
  unfold joinOrganization. intros H Hs.
  destruct (findFirst _ (invites db)) as [[k invite]|] eqn:E;
    [|by injection H as <- <-].
  apply findFirst_Some in E as [Hk Ht]. apply bool_decide_eq_true in Ht.
  simpl in H.
  destruct (Invite.isUsed invite); [by injection H as <- <-|].
  case_bool_decide; [by injection H as <- <-|].
  destruct (users db !! userId) as [user|]; [|by injection H as <- <-].
  case_bool_decide; [by injection H as <- <-|].
  destruct (organizations db !! _); [|by injection H as <- <-].
  injection H as <- <-. exists k, invite. done.
Qed.

Lemma unique_tokens_mark_used db db' k :
  unique_tokens db →
  invites db' = alter mark_used k (invites db) →
  unique_tokens db'.
Proof.
  intros Huniq Hinv k1 k2 i1 i2. rewrite Hinv.
  assert (∀ j i, alter mark_used k (invites db) !! j = Some i →
                 ∃ i0, invites db !! j = Some i0
                       ∧ Invite.token i0 = Invite.token i) as Hback.
  { intros j i. destruct (decide (j = k)) as [->|Hj].
    - rewrite lookup_alter_eq.
      destruct (invites db !! k) as [i0|]; simpl; [|done].
      intros [= <-]. by exists i0.
    - rewrite lookup_alter_ne by done. intros ?. by exists i. }
  intros H1 H2 Ht.
  apply Hback in H1 as (j1 & H1 & T1). apply Hback in H2 as (j2 & H2 & T2).
  eapply Huniq; eauto. congruence.
Qed.

(** Claim C6.  Once [joinOrganization] has succeeded with a token, and once
    more than seven days have passed since the invite was created (its
    [expiresAt] is the creation time plus seven days), every later call with
    that token, by any caller, is refused and leaves the store, and so every
    membership, as it was. *)
Theorem C6_invite_single_use db token :
  unique_tokens db →
  (∀ userId now r db',
     joinOrganization db token userId now = (r, db') →
     status r = 200%nat →
     ∀ calls,
       (join_all db' token calls).2 = db'
       ∧ Forall (λ r, rejected r = true) (join_all db' token calls).1
       ∧ length (join_all db' token calls).1 = length calls)
  ∧ (∀ k invite created,
       invites db !! k = Some invite →
       Invite.token invite = token →
       Invite.expiresAt invite = created + seven_days →
       ∀ calls,
         Forall (λ c, seven_days < c.2 - created) calls →
         (join_all db token calls).2 = db
         ∧ Forall (λ r, rejected r = true) (join_all db token calls).1
         ∧ length (join_all db token calls).1 = length calls).
Proof.
  intros Huniq. split.
  - intros userId now r db' Hjoin Hs calls.
    destruct (join_consumes db token userId now r db' Hjoin Hs)
      as (k & invite & Hk & Ht & Hinv).
    apply (join_all_dead db' token k (mark_used invite)).
    + by eapply unique_tokens_mark_used.
    + by rewrite Hinv, lookup_alter_eq, Hk.
    + done.
    + apply Forall_forall. intros c _. by left.
  - intros k invite created Hk Ht Hexp calls Hlate.
    apply (join_all_dead db token k invite); [done..|].
    eapply Forall_impl; [exact Hlate|]. intros c Hc. simpl in Hc.
    right. lia.
Qed.

(** The invite that [inviteUser] creates expires seven days after the call. *)
Lemma inviteUser_expiry db userId email role now token newId delivered r db' :
  inviteUser db userId email role now token newId delivered = (r, db') →
  status r = 200%nat →
  ∃ invite, invites db' !! newId = Some invite
            ∧ Invite.token invite = token
            ∧ Invite.isUsed invite = false
            ∧ Invite.expiresAt invite = now + seven_days.
Proof.
  unfold inviteUser. intros H Hs.
  destruct (users db !! userId) as [user|]; [|by injection H as <- <-].
  destruct (organization db user) as [[orgId row]|]; [|by injection H as <- <-].
  case_bool_decide; [by injection H as <- <-|].
  case_bool_decide; [by injection H as <- <-|].
  destruct delivered; simpl in H; [|by injection H as <- <-].
  injection H as <- <-. simpl. rewrite lookup_insert_eq. eauto.
Qed.

Lemma Example_unique_tokens : unique_tokens Example.db.
Proof.
  intros k1 k2 i1 i2 H1 H2 _. unfold Example.db in H1, H2. simpl in H1, H2.
  apply lookup_insert_Some in H1 as [[<- _]|[_ H1]]; [|by rewrite lookup_empty in H1].
  apply lookup_insert_Some in H2 as [[<- _]|[_ H2]]; [|by rewrite lookup_empty in H2].
  done.
Qed.

(** Claim C6 at work: [new1] joins with [tok1]; the token then serves no
    one, and it would have served no one a week after its creation. *)
Lemma C6_invite_single_use_witness :
  let db' := (joinOrganization Example.db "tok1" "new1" (Example.t0 + 5)).2 in
  ((join_all db' "tok1" [("new1", Example.t0 + 10); ("doc3", Example.t0 + 20)]).2
   = db'
   ∧ Forall (λ r, rejected r = true)
       (join_all db' "tok1"
          [("new1", Example.t0 + 10); ("doc3", Example.t0 + 20)]).1)
  ∧ ((join_all Example.db "tok1" [("new1", Example.t0 + seven_days + 1)]).2
     = Example.db
     ∧ Forall (λ r, rejected r = true)
         (join_all Example.db "tok1"
            [("new1", Example.t0 + seven_days + 1)]).1).
Proof.
  destruct (C6_invite_single_use Example.db "tok1" Example_unique_tokens)
    as [Hused Hexpired].
  split.
  - destruct (Hused "new1" (Example.t0 + 5)
                (joinOrganization Example.db "tok1" "new1" (Example.t0 + 5)).1
                (joinOrganization Example.db "tok1" "new1" (Example.t0 + 5)).2
                (surjective_pairing _) eq_refl
                [("new1", Example.t0 + 10); ("doc3", Example.t0 + 20)])
      as (Hdb & Hrs & _).
    split; [exact Hdb|exact Hrs].
  - destruct (Hexpired "inv1"
                (Invite.mk "new1@mail.example" "tok1" DOCTOR "org1" "admin1"
                           (Example.t0 + seven_days) false)
                Example.t0 eq_refl eq_refl eq_refl
                [("new1", Example.t0 + seven_days + 1)])
      as (Hdb & Hrs & _).
    + constructor; [|constructor]. simpl. lia.
    + split; [exact Hdb|exact Hrs].
Defined.

(** ** Restore points *)

Section Restore.
Variable JSON_stringify : Snapshot → string.

(** Claim C7, as the handler has it.  For a caller who has an
    organization: an invocation whose payload has the shape asked
    (truthy, with truthy [organization], [patients] and [appointments])
    adds one Backup record, of type LOCAL and created by the caller, that
    holds the snapshot of the store as it was before the call, and changes
    no other table; an invocation whose payload fails that validation is
    answered 400 and writes nothing, so it creates no Backup record. *)
Theorem C7_restore_point db userId user orgId row backupData now newId :
  users db !! userId = Some user →
  organization db user = Some (orgId, row) →
  backups db !! newId = None →
  (valid_backup backupData = true →
   ∃ snapshot r,
     generateLocalBackup db orgId now = Some snapshot
     ∧ restoreBackup JSON_stringify db userId backupData now newId
       = (r, set_backups db
               (<[newId := Backup.mk orgId LOCAL (JSON_stringify snapshot) userId]>
                  (backups db)))
     ∧ status r = 200%nat
     ∧ ∀ k, k ≠ newId →
         (<[newId := Backup.mk orgId LOCAL (JSON_stringify snapshot) userId]>
            (backups db)) !! k = backups db !! k)
  ∧ (valid_backup backupData = false →
     ∃ r, restoreBackup JSON_stringify db userId backupData now newId = (r, db)
          ∧ status r = 400%nat).
Proof.
  intros Hu Ho Hfresh.
  destruct (organization_Some db user orgId row Ho) as [_ Horg].
  unfold valid_backup, restoreBackup. rewrite Hu, Ho. simpl.
  unfold generateLocalBackup. rewrite Horg. simpl.
  split.
  - intros Hvalid. rewrite !andb_true_iff in Hvalid.
    destruct Hvalid as [[[-> ->] ->] ->]. simpl.
    eexists _, _. split; [reflexivity|].
    destruct (restoreFromBackup backupData orgId) as [[ps as_] es].
    split; [reflexivity|]. split; [reflexivity|].
    intros k Hk. by rewrite lookup_insert_ne.
  - intros Hinvalid.
    destruct (truthy backupData); simpl in *; [|eauto].
    destruct (truthy (js_get backupData "organization")); simpl in *; [|eauto].
    destruct (truthy (js_get backupData "patients")); simpl in *; [|eauto].
    rewrite Hinvalid. simpl. eauto.
Qed.
End Restore.

(** Claim C7 at work on a payload of the shape asked. *)
Lemma C7_restore_point_witness :
  ∃ snapshot r,
    generateLocalBackup Example.db "org1" Example.t0 = Some snapshot
    ∧ restoreBackup Example.stringify Example.db "admin1" Example.full_format
        Example.t0 "bk1"
      = (r, set_backups Example.db
              (<["bk1" := Backup.mk "org1" LOCAL (Example.stringify snapshot)
                                    "admin1"]> (backups Example.db)))
    ∧ status r = 200%nat.
Proof.
  destruct (C7_restore_point Example.stringify Example.db "admin1"
              (User.mk "admin1@north.example" ADMIN (Some "org1") true)
              "org1" (Organization.mk "North Practice" None)
              Example.full_format Example.t0 "bk1" eq_refl eq_refl eq_refl)
    as [Hvalid _].
  destruct (Hvalid eq_refl) as (snapshot & r & Hsnap & Hr & Hs & _).
  exists snapshot, r. split; [exact Hsnap|]. split; [exact Hr|exact Hs].
Defined.

(** Claim C7 as stated does not hold: a restore whose payload fails the
    validation (here a document of the form [generateLocalBackup] writes,
    which has no [patients] key) is answered 400 and leaves the Backup table
    empty. *)
Lemma C7_invalid_restore_creates_no_backup :
  restoreBackup Example.stringify Example.db "admin1" Example.own_format
    Example.t0 "bk1"
  = (json 400 (ErrorBody "Invalid backup data format"), Example.db)
  ∧ backups Example.db = ∅.
Proof. split; reflexivity. Qed.

(** ** Cancelling an appointment *)

(** Claim C8.  For an appointment in the caller's scope: the cancellation is
    refused, and nothing is written (the status stays), when the start is not
    after [now] or the status is COMPLETED or CANCELLED; otherwise it
    succeeds and the row has the status CANCELLED, its other columns and the
    other rows being as before. *)
Theorem C8_cancel_guard db userId user orgId row id a now :
  users db !! userId = Some user →
  organization db user = Some (orgId, row) →
  appointments db !! id = Some a →
  in_scope db userId user orgId a = true →
  (Appointment.appointmentDate a ≤ now
   ∨ Appointment.status a = COMPLETED ∨ Appointment.status a = CANCELLED →
   rejected (deleteAppointment db userId id now).1 = true
   ∧ (deleteAppointment db userId id now).2 = db)
  ∧ (now < Appointment.appointmentDate a →
     Appointment.status a ≠ COMPLETED →
     Appointment.status a ≠ CANCELLED →
     ∃ db', deleteAppointment db userId id now = (cancelled_response, db')
            ∧ appointments db' !! id = Some (cancel a)
            ∧ Appointment.status (cancel a) = CANCELLED
            ∧ ∀ k, k ≠ id → appointments db' !! k = appointments db !! k).
Proof.
  intros Hu Ho Hk Hscope. unfold deleteAppointment.
  rewrite Hu, Ho. simpl. rewrite findFirst_scoped, Hk, Hscope. simpl.
  unfold includes. split.
  - intros Hguard. case_bool_decide; [done|].
    case_bool_decide as Hfinal; [done|].
    exfalso. apply Hfinal. rewrite !elem_of_cons.
    destruct Hguard as [?|[->| ->]]; [lia|by left|by right; left].
  - intros Hfuture Hc Hx.
    rewrite bool_decide_eq_false_2 by lia.
    rewrite bool_decide_eq_false_2.
    + eexists. split; [reflexivity|]. simpl.
      split; [by rewrite lookup_alter_eq, Hk|]. split; [done|].
      intros k Hne. by rewrite lookup_alter_ne.
    + rewrite !elem_of_cons, elem_of_nil. intros [?|[?|[]]]; done.
Qed.

(** Claim C8 at work: the past, completed [apt4] cannot be cancelled; the
    coming [apt1] can. *)
Lemma C8_cancel_guard_witness :
  deleteAppointment Example.db "doc1" "apt4" Example.t0 = (past_error, Example.db)
  ∧ ∃ db', deleteAppointment Example.db "doc1" "apt1" Example.t0
           = (cancelled_response, db')
           ∧ Appointment.status <$> appointments db' !! "apt1" = Some CANCELLED.
Proof.
  split.
  - destruct (C8_cancel_guard Example.db "doc1"
                (User.mk "doc1@north.example" DOCTOR (Some "org1") true)
                "org1" (Organization.mk "North Practice" None) "apt4"
                (Appointment.mk "pat1" "doc1" "clinic1"
                   (Example.t0 - 600 * Example.minute) 30 None COMPLETED)
                Example.t0 eq_refl eq_refl eq_refl eq_refl) as [Hrej _].
    destruct Hrej as [_ Hdb]; [right; left; reflexivity|].
    apply injective_projections; [reflexivity|exact Hdb].
  - destruct (C8_cancel_guard Example.db "doc1"
                (User.mk "doc1@north.example" DOCTOR (Some "org1") true)
                "org1" (Organization.mk "North Practice" None) "apt1"
                (Appointment.mk "pat1" "doc1" "clinic1"
                   (Example.t0 + 600 * Example.minute) 30 None SCHEDULED)
                Example.t0 eq_refl eq_refl eq_refl eq_refl) as [_ Hok].
    destruct Hok as (db' & Hr & Hrow & _).
    + unfold Example.t0, Example.minute. simpl. lia.
    + discriminate.
    + discriminate.
    + exists db'. split; [exact Hr|]. rewrite Hrow. reflexivity.
Defined.

(** ** Status changes *)

Lemma appointment_update_Some db id a b :
  appointments db !! id = Some a →
  references_exist db b = true →
  appointment_update db id b
  = Some (set_appointments db (alter (update_data b) id (appointments db))).
Proof.
  intros Hk Hrefs. unfold appointment_update.
  rewrite Hrefs, bool_decide_eq_true_2 by (by eexists). done.
Qed.

(** Claim C9.  For an appointment in the caller's scope, whatever its
    current status: an update that carries one of the six statuses
    SCHEDULED, CONFIRMED, IN_PROGRESS, COMPLETED, CANCELLED and NO_SHOW,
    writes references that exist and passes the time checks (no new start,
    or a start after [now] whose window has Dates for ends and holds no
    scheduling conflict) is accepted, and the row has the status asked; a
    non-empty status that is none of the six is refused. *)
Theorem C9_any_status_change db userId user orgId row id a b now :
  users db !! userId = Some user →
  organization db user = Some (orgId, row) →
  appointments db !! id = Some a →
  in_scope db userId user orgId a = true →
  (∀ target,
     target ∈ ["SCHEDULED"; "CONFIRMED"; "IN_PROGRESS"; "COMPLETED";
               "CANCELLED"; "NO_SHOW"] →
     u_status b = Some target →
     references_exist db b = true →
     (∀ start, u_appointmentDate b = Some start →
        now < start
        ∧ valid_window start (num_or (u_duration b) (Appointment.duration a))
          = true
        ∧ ¬ window_conflict db
              (str_or (u_doctorId b) (Appointment.doctorId a)) (Some id) start
              (num_or (u_duration b) (Appointment.duration a))) →
     ∃ db', updateAppointment db userId id b now
            = (json 200 (AppointmentBody id (update_data b a)), db')
            ∧ appointments db' !! id = Some (update_data b a)
            ∧ Appointment.status (update_data b a) = target)
  ∧ (∀ s, u_status b = Some s → s ≠ "" →
     s ∉ ["SCHEDULED"; "CONFIRMED"; "IN_PROGRESS"; "COMPLETED";
          "CANCELLED"; "NO_SHOW"] →
     updateAppointment db userId id b now = (invalid_status_error, db)).
Proof.
  intros Hu Ho Hk Hscope. unfold updateAppointment.
  rewrite Hu, Ho. simpl. rewrite findFirst_scoped, Hk, Hscope. simpl.
  split.
  - intros target Hin Hst Hrefs Htime. rewrite Hst. simpl.
    assert (target ≠ "") as Hne.
    { intros ->. revert Hin.
      rewrite !elem_of_cons, elem_of_nil. intros [?|[?|[?|[?|[?|[?|[]]]]]]]; done. }
    rewrite (bool_decide_eq_false_2 _ Hne). unfold includes.
    change (target ∈ valid_statuses) in Hin.
    rewrite (bool_decide_eq_true_2 _ Hin). simpl.
    rewrite (appointment_update_Some db id a b Hk Hrefs).
    assert (appointments
              (set_appointments db (alter (update_data b) id (appointments db)))
              !! id = Some (update_data b a)) as Hrow
      by (simpl; by rewrite lookup_alter_eq, Hk).
    assert (Appointment.status (update_data b a) = target) as Hstatus
      by (unfold update_data; simpl; by rewrite Hst).
    destruct (u_appointmentDate b) as [start|] eqn:Hdate.
    + destruct (Htime start eq_refl) as (Hfut & Hvalid & Hfree).
      rewrite bool_decide_eq_false_2 by lia. rewrite Hvalid. simpl.
      rewrite bool_decide_eq_false_2 by (by rewrite <- conflict_found).
      eexists. split; [reflexivity|]. done.
    + eexists. split; [reflexivity|]. done.
  - intros s Hst Hne Hout. rewrite Hst. simpl.
    rewrite (bool_decide_eq_false_2 _ Hne). unfold includes.
    change (s ∉ valid_statuses) in Hout.
    by rewrite (bool_decide_eq_false_2 _ Hout).
Qed.

(** Claim C9 at work: [apt1], SCHEDULED, takes each of the six statuses in
    one update, and [apt4] goes from COMPLETED back to SCHEDULED. *)
Lemma C9_any_status_change_witness :
  Forall (λ target,
            Appointment.status <$>
              appointments
                (updateAppointment Example.db "doc1" "apt1"
                   (mkUpdateAppointment None None None None None None (Some target))
                   Example.t0).2 !! "apt1"
            = Some target)
         ["SCHEDULED"; "CONFIRMED"; "IN_PROGRESS"; "COMPLETED"; "CANCELLED";
          "NO_SHOW"]
  ∧ Appointment.status <$> appointments Example.db !! "apt4" = Some COMPLETED
  ∧ Appointment.status <$>
      appointments
        (updateAppointment Example.db "doc1" "apt4"
           (mkUpdateAppointment None None None None None None (Some SCHEDULED))
           Example.t0).2 !! "apt4"
    = Some SCHEDULED.
Proof.
  split; [|split; [reflexivity|]].
  - apply Forall_forall. intros target Hin.
    destruct (C9_any_status_change Example.db "doc1"
                (User.mk "doc1@north.example" DOCTOR (Some "org1") true)
                "org1" (Organization.mk "North Practice" None) "apt1"
                (Appointment.mk "pat1" "doc1" "clinic1"
                   (Example.t0 + 600 * Example.minute) 30 None SCHEDULED)
                (mkUpdateAppointment None None None None None None (Some target))
                Example.t0 eq_refl eq_refl eq_refl eq_refl) as [Hany _].
    destruct (Hany target Hin eq_refl eq_refl) as (db' & Hr & Hrow & Hst).
    + intros start Hstart. discriminate Hstart.
    + rewrite Hr. simpl. rewrite Hrow. simpl. by rewrite ?Hst.
  - destruct (C9_any_status_change Example.db "doc1"
                (User.mk "doc1@north.example" DOCTOR (Some "org1") true)
                "org1" (Organization.mk "North Practice" None) "apt4"
                (Appointment.mk "pat1" "doc1" "clinic1"
                   (Example.t0 - 600 * Example.minute) 30 None COMPLETED)
                (mkUpdateAppointment None None None None None None (Some SCHEDULED))
                Example.t0 eq_refl eq_refl eq_refl eq_refl) as [Hany _].
    destruct (Hany SCHEDULED) as (db' & Hr & Hrow & Hst).
    + rewrite !elem_of_cons. left. reflexivity.
    + reflexivity.
    + reflexivity.
    + intros start Hstart. discriminate Hstart.
    + rewrite Hr. simpl. rewrite Hrow. simpl. by rewrite ?Hst.
Defined.

(** ** The payment webhook *)

Lemma on_subscription_frame db sid status endDate flag :
  (∃ k s, subscriptions db !! k = Some s
          ∧ Subscription.razorpaySubscriptionId s = sid) →
  ∃ k sub,
    subscriptions db !! k = Some sub
    ∧ Subscription.razorpaySubscriptionId sub = sid
    ∧ organizationAddOns (on_subscription db sid status endDate flag)
      = updateMany
          (λ o, bool_decide (OrganizationAddOn.organizationId o
                             = Subscription.organizationId sub))
          (set_isActive flag) (organizationAddOns db).
Proof.
  intros (k & s & Hk & Hs). unfold on_subscription.
  set (by_id := λ s : Subscription.t,
         bool_decide (Subscription.razorpaySubscriptionId s = sid)).
  set (subs1 := updateMany by_id (set_status status endDate) (subscriptions db)).
  assert (∀ j s1, subs1 !! j = Some s1 →
            ∃ s0, subscriptions db !! j = Some s0
                  ∧ Subscription.organizationId s1 = Subscription.organizationId s0
                  ∧ Subscription.razorpaySubscriptionId s1
                    = Subscription.razorpaySubscriptionId s0) as Hback.
  { intros j s1. unfold subs1, updateMany. rewrite lookup_fmap.
    destruct (subscriptions db !! j) as [s0|]; simpl; [|done].
    intros [= <-]. exists s0. split; [done|]. by destruct (by_id s0). }
  simpl.
  destruct (findFirst (λ _ s, by_id s) subs1) as [[k' s1]|] eqn:E.
  - apply findFirst_Some in E as [Hk' Hid].
    apply bool_decide_eq_true in Hid.
    destruct (Hback k' s1 Hk') as (s0 & Hk0 & Horg & Hrzp).
    exists k', s0. split; [done|]. split; [congruence|].
    simpl. by rewrite Horg.
  - exfalso. rewrite findFirst_None in E.
    assert (subs1 !! k = Some (set_status status endDate s)) as Hk1.
    { unfold subs1, updateMany. rewrite lookup_fmap, Hk. simpl.
      unfold by_id. by rewrite bool_decide_eq_true_2. }
    specialize (E k _ Hk1). unfold by_id in E. simpl in E.
    by rewrite bool_decide_eq_true_2 in E.
Qed.

Lemma handleRazorpayWebhook_toggles db event flag sid now :
  toggles event = Some flag →
  ∃ status endDate,
    handleRazorpayWebhook db (Some ()) event (Some sid) now
    = (json 200 (StatusBody "ok"), on_subscription db sid status endDate flag).
Proof.
  unfold toggles, handleRazorpayWebhook. simpl.
  case_bool_decide.
  - intros [= <-]. eauto.
  - case_bool_decide; [|done]. intros [= <-]. eauto.
Qed.

(** Claim C10.  When the signature check passes and the event is
    [subscription.cancelled] (or [subscription.activated]) with the gateway
    id of a stored subscription, the handler writes [false] (or [true]) to
    [isActive] of every OrganizationAddOn row of the organization of a
    subscription with that id, whichever add-on the row is for; it adds and
    removes no row, leaves [usageCount] and the other columns of every row,
    and leaves the rows of other organizations as they were. *)
Theorem C10_webhook_frame db event flag sid now :
  toggles event = Some flag →
  (∃ k s, subscriptions db !! k = Some s
          ∧ Subscription.razorpaySubscriptionId s = sid) →
  ∃ db' k sub,
    handleRazorpayWebhook db (Some ()) event (Some sid) now
    = (json 200 (StatusBody "ok"), db')
    ∧ subscriptions db !! k = Some sub
    ∧ Subscription.razorpaySubscriptionId sub = sid
    ∧ (∀ id o, organizationAddOns db !! id = Some o →
         ∃ o', organizationAddOns db' !! id = Some o'
               ∧ OrganizationAddOn.usageCount o' = OrganizationAddOn.usageCount o
               ∧ OrganizationAddOn.organizationId o'
                 = OrganizationAddOn.organizationId o
               ∧ OrganizationAddOn.addOnId o' = OrganizationAddOn.addOnId o
               ∧ (OrganizationAddOn.organizationId o
                  = Subscription.organizationId sub →
                  OrganizationAddOn.isActive o' = flag)
               ∧ (OrganizationAddOn.organizationId o
                  ≠ Subscription.organizationId sub → o' = o))
    ∧ (∀ id, organizationAddOns db !! id = None →
             organizationAddOns db' !! id = None).
Proof.
  intros Hev Hstored.
  destruct (handleRazorpayWebhook_toggles db event flag sid now Hev)
    as (status & endDate & Hr).
  destruct (on_subscription_frame db sid status endDate flag Hstored)
    as (k & sub & Hk & Hid & Haddons).
  eexists _, k, sub. split; [exact Hr|]. split; [done|]. split; [done|].
  rewrite Haddons. unfold updateMany. split.
  - intros id o Ho. rewrite lookup_fmap, Ho. simpl.
    eexists. split; [reflexivity|].
    case_bool_decide; simpl; repeat split; done.
  - intros id Ho. by rewrite lookup_fmap, Ho.
Qed.

(** Claim C10 at work: [rzp_1] is the subscription of [org1]; its
    cancellation switches off both add-on rows of [org1] and leaves the row
    of [org2]. *)
Lemma C10_webhook_frame_witness :
  ∃ db',
    handleRazorpayWebhook Example.db (Some ()) "subscription.cancelled"
      (Some "rzp_1") Example.t0
    = (json 200 (StatusBody "ok"), db')
    ∧ organizationAddOns db' !! "oa1"
      = Some (OrganizationAddOn.mk "org1" "scribe" false 5)
    ∧ organizationAddOns db' !! "oa2"
      = Some (OrganizationAddOn.mk "org1" "analytics" false 2)
    ∧ organizationAddOns db' !! "oa3"
      = Some (OrganizationAddOn.mk "org2" "scribe" true 7).
Proof.
  destruct (C10_webhook_frame Example.db "subscription.cancelled" false "rzp_1"
              Example.t0 eq_refl) as (db' & k & sub & Hr & _).
  - exists "sub1", (Subscription.mk "org1" "rzp_1" 4999 ACTIVE None).
    split; reflexivity.
  - exists db'. split; [exact Hr|].
    assert (db' = (handleRazorpayWebhook Example.db (Some ())
                     "subscription.cancelled" (Some "rzp_1") Example.t0).2)
      as -> by (by rewrite Hr).
    split; [reflexivity|]. split; reflexivity.
Defined.

(** ** Runs *)

(** A booking for [doc1] 45 minutes after [apt1], 30 minutes long, is
    accepted. *)
Example booking_outside_window :
  (createAppointment Example.db "staff1"
     (mkCreateAppointment "pat2" "doc1" "clinic1"
        (Example.t0 + 645 * Example.minute) (Some 30) None)
     Example.t0 "apt9").1
  = json 201 (AppointmentBody "apt9"
      (Appointment.mk "pat2" "doc1" "clinic1"
         (Example.t0 + 645 * Example.minute) 30 None SCHEDULED)).
Proof. vm_compute. reflexivity. Qed.

(** [new1] joins [org1] with [tok1] as a DOCTOR. *)
Example join_with_fresh_invite :
  ∃ db', joinOrganization Example.db "tok1" "new1" (Example.t0 + 5)
         = (json 200 (JoinedBody "Successfully joined organization" "org1"), db')
         ∧ users db' !! "new1"
           = Some (User.mk "new1@mail.example" DOCTOR (Some "org1") true)
         ∧ Invite.isUsed <$> invites db' !! "inv1" = Some true.
Proof. eexists. split; [reflexivity|]. split; reflexivity. Qed.

(** STAFF of [org1] lists the three appointments of [org1], by start. *)
Example staff_lists_organization :
  ∃ a1 a2 a4,
    getAppointments Example.db "staff1" (mkQuery None None None None)
    = json 200 (AppointmentsBody [("apt4", a4); ("apt1", a1); ("apt2", a2)]).
Proof. eexists _, _, _. vm_compute. reflexivity. Qed.

(** A phone of the ten-digit form, and three that are not. *)
Example phone_forms :
  phoneRegex_test "9876543210" = true
  ∧ phoneRegex_test "5876543210" = false
  ∧ phoneRegex_test "98765432101" = false
  ∧ phoneRegex_test "98765a3210" = false.
Proof. repeat split; reflexivity. Qed.

(** * Further properties of the handlers *)

(** ** Bookings that are accepted *)

(** The row that [createAppointment] writes. *)
Lemma createAppointment_accepted db userId b now newId :
  passes_earlier_checks db userId (Create b newId) now →
  valid_window (c_appointmentDate b) (num_or (c_duration b) 30) = true →
  ¬ window_conflict db (c_doctorId b) None (c_appointmentDate b)
      (num_or (c_duration b) 30) →
  createAppointment db userId b now newId
  = (json 201 (AppointmentBody newId
       (Appointment.mk (c_patientId b) (c_doctorId b) (c_clinicId b)
          (c_appointmentDate b) (num_or (c_duration b) 30) (c_notes b) SCHEDULED)),
     set_appointments db
       (<[newId := Appointment.mk (c_patientId b) (c_doctorId b) (c_clinicId b)
                     (c_appointmentDate b) (num_or (c_duration b) 30)
                     (c_notes b) SCHEDULED]> (appointments db))).
Proof.
  intros (user & orgId & row & Hu & Ho & Hp & (d & Hd & Hdo & Hdr) & Hcl & Hfut)
    Hvalid Hfree.
  rewrite conflict_found in Hfree. unfold createAppointment.
  rewrite Hu, Ho. simpl.
  rewrite (findFirst_by_id (λ _ p, clinic_in db (Patient.clinicId p) orgId)).
  unfold patient_owner in Hp.
  destruct (patients db !! c_patientId b) as [p|]; simpl in Hp; [|done].
  rewrite clinic_in_owner, Hp, bool_decide_eq_true_2 by done.
  rewrite (findFirst_ext _
             (λ k u, bool_decide (k = c_doctorId b)
                     && (bool_decide (User.organizationId u = Some orgId)
                         && bool_decide (User.role u = DOCTOR))))
    by (intros; by rewrite andb_assoc).
  rewrite (findFirst_by_id
             (λ _ u, bool_decide (User.organizationId u = Some orgId)
                     && bool_decide (User.role u = DOCTOR))).
  rewrite Hd, !bool_decide_eq_true_2 by done. simpl.
  rewrite (findFirst_by_id (λ _ c, bool_decide (Clinic.organizationId c = orgId))).
  unfold clinic_owner in Hcl.
  destruct (clinics db !! c_clinicId b) as [c|]; simpl in Hcl; [|done].
  injection Hcl as Hcl. rewrite bool_decide_eq_true_2 by done.
  rewrite bool_decide_eq_false_2 by lia. rewrite Hvalid.
  by rewrite bool_decide_eq_false_2 by done.
Qed.

(** What an answer 201 of [createAppointment] tells. *)
Lemma createAppointment_201 db userId b now newId :
  status (createAppointment db userId b now newId).1 = 201%nat →
  passes_earlier_checks db userId (Create b newId) now
  ∧ valid_window (c_appointmentDate b) (num_or (c_duration b) 30) = true
  ∧ ¬ window_conflict db (c_doctorId b) None (c_appointmentDate b)
        (num_or (c_duration b) 30).
Proof.
  unfold createAppointment. intros H.
  destruct (users db !! userId) as [user|] eqn:Hu; [|done].
  destruct (organization db user) as [[orgId row]|] eqn:Ho; [|done].
  rewrite (findFirst_by_id (λ _ p, clinic_in db (Patient.clinicId p) orgId)) in H.
  destruct (patients db !! c_patientId b) as [p|] eqn:Hp; [|done].
  destruct (clinic_in db (Patient.clinicId p) orgId) eqn:Hpin; [|done].
  rewrite (findFirst_ext _
             (λ k u, bool_decide (k = c_doctorId b)
                     && (bool_decide (User.organizationId u = Some orgId)
                         && bool_decide (User.role u = DOCTOR)))) in H
    by (intros; by rewrite andb_assoc).
  rewrite (findFirst_by_id
             (λ _ u, bool_decide (User.organizationId u = Some orgId)
                     && bool_decide (User.role u = DOCTOR))) in H.
  destruct (users db !! c_doctorId b) as [d|] eqn:Hd; [|done].
  destruct (bool_decide (User.organizationId d = Some orgId)
            && bool_decide (User.role d = DOCTOR)) eqn:Hdoc; [|done].
  apply andb_true_iff in Hdoc as [Hdo Hdr].
  apply bool_decide_eq_true in Hdo, Hdr.
  rewrite (findFirst_by_id (λ _ c, bool_decide (Clinic.organizationId c = orgId)))
    in H.
  destruct (clinics db !! c_clinicId b) as [c|] eqn:Hc; [|done].
  simpl in H. case_bool_decide as Hcorg; [|done]. simpl in H.
  case_bool_decide as Hpast; [done|].
  destruct (valid_window _ _) eqn:Hvalid; [|done]. simpl in H.
  case_bool_decide as Hconf; [done|].
  split; [|split; [done|]].
  - exists user, orgId, row. split; [done|]. split; [done|]. split.
    { unfold patient_owner. rewrite Hp. simpl.
      rewrite clinic_in_owner in Hpin. by apply bool_decide_eq_true in Hpin. }
    split; [by exists d|]. split; [|lia].
    unfold clinic_owner. rewrite Hc. simpl. by rewrite Hcorg.
  - by rewrite conflict_found.
Qed.

(** X1.  [createAppointment] answers 201 exactly when the caller has an
    organization, the patient, the doctor (of role DOCTOR) and the clinic
    are of that organization, the start is after [now], both ends of the
    window are Dates and no SCHEDULED or CONFIRMED appointment of the doctor
    starts inside the window; the store then gains the one row of the
    request, SCHEDULED, with the duration defaulted to 30, and is otherwise
    as before. *)
Theorem X1_booking_accepted_iff db userId b now newId :
  (status (createAppointment db userId b now newId).1 = 201%nat ↔
   passes_earlier_checks db userId (Create b newId) now
   ∧ valid_window (c_appointmentDate b) (num_or (c_duration b) 30) = true
   ∧ ¬ window_conflict db (c_doctorId b) None (c_appointmentDate b)
         (num_or (c_duration b) 30))
  ∧ (status (createAppointment db userId b now newId).1 = 201%nat →
     (createAppointment db userId b now newId).2
     = set_appointments db
         (<[newId := Appointment.mk (c_patientId b) (c_doctorId b) (c_clinicId b)
                       (c_appointmentDate b) (num_or (c_duration b) 30)
                       (c_notes b) SCHEDULED]> (appointments db)))
  ∧ (status (createAppointment db userId b now newId).1 ≠ 201%nat →
     (createAppointment db userId b now newId).2 = db).
Proof.
  split; [split|split].
  - apply createAppointment_201.
  - intros (Hp & Hv & Hf).
    by rewrite (createAppointment_accepted _ _ _ _ _ Hp Hv Hf).
  - intros H. apply createAppointment_201 in H as (Hp & Hv & Hf).
    by rewrite (createAppointment_accepted _ _ _ _ _ Hp Hv Hf).
  - unfold createAppointment. repeat case_match; simpl; done.
Qed.

(** X2.  No double booking: once a booking for a doctor is accepted, every
    later request for that doctor whose window (of its own, non-negative
    length) holds the accepted start is rejected and writes nothing. *)
Theorem X2_no_double_booking db userId b now newId userId' b' now' newId' :
  status (createAppointment db userId b now newId).1 = 201%nat →
  c_doctorId b' = c_doctorId b →
  c_appointmentDate b' - num_or (c_duration b') 30 * 60 * 1000
    ≤ c_appointmentDate b →
  c_appointmentDate b
    ≤ c_appointmentDate b' + num_or (c_duration b') 30 * 60 * 1000 →
  let db' := (createAppointment db userId b now newId).2 in
  rejected (createAppointment db' userId' b' now' newId').1 = true
  ∧ (createAppointment db' userId' b' now' newId').2 = db'.
Proof.
  intros H Hd Hlo Hhi db'.
  assert (window_conflict db' (c_doctorId b') None (c_appointmentDate b')
            (num_or (c_duration b') 30)) as Hc.
  { unfold db'. apply createAppointment_201 in H as (Hp & Hv & Hf).
    rewrite (createAppointment_accepted _ _ _ _ _ Hp Hv Hf). simpl.
    eexists newId, _. split; [apply lookup_insert_eq|]. simpl.
    split; [done|]. split; [done|]. split; [lia|]. split; [lia|]. by left. }
  destruct (createAppointment_conflict_rejected db' userId' b' now' newId' Hc).
  done.
Qed.

Lemma X1_booking_accepted_iff_witness :
  status (createAppointment Example.db "staff1"
            (mkCreateAppointment "pat2" "doc1" "clinic1"
               (Example.t0 + 645 * Example.minute) (Some 30) None)
            Example.t0 "apt9").1 = 201%nat
  ∧ appointments
      (createAppointment Example.db "staff1"
         (mkCreateAppointment "pat2" "doc1" "clinic1"
            (Example.t0 + 645 * Example.minute) (Some 30) None)
         Example.t0 "apt9").2 !! "apt9"
    = Some (Appointment.mk "pat2" "doc1" "clinic1"
              (Example.t0 + 645 * Example.minute) 30 None SCHEDULED)
  ∧ createAppointment Example.db "staff1"
      (mkCreateAppointment "pat2" "doc3" "clinic1"
         (Example.t0 + 645 * Example.minute) (Some 200000000000) None)
      Example.t0 "apt9"
    = (json 400 (ErrorBody "Invalid doctor selected"), Example.db)
  ∧ createAppointment Example.db "staff1"
      (mkCreateAppointment "pat2" "doc2" "clinic1"
         (Example.t0 + 645 * Example.minute) (Some 200000000000) None)
      Example.t0 "apt9"
    = (json 500 (ErrorBody "Failed to create appointment"), Example.db).
Proof.
  destruct (X1_booking_accepted_iff Example.db "staff1"
              (mkCreateAppointment "pat2" "doc1" "clinic1"
                 (Example.t0 + 645 * Example.minute) (Some 30) None)
              Example.t0 "apt9") as (_ & Hrow & _).
  split; [reflexivity|]. split; [rewrite Hrow by reflexivity; reflexivity|].
  split.
  - destruct (X1_booking_accepted_iff Example.db "staff1"
                (mkCreateAppointment "pat2" "doc3" "clinic1"
                   (Example.t0 + 645 * Example.minute) (Some 200000000000) None)
                Example.t0 "apt9") as (_ & _ & Hkept).
    apply injective_projections; [reflexivity|]. apply Hkept.
    vm_compute. discriminate.
  - destruct (X1_booking_accepted_iff Example.db "staff1"
                (mkCreateAppointment "pat2" "doc2" "clinic1"
                   (Example.t0 + 645 * Example.minute) (Some 200000000000) None)
                Example.t0 "apt9") as (_ & _ & Hkept).
    apply injective_projections; [reflexivity|]. apply Hkept.
    vm_compute. discriminate.
Defined.

Lemma X2_no_double_booking_witness :
  let db' :=
    (createAppointment Example.db "staff1"
       (mkCreateAppointment "pat2" "doc1" "clinic1"
          (Example.t0 + 645 * Example.minute) (Some 30) None)
       Example.t0 "apt9").2 in
  rejected (createAppointment db' "admin1"
              (mkCreateAppointment "pat1" "doc1" "clinic1"
                 (Example.t0 + 660 * Example.minute) None None)
              Example.t0 "apt10").1 = true
  ∧ (createAppointment db' "admin1"
       (mkCreateAppointment "pat1" "doc1" "clinic1"
          (Example.t0 + 660 * Example.minute) None None)
       Example.t0 "apt10").2 = db'.
Proof.
  apply (X2_no_double_booking Example.db "staff1"
           (mkCreateAppointment "pat2" "doc1" "clinic1"
              (Example.t0 + 645 * Example.minute) (Some 30) None)
           Example.t0 "apt9").
  - reflexivity.
  - reflexivity.
  - unfold Example.t0, Example.minute. simpl. lia.
  - unfold Example.t0, Example.minute. simpl. lia.
Defined.

(** ** Cancelling frees the slot *)

Lemma conflicts_cancel doctorId exclude start minutes k a :
  conflicts doctorId exclude start minutes k (cancel a) = false.
Proof.
  unfold conflicts. apply andb_false_intro2.
  unfold includes. apply bool_decide_eq_false_2. simpl.
  rewrite !elem_of_cons, elem_of_nil. intros [?|[?|[]]]; done.
Qed.

(** X3.  After a cancellation that succeeds, the cancelled appointment no
    longer blocks its doctor: the requests that conflict are those that
    conflict with some other row, and the rows, apart from the status of the
    cancelled one, are as before. *)
Theorem X3_cancel_frees_slot db userId id now doctorId exclude start minutes :
  status (deleteAppointment db userId id now).1 = 200%nat →
  let db' := (deleteAppointment db userId id now).2 in
  (window_conflict db' doctorId exclude start minutes ↔
   window_conflict (set_appointments db (delete id (appointments db)))
     doctorId exclude start minutes)
  ∧ Appointment.status <$> appointments db' !! id = Some CANCELLED.
Proof.
  unfold deleteAppointment.
  destruct (users db !! userId) as [user|]; [|done].
  destruct (organization db user) as [[orgId row]|]; [|done].
  rewrite findFirst_scoped.
  destruct (appointments db !! id) as [a|] eqn:Hk; [|done].
  destruct (in_scope db userId user orgId a); [|done]. simpl.
  case_bool_decide as Hpast; [done|]. destruct (includes _ _); [done|]. simpl.
  intros _. split.
  - rewrite !conflict_found. simpl. split.
    + intros [[k a'] H]. apply findFirst_Some in H as [Hk' Hc].
      destruct (decide (k = id)) as [->|Hne].
      * rewrite lookup_alter_eq, Hk in Hk'. injection Hk' as <-.
        by rewrite conflicts_cancel in Hc.
      * rewrite lookup_alter_ne in Hk' by done.
        apply (findFirst_is_Some _ _ k a'); [|done].
        by rewrite lookup_delete_ne.
    + intros [[k a'] H]. apply findFirst_Some in H as [Hk' Hc].
      apply lookup_delete_Some in Hk' as [Hne Hk'].
      apply (findFirst_is_Some _ _ k a'); [|done].
      by rewrite lookup_alter_ne.
  - by rewrite lookup_alter_eq, Hk.
Qed.

Lemma X3_cancel_frees_slot_witness :
  let db' := (deleteAppointment Example.db "doc1" "apt1" Example.t0).2 in
  ¬ window_conflict db' "doc1" None (Example.t0 + 600 * Example.minute) 30.
Proof.
  intros db'.
  destruct (X3_cancel_frees_slot Example.db "doc1" "apt1" Example.t0 "doc1"
              None (Example.t0 + 600 * Example.minute) 30 eq_refl) as [Hiff _].
  fold db' in Hiff. rewrite Hiff, conflict_found. vm_compute.
  intros [x Hx]. discriminate Hx.
Defined.

(** ** Updates that carry a date *)

(** X4.  An update of an appointment in the caller's scope that carries a
    start time not after [now] is refused as not in the future and writes
    nothing, whatever else it carries (a valid status, the appointment's own
    unchanged date): the time check runs on every date in the body. *)
Theorem X4_update_with_past_date_refused db userId user orgId row id a b now start :
  users db !! userId = Some user →
  organization db user = Some (orgId, row) →
  appointments db !! id = Some a →
  in_scope db userId user orgId a = true →
  (∀ s, u_status b = Some s → s = "" ∨ s ∈ valid_statuses) →
  u_appointmentDate b = Some start →
  start ≤ now →
  updateAppointment db userId id b now = (not_future_error, db).
Proof.
  intros Hu Ho Hk Hscope Hst Hs Hpast. unfold updateAppointment.
  rewrite Hu, Ho. simpl. rewrite findFirst_scoped, Hk, Hscope.
  assert (match truthy_str (u_status b) with
          | Some status => negb (includes valid_statuses status)
          | None => false
          end = false) as ->.
  { destruct (u_status b) as [s|]; simpl; [|done].
    case_bool_decide; [done|]. destruct (Hst s eq_refl) as [?|Hin]; [done|].
    unfold includes. by rewrite bool_decide_eq_true_2. }
  rewrite Hs. simpl. by rewrite bool_decide_eq_true_2 by lia.
Qed.

(** Completing the past [apt4] while repeating its date is refused. *)
Lemma X4_update_with_past_date_refused_witness :
  updateAppointment Example.db "doc1" "apt4"
    (mkUpdateAppointment None None None
       (Some (Example.t0 - 600 * Example.minute)) None None (Some NO_SHOW))
    Example.t0
  = (not_future_error, Example.db).
Proof.
  apply (X4_update_with_past_date_refused Example.db "doc1"
           (User.mk "doc1@north.example" DOCTOR (Some "org1") true)
           "org1" (Organization.mk "North Practice" None) "apt4"
           (Appointment.mk "pat1" "doc1" "clinic1"
              (Example.t0 - 600 * Example.minute) 30 None COMPLETED)
           _ Example.t0 (Example.t0 - 600 * Example.minute)).
  - reflexivity.
  - reflexivity.
  - reflexivity.
  - reflexivity.
  - intros s [= <-]. right. unfold valid_statuses. rewrite !elem_of_cons.
    do 5 right. left. reflexivity.
  - reflexivity.
  - unfold Example.t0, Example.minute. simpl. lia.
Defined.

(** ** Writes that leave the tenant *)

(** X5.  [updateAppointment] writes the [clinicId] of the body without
    asking whose clinic it is: with the id of a clinic of another
    organization the update of an appointment in the caller's scope is
    accepted, the appointment then belongs to that organization, and the
    caller's next request for it by id is answered 404. *)
Theorem X5_update_moves_appointment db userId user orgId row id a c clinic now :
  users db !! userId = Some user →
  organization db user = Some (orgId, row) →
  appointments db !! id = Some a →
  in_scope db userId user orgId a = true →
  clinics db !! c = Some clinic →
  Clinic.organizationId clinic ≠ orgId →
  let b := mkUpdateAppointment None None (Some c) None None None None in
  ∃ db',
    updateAppointment db userId id b now
    = (json 200 (AppointmentBody id (update_data b a)), db')
    ∧ owner db' AppointmentKind id = Some (Clinic.organizationId clinic)
    ∧ not_found (getAppointmentById db' userId id) = true.
Proof.
  intros Hu Ho Hk Hscope Hc Hne b. unfold updateAppointment.
  rewrite Hu, Ho. simpl. rewrite findFirst_scoped, Hk, Hscope. simpl.
  unfold appointment_update, references_exist. simpl.
  rewrite !bool_decide_eq_true_2 by (by eexists). simpl.
  eexists. split; [reflexivity|]. split.
  - simpl. rewrite lookup_alter_eq, Hk. simpl.
    unfold clinic_owner. simpl. by rewrite Hc.
  - unfold getAppointmentById. simpl. rewrite Hu.
    unfold organization in *. simpl. rewrite Ho. simpl.
    rewrite findFirst_scoped. simpl. rewrite lookup_alter_eq, Hk. simpl.
    unfold in_scope, clinic_in. simpl. rewrite Hc.
    by rewrite bool_decide_eq_false_2.
Qed.

Lemma X5_update_moves_appointment_witness :
  let b := mkUpdateAppointment None None (Some "clinic2") None None None None in
  ∃ db',
    updateAppointment Example.db "doc1" "apt1" b Example.t0
    = (json 200 (AppointmentBody "apt1"
         (update_data b (Appointment.mk "pat1" "doc1" "clinic1"
            (Example.t0 + 600 * Example.minute) 30 None SCHEDULED))), db')
    ∧ owner db' AppointmentKind "apt1" = Some "org2"
    ∧ not_found (getAppointmentById db' "doc1" "apt1") = true.
Proof.
  apply (X5_update_moves_appointment Example.db "doc1"
           (User.mk "doc1@north.example" DOCTOR (Some "org1") true)
           "org1" (Organization.mk "North Practice" None) "apt1"
           (Appointment.mk "pat1" "doc1" "clinic1"
              (Example.t0 + 600 * Example.minute) 30 None SCHEDULED)
           "clinic2" (Clinic.mk "South Clinic" "org2") Example.t0).
  - reflexivity.
  - reflexivity.
  - reflexivity.
  - reflexivity.
  - reflexivity.
  - discriminate.
Defined.

(** X6.  [updatePatient] likewise writes any existing [clinicId]: a patient
    of the caller's organization can be moved under a clinic of another
    organization; the patient then belongs to that organization, the caller
    no longer finds it by id, and no duplicate-phone check is made there: a
    patient of the receiving organization with the same phone stays beside
    it. *)
Theorem X6_update_moves_patient db userId user orgId row id p c clinic :
  users db !! userId = Some user →
  organization db user = Some (orgId, row) →
  patients db !! id = Some p →
  clinic_in db (Patient.clinicId p) orgId = true →
  clinics db !! c = Some clinic →
  Clinic.organizationId clinic ≠ orgId →
  let b := mkUpdatePatient None None (Some c) in
  ∃ db',
    updatePatient db userId id b = (json 200 (PatientBody id (patient_data b p)), db')
    ∧ patients db' !! id = Some (Patient.mk (Patient.name p) (Patient.phone p) c)
    ∧ patient_owner db' id = Some (Clinic.organizationId clinic)
    ∧ not_found (getPatientById db' userId id) = true
    ∧ (phone_taken db (Clinic.organizationId clinic) (Patient.phone p) None →
       phone_taken db' (Clinic.organizationId clinic) (Patient.phone p) (Some id)).
Proof.
  intros Hu Ho Hk Hscope Hc Hne b. unfold updatePatient.
  rewrite Hu, Ho. simpl.
  rewrite (findFirst_by_id (λ _ p, clinic_in db (Patient.clinicId p) orgId)).
  rewrite Hk, Hscope. simpl.
  unfold patient_update. simpl.
  rewrite !bool_decide_eq_true_2 by (by eexists). simpl.
  eexists. split; [reflexivity|]. simpl.
  split; [by rewrite lookup_alter_eq, Hk|]. split; [|split].
  - unfold patient_owner. simpl. rewrite lookup_alter_eq, Hk. simpl.
    unfold clinic_owner. simpl. by rewrite Hc.
  - unfold getPatientById. simpl. rewrite Hu.
    unfold organization in *. simpl. rewrite Ho. simpl.
    rewrite (findFirst_by_id (λ k q, clinic_in _ (Patient.clinicId q) orgId)).
    simpl. rewrite lookup_alter_eq, Hk. simpl.
    unfold clinic_in. simpl. rewrite Hc.
    by rewrite bool_decide_eq_false_2.
  - intros (id2 & p2 & Hk2 & _ & Hphone & Hown).
    assert (id2 ≠ id) as Hid.
    { intros ->. rewrite Hk in Hk2. injection Hk2 as <-.
      rewrite clinic_in_owner in Hscope. apply bool_decide_eq_true in Hscope.
      rewrite Hscope in Hown. congruence. }
    exists id2, p2. simpl. rewrite lookup_alter_ne by done.
    split; [done|]. split; [congruence|]. done.
Qed.

Lemma X6_update_moves_patient_witness :
  let b := mkUpdatePatient None None (Some "clinic2") in
  ∃ db',
    (updatePatient Example.db "staff1" "pat1" b).2 = db'
    ∧ patient_owner db' "pat1" = Some "org2"
    ∧ not_found (getPatientById db' "staff1" "pat1") = true
    ∧ phone_taken db' "org2" "9876543210" (Some "pat1").
Proof.
  destruct (X6_update_moves_patient Example.db "staff1"
              (User.mk "staff1@north.example" STAFF (Some "org1") true)
              "org1" (Organization.mk "North Practice" None) "pat1"
              (Patient.mk "Asha" "9876543210" "clinic1")
              "clinic2" (Clinic.mk "South Clinic" "org2")
              eq_refl eq_refl eq_refl eq_refl eq_refl)
    as (db' & Hr & _ & Hown & Hnf & Hdup).
  - discriminate.
  - exists db'. split; [by rewrite Hr|]. split; [exact Hown|].
    split; [exact Hnf|]. apply Hdup.
    exists "pat3", (Patient.mk "Meera" "9876543210" "clinic2").
    split; [reflexivity|]. split; [discriminate|]. split; reflexivity.
Defined.

(** ** What is listed can be read *)

(** X7.  Without a [doctor] filter, every appointment that [getAppointments]
    sends to a caller is one that [getAppointmentById] returns to the same
    caller. *)
Theorem X7_listed_is_readable db userId user orgId row q l :
  users db !! userId = Some user →
  organization db user = Some (orgId, row) →
  truthy_str (q_doctor q) = None →
  getAppointments db userId q = json 200 (AppointmentsBody l) →
  ∀ k a, (k, a) ∈ l →
    getAppointmentById db userId k = json 200 (AppointmentBody k a).
Proof.
  intros Hu Ho Hq Hl k a Hin.
  destruct (getAppointments_lists db userId user orgId row q Hu Ho)
    as (l' & Hl' & Hspec).
  rewrite Hl in Hl'. injection Hl' as <-.
  apply Hspec in Hin as [Hk Hm]. unfold matches in Hm.
  rewrite getAppointments_where_doctorId, Hq in Hm.
  destruct (getAppointments_where_organization userId user orgId q) as [Horg _].
  rewrite Horg in Hm. rewrite !andb_true_iff in Hm. simpl in Hm.
  destruct Hm as [[[[[_ Hc] Hd] _] _] _].
  unfold getAppointmentById. rewrite Hu, Ho. simpl.
  rewrite findFirst_scoped, Hk. unfold in_scope. rewrite Hc. simpl.
  destruct (bool_decide (User.role user = DOCTOR)); simpl in *; by rewrite ?Hd.
Qed.

Lemma X7_listed_is_readable_witness :
  getAppointments Example.db "doc1" (mkQuery None None None None)
  = json 200 (AppointmentsBody
      [("apt4", Appointment.mk "pat1" "doc1" "clinic1"
                  (Example.t0 - 600 * Example.minute) 30 None COMPLETED);
       ("apt1", Appointment.mk "pat1" "doc1" "clinic1"
                  (Example.t0 + 600 * Example.minute) 30 None SCHEDULED)])
  ∧ getAppointmentById Example.db "doc1" "apt1"
    = json 200 (AppointmentBody "apt1"
        (Appointment.mk "pat1" "doc1" "clinic1"
           (Example.t0 + 600 * Example.minute) 30 None SCHEDULED)).
Proof.
  assert (getAppointments Example.db "doc1" (mkQuery None None None None)
          = json 200 (AppointmentsBody
              [("apt4", Appointment.mk "pat1" "doc1" "clinic1"
                          (Example.t0 - 600 * Example.minute) 30 None COMPLETED);
               ("apt1", Appointment.mk "pat1" "doc1" "clinic1"
                          (Example.t0 + 600 * Example.minute) 30 None SCHEDULED)]))
    as Hlist by (vm_compute; reflexivity).
  split; [exact Hlist|].
  apply (X7_listed_is_readable Example.db "doc1"
           (User.mk "doc1@north.example" DOCTOR (Some "org1") true)
           "org1" (Organization.mk "North Practice" None)
           (mkQuery None None None None) _ eq_refl eq_refl eq_refl Hlist).
  right. left.
Defined.

(** ** Creating an organization *)

Section CountZero.
Context {A : Type}.

Lemma count_zero (P : string → A → bool) (m : gmap string A) :
  (∀ k a, m !! k = Some a → P k a = false) → count P m = 0.
Proof.
  intros H. apply findFirst_None in H. unfold findFirst in H.
  apply head_None in H. unfold count. by rewrite H.
Qed.
End CountZero.

(** X8.  A user without an organization who creates one (under a key no
    user refers to yet) becomes its only ADMIN; the same user's next
    creation is refused as already a member, and the user cannot be removed
    from the new organization, being its last ADMIN. *)
Theorem X8_creator_is_sole_admin db userId u name address newId :
  users db !! userId = Some u →
  truthy_str (User.organizationId u) = None →
  unreferenced db newId →
  newId ≠ "" →
  ∃ db',
    createOrganization db userId name address newId
    = (Success 201 (newId, Organization.mk name address), db')
    ∧ users db' !! userId = Some (set_membership (Some newId) ADMIN u)
    ∧ adminCount db' newId = 1
    ∧ (∀ name' address' newId',
         createOrganization db' userId name' address' newId'
         = (Failure already_member, db'))
    ∧ removeUserFromOrganization db' userId userId = (last_admin_error, db').
Proof.
  intros Hu Hnone Hfresh Hne. unfold createOrganization.
  rewrite Hu, Hnone. simpl. eexists. split; [reflexivity|].
  set (u' := set_membership (Some newId) ADMIN u).
  assert (alter (set_membership (Some newId) ADMIN) userId (users db) !! userId
          = Some u') as Hu' by by rewrite lookup_alter_eq, Hu.
  assert (adminCount
            (set_users
               (set_organizations db
                  (<[newId := Organization.mk name address]> (organizations db)))
               (alter (set_membership (Some newId) ADMIN) userId (users db)))
            newId = 1) as Hcount.
  { unfold adminCount. simpl.
    rewrite (count_alter _ _ userId u _ Hu). simpl.
    rewrite count_zero.
    - rewrite (bool_decide_eq_false_2 (User.organizationId u = Some newId)).
      + simpl. rewrite !bool_decide_eq_true_2 by done. done.
      + by apply (Hfresh userId).
    - intros k a Hk. simpl.
      rewrite (bool_decide_eq_false_2 (User.organizationId a = Some newId)); [done|].
      by apply (Hfresh k). }
  split; [exact Hu'|]. split; [exact Hcount|]. split.
  - intros name' address' newId'. unfold createOrganization. simpl.
    rewrite Hu'. simpl. by rewrite (bool_decide_eq_false_2 _ Hne).
  - unfold removeUserFromOrganization. simpl. rewrite Hu'.
    unfold organization. simpl. rewrite lookup_insert_eq. simpl.
    rewrite (findFirst_by_id
               (λ _ v, bool_decide (User.organizationId v = Some newId))).
    rewrite Hu'. simpl.
    rewrite !bool_decide_eq_true_2 by done. simpl.
    rewrite bool_decide_eq_true_2; [done|]. rewrite Hcount. lia.
Qed.

Lemma X8_creator_is_sole_admin_witness :
  ∃ db',
    createOrganization Example.db "new1" "West Practice" None "org3"
    = (Success 201 ("org3", Organization.mk "West Practice" None), db')
    ∧ adminCount db' "org3" = 1
    ∧ removeUserFromOrganization db' "new1" "new1" = (last_admin_error, db').
Proof.
  destruct (X8_creator_is_sole_admin Example.db "new1"
              (User.mk "new1@mail.example" STAFF None true)
              "West Practice" None "org3" eq_refl eq_refl)
    as (db' & Hr & _ & Hc & _ & Hrm).
  - intros k u Hk Ho. unfold Example.db in Hk. simpl in Hk.
    repeat (apply lookup_insert_Some in Hk as [[<- <-]|[_ Hk]];
            [discriminate Ho|]).
    by rewrite lookup_empty in Hk.
  - discriminate.
  - exists db'. split; [exact Hr|]. split; [exact Hc|exact Hrm].
Defined.

(** ** Joining *)

(** The call that an unused, unexpired invite admits. *)
Lemma joinOrganization_accepted db token k invite userId u org now :
  unique_tokens db →
  invites db !! k = Some invite →
  Invite.token invite = token →
  Invite.isUsed invite = false →
  now ≤ Invite.expiresAt invite →
  users db !! userId = Some u →
  truthy_str (User.organizationId u) = None →
  organizations db !! Invite.organizationId invite = Some org →
  joinOrganization db token userId now
  = (json 200 (JoinedBody "Successfully joined organization"
                          (Invite.organizationId invite)),
     set_invites
       (set_users db
          (alter (set_membership (Some (Invite.organizationId invite))
                                 (Invite.role invite)) userId (users db)))
       (alter mark_used k (invites db))).
Proof.
  intros Huniq Hk Ht Hused Hexp Hu Hnone Horg. unfold joinOrganization.
  rewrite (find_invite db token k invite Huniq Hk Ht). simpl.
  rewrite Hused, Hu, Hnone, Horg. simpl.
  by rewrite bool_decide_eq_false_2 by lia.
Qed.

(** X9.  An unused invite, up to and including the instant [expiresAt],
    admits any stored user who has no organization, whatever that user's
    email: the user gets the organization and the role of the invite, the
    invite is marked used, and no other user changes. *)
Theorem X9_invite_admits_any_caller db token k invite userId u org now :
  unique_tokens db →
  invites db !! k = Some invite →
  Invite.token invite = token →
  Invite.isUsed invite = false →
  now ≤ Invite.expiresAt invite →
  users db !! userId = Some u →
  truthy_str (User.organizationId u) = None →
  organizations db !! Invite.organizationId invite = Some org →
  ∃ db',
    joinOrganization db token userId now
    = (json 200 (JoinedBody "Successfully joined organization"
                            (Invite.organizationId invite)), db')
    ∧ users db' !! userId
      = Some (User.mk (User.email u) (Invite.role invite)
                      (Some (Invite.organizationId invite))
                      (User.isEmailVerified u))
    ∧ Invite.isUsed <$> invites db' !! k = Some true
    ∧ ∀ j, j ≠ userId → users db' !! j = users db !! j.
Proof.
  intros Huniq Hk Ht Hused Hexp Hu Hnone Horg.
  rewrite (joinOrganization_accepted db token k invite userId u org now)
    by done.
  eexists. split; [reflexivity|]. simpl.
  split; [by rewrite lookup_alter_eq, Hu|].
  split; [by rewrite lookup_alter_eq, Hk|].
  intros j Hj. by rewrite lookup_alter_ne.
Qed.

Lemma X9_invite_admits_any_caller_witness :
  ∃ db',
    joinOrganization Example.db "tok1" "new1" (Example.t0 + seven_days)
    = (json 200 (JoinedBody "Successfully joined organization" "org1"), db')
    ∧ users db' !! "new1"
      = Some (User.mk "new1@mail.example" DOCTOR (Some "org1") true).
Proof.
  destruct (X9_invite_admits_any_caller Example.db "tok1" "inv1"
              (Invite.mk "new1@mail.example" "tok1" DOCTOR "org1" "admin1"
                         (Example.t0 + seven_days) false)
              "new1" (User.mk "new1@mail.example" STAFF None true)
              (Organization.mk "North Practice" None)
              (Example.t0 + seven_days)
              Example_unique_tokens eq_refl eq_refl eq_refl)
    as (db' & Hr & Hu & _).
  - simpl. lia.
  - reflexivity.
  - reflexivity.
  - reflexivity.
  - exists db'. split; [exact Hr|exact Hu].
Defined.

(** What an answer 200 of [inviteUser] tells. *)
Lemma inviteUser_200 db userId email role now token newId delivered r db' :
  inviteUser db userId email role now token newId delivered = (r, db') →
  status r = 200%nat →
  ∃ user orgId row,
    users db !! userId = Some user
    ∧ organization db user = Some (orgId, row)
    ∧ (∀ k u, users db !! k = Some u → User.email u ≠ email)
    ∧ db' = set_invites db
              (<[newId := Invite.mk email token (str_or role DOCTOR) orgId
                            userId (now + seven_days) false]> (invites db)).
Proof.
  unfold inviteUser. intros H Hs.
  destruct (users db !! userId) as [user|] eqn:Hu; [|by injection H as <- <-].
  destruct (organization db user) as [[orgId row]|] eqn:Ho;
    [|by injection H as <- <-].
  case_bool_decide as Hexists; [by injection H as <- <-|].
  case_bool_decide as Hinvited; [by injection H as <- <-|].
  destruct delivered; simpl in H; [|by injection H as <- <-].
  injection H as <- <-. exists user, orgId, row.
  split; [done|]. split; [done|]. split; [|done].
  intros k u Hk Hemail. apply Hexists.
  apply (findFirst_is_Some _ _ k u Hk). by apply bool_decide_eq_true.
Qed.

(** X10.  From invitation to membership: after [inviteUser] has answered
    200, on any later store that has the invites and the organizations
    unchanged, a call of [joinOrganization] with the token of the invite, no
    later than seven days after, by a user without organization who is
    stored by then (before the invitation or after it, under the invited
    email or under another) makes that user a member of the inviter's
    organization with the role asked (DOCTOR when none was). *)
Theorem X10_invite_then_join
    db inviter email role t0 token newId delivered r db1 db2 joiner u now :
  inviteUser db inviter email role t0 token newId delivered = (r, db1) →
  status r = 200%nat →
  unique_tokens db →
  unused_token db token →
  invites db2 = invites db1 →
  organizations db2 = organizations db1 →
  users db2 !! joiner = Some u →
  truthy_str (User.organizationId u) = None →
  now ≤ t0 + seven_days →
  ∃ db3 admin orgId,
    users db !! inviter = Some admin
    ∧ User.organizationId admin = Some orgId
    ∧ joinOrganization db2 token joiner now
      = (json 200 (JoinedBody "Successfully joined organization" orgId), db3)
    ∧ users db3 !! joiner
      = Some (User.mk (User.email u) (str_or role DOCTOR) (Some orgId)
                      (User.isEmailVerified u)).
Proof.
  intros Hinv Hs Huniq Hunused Hinvites Horgs Hu Hnone Hnow.
  destruct (inviteUser_200 _ _ _ _ _ _ _ _ _ _ Hinv Hs)
    as (admin & orgId & row & Ha & Ho & Hemail & ->).
  destruct (organization_Some db admin orgId row Ho) as [Hao Horg].
  set (invite := Invite.mk email token (str_or role DOCTOR) orgId inviter
                   (t0 + seven_days) false).
  simpl in Hinvites, Horgs.
  assert (unique_tokens db2) as Huniq2.
  { intros k1 k2 i1 i2. rewrite Hinvites.
    rewrite !lookup_insert_Some.
    intros [[<- <-]|[Hn1 H1]] [[<- <-]|[Hn2 H2]] Ht; [done| | |by eauto].
    - exfalso. by apply (Hunused k2 i2 H2).
    - exfalso. by apply (Hunused k1 i1 H1). }
  eexists _, admin, orgId. split; [done|]. split; [done|].
  rewrite (joinOrganization_accepted _ token newId invite joiner u row now);
    [|done|by rewrite Hinvites, lookup_insert_eq|done|done|done|done|done
     |by rewrite Horgs].
  split; [reflexivity|]. simpl. by rewrite lookup_alter_eq, Hu.
Qed.

(** The invited [guest] signs up after the invitation, under the invited
    email, and joins with the token. *)
Lemma X10_invite_then_join_witness :
  let db1 :=
    (inviteUser Example.db "admin2" "guest@mail.example" (Some STAFF)
       Example.t0 "tok2" "inv2" true).2 in
  let db2 :=
    set_users db1
      (<["guest" := User.mk "guest@mail.example" STAFF None true]> (users db1)) in
  ∃ db3,
    joinOrganization db2 "tok2" "guest" (Example.t0 + 1000)
    = (json 200 (JoinedBody "Successfully joined organization" "org2"), db3)
    ∧ users db3 !! "guest"
      = Some (User.mk "guest@mail.example" STAFF (Some "org2") true).
Proof.
  intros db1 db2.
  destruct (X10_invite_then_join Example.db "admin2" "guest@mail.example"
              (Some STAFF) Example.t0 "tok2" "inv2" true
              (inviteUser Example.db "admin2" "guest@mail.example" (Some STAFF)
                 Example.t0 "tok2" "inv2" true).1
              db1 db2 "guest" (User.mk "guest@mail.example" STAFF None true)
              (Example.t0 + 1000))
    as (db3 & admin & orgId & Ha & Ho & Hr & Hu).
  - apply surjective_pairing.
  - reflexivity.
  - exact Example_unique_tokens.
  - intros k i Hk Ht. unfold Example.db in Hk. simpl in Hk.
    apply lookup_insert_Some in Hk as [[<- <-]|[_ Hk]]; [discriminate Ht|].
    by rewrite lookup_empty in Hk.
  - reflexivity.
  - reflexivity.
  - reflexivity.
  - reflexivity.
  - unfold seven_days. lia.
  - assert (orgId = "org2") as ->.
    { assert (admin = User.mk "admin2@south.example" ADMIN (Some "org2") true)
        as -> by (injection Ha as <-; reflexivity).
      by injection Ho as <-. }
    exists db3. split; [exact Hr|exact Hu].
Defined.

(** ** The gates *)

(** What [next()] of [authenticateToken] tells. *)
Lemma authenticateToken_Next jwt_verify db authorization ru :
  authenticateToken jwt_verify db authorization = Next ru →
  ∃ token u org,
    bearer_token authorization = Some token
    ∧ jwt_verify token = Decoded (ru_id ru)
    ∧ users db !! ru_id ru = Some u
    ∧ User.isEmailVerified u = true
    ∧ truthy_str (User.organizationId u) = Some org
    ∧ ru = mkReqUser (ru_id ru) (User.email u) (User.role u) (Some org)
                     (clinics_of db org).
Proof.
  unfold authenticateToken. intros H.
  destruct (bearer_token authorization) as [token|]; [|done].
  destruct (jwt_verify token) as [userId| | |] eqn:Hv; [|done..].
  destruct (users db !! userId) as [u|] eqn:Hu; [|done].
  destruct (User.isEmailVerified u) eqn:Hver; [|done]. simpl in H.
  destruct (truthy_str (User.organizationId u)) as [org|] eqn:Horg; [|done].
  injection H as <-. simpl. by exists token, u, org.
Qed.

(** X11.  A stored user who has an organization can neither create nor
    join one: for that user [createOrganization] answers that the user is
    already a member, and [joinOrganization] refuses every token, the
    unused and unexpired ones included; neither writes. *)
Theorem X11_member_cannot_create_or_join db userId u org :
  users db !! userId = Some u →
  truthy_str (User.organizationId u) = Some org →
  (∀ name address newId,
     createOrganization db userId name address newId
     = (Failure already_member, db))
  ∧ (∀ token now,
       rejected (joinOrganization db token userId now).1 = true
       ∧ (joinOrganization db token userId now).2 = db).
Proof.
  intros Hu Horg. split.
  - intros name address newId. unfold createOrganization.
    rewrite Hu, Horg. simpl. done.
  - intros token now. unfold joinOrganization.
    destruct (findFirst _ (invites db)) as [[k invite]|]; [|done]. simpl.
    destruct (Invite.isUsed invite); [done|].
    case_bool_decide; [done|]. rewrite Hu, Horg. simpl. done.
Qed.

Lemma X11_member_cannot_create_or_join_witness :
  createOrganization Example.db "doc1" "Another" None "org9"
  = (Failure already_member, Example.db)
  ∧ status (joinOrganization Example.db "tok1" "new1" Example.t0).1 = 200%nat
  ∧ rejected (joinOrganization Example.db "tok1" "doc1" Example.t0).1 = true
  ∧ (joinOrganization Example.db "tok1" "doc1" Example.t0).2 = Example.db.
Proof.
  destruct (X11_member_cannot_create_or_join Example.db "doc1"
              (User.mk "doc1@north.example" DOCTOR (Some "org1") true) "org1"
              eq_refl eq_refl) as [Hcreate Hjoin].
  split; [apply Hcreate|]. split; [vm_compute; reflexivity|].
  apply (Hjoin "tok1" Example.t0).
Defined.

(** X12.  The chain [authenticateToken], [requireAdmin] of the admin routes
    lets a request through only for a stored user with a verified email and
    an organization whose role is ADMIN; the clinics it attaches are stored
    clinics of that organization, and [requireDoctor] lets the same user
    through.  A user whom [authenticateToken] lets through with another
    role is answered 403 by the chain. *)
Theorem X12_admin_gate jwt_verify db authorization :
  (∀ ru,
     admin_gate jwt_verify db authorization = Next ru →
     (∃ u, users db !! ru_id ru = Some u
           ∧ User.role u = ADMIN
           ∧ User.isEmailVerified u = true
           ∧ User.organizationId u = ru_organizationId ru)
     ∧ (∃ org, ru_organizationId ru = Some org ∧ org ≠ ""
               ∧ ∀ k c, (k, c) ∈ ru_clinics ru →
                   clinics db !! k = Some c ∧ Clinic.organizationId c = org)
     ∧ requireDoctor (Some ru) = Next ru)
  ∧ (∀ ru,
       authenticateToken jwt_verify db authorization = Next ru →
       ru_role ru ≠ ADMIN →
       admin_gate jwt_verify db authorization
       = Answer (json 403 (ErrorCodeBody "Admin access required" "ADMIN_REQUIRED"))).
Proof.
  split.
  - intros ru H. unfold admin_gate in H.
    destruct (authenticateToken jwt_verify db authorization) as [r|ru'] eqn:Ha;
      [done|].
    unfold requireAdmin in H. case_bool_decide as Hrole; [|done].
    simpl in H. injection H as <-.
    destruct (authenticateToken_Next _ _ _ _ Ha)
      as (t & u & org & _ & _ & Hu & Hver & Horg & Hru).
    assert (User.organizationId u = Some org ∧ org ≠ "") as [Huo Hne].
    { unfold truthy_str in Horg. destruct (User.organizationId u) as [o|]; [|done].
      case_bool_decide; [done|]. by injection Horg as <-. }
    rewrite Hru in Hrole |- *. simpl in *. split; [|split].
    + by exists u.
    + exists org. split; [done|]. split; [done|].
      intros k c. unfold clinics_of.
      destruct (organizations db !! org); [|by intros ?%elem_of_nil].
      rewrite findMany_spec, bool_decide_eq_true. done.
    + unfold requireDoctor, includes. simpl.
      rewrite bool_decide_eq_true_2; [done|]. rewrite Hrole. by left.
  - intros ru Ha Hrole. unfold admin_gate. rewrite Ha. unfold requireAdmin.
    by rewrite bool_decide_eq_false_2.
Qed.

Lemma X12_admin_gate_witness :
  (∃ ru, admin_gate Sample.jwt_verify Example.db (Some "Bearer t-admin1") = Next ru
         ∧ ru_role ru = ADMIN ∧ ru_organizationId ru = Some "org1")
  ∧ admin_gate Sample.jwt_verify Example.db (Some "Bearer t-staff1")
    = Answer (json 403 (ErrorCodeBody "Admin access required" "ADMIN_REQUIRED")).
Proof.
  destruct (X12_admin_gate Sample.jwt_verify Example.db (Some "Bearer t-staff1"))
    as [_ Hother].
  split.
  - eexists. split; [vm_compute; reflexivity|]. split; reflexivity.
  - apply (Hother (mkReqUser "staff1" "staff1@north.example" STAFF (Some "org1")
                             [("clinic1", Clinic.mk "North Clinic" "org1")])).
    + vm_compute. reflexivity.
    + discriminate.
Defined.

(** ** Reading the token *)

Lemma app_nil_r_string (s : string) : s +:+ "" = s.
Proof.
  induction s as [|c s IH]; [done|].
  change (String c (s +:+ "") = String c s). by rewrite IH.
Qed.

Lemma app_assoc_string (a b c : string) : (a +:+ b) +:+ c = a +:+ (b +:+ c).
Proof.
  induction a as [|x a IH]; [done|].
  change (String x ((a +:+ b) +:+ c) = String x (a +:+ (b +:+ c))).
  by rewrite IH.
Qed.

Lemma split_space_word s rest acc :
  no_space s →
  split_space (s +:+ rest) acc = split_space rest (acc +:+ s).
Proof.
  revert acc. induction s as [|c s IH]; intros acc Hs.
  - by rewrite app_nil_r_string.
  - unfold no_space in Hs. simpl in Hs. apply Forall_cons in Hs as [Hc Hs].
    change (String c s +:+ rest) with (String c (s +:+ rest)).
    change (split_space (String c (s +:+ rest)) acc)
      with (if is_space c then acc :: split_space (s +:+ rest) ""
            else split_space (s +:+ rest) (acc +:+ String c "")).
    unfold is_space. rewrite bool_decide_eq_false_2 by done.
    rewrite IH by done. by rewrite app_assoc_string.
Qed.

Lemma split_space_single token :
  no_space token → split_space token "" = [token].
Proof.
  intros H. rewrite <- (app_nil_r_string token) at 1.
  by rewrite (split_space_word token "" "" H).
Qed.

(** X13.  The token is the second piece of the header, cut at spaces,
    whatever the first piece is: for a scheme and a non-empty token without
    spaces, [<scheme> <token>] yields the token, so the word Bearer is not
    asked for; a header without a space yields none. *)
Theorem X13_token_is_second_piece scheme token :
  no_space scheme →
  no_space token →
  token ≠ "" →
  bearer_token (Some (scheme +:+ " " +:+ token)) = Some token
  ∧ bearer_token (Some token) = None.
Proof.
  intros Hscheme Htoken Hne. unfold bearer_token. split.
  - change (" " +:+ token) with (String Ascii.Space token).
    assert (truthy_str (Some (scheme +:+ String Ascii.Space token))
            = Some (scheme +:+ String Ascii.Space token)) as ->.
    { simpl. rewrite bool_decide_eq_false_2; [done|].
      destruct scheme; discriminate. }
    simpl. rewrite (split_space_word scheme (String Ascii.Space token) "" Hscheme).
    change (split_space (String Ascii.Space token) ("" +:+ scheme))
      with (("" +:+ scheme) :: split_space token "").
    rewrite (split_space_single token Htoken). simpl.
    by rewrite bool_decide_eq_false_2.
  - simpl. rewrite (bool_decide_eq_false_2 _ Hne). simpl.
    by rewrite (split_space_single token Htoken).
Qed.

Lemma X13_token_is_second_piece_witness :
  bearer_token (Some ("Basic" +:+ " " +:+ "t-admin1")) = Some "t-admin1"
  ∧ bearer_token (Some "t-admin1") = None.
Proof.
  apply X13_token_is_second_piece.
  - unfold no_space. simpl. repeat constructor; discriminate.
  - unfold no_space. simpl. repeat constructor; discriminate.
  - discriminate.
Defined.

(** X14.  [optionalAuth] attaches the user that [authenticateToken] would
    attach (same id, email, role and organization) whenever the latter lets
    the request through; it also attaches a verified user who has no
    organization, whom [authenticateToken] answers with 403. *)
Theorem X14_optional_agrees jwt_verify db authorization :
  (∀ ru,
     authenticateToken jwt_verify db authorization = Next ru →
     optionalAuth jwt_verify db authorization
     = Some (mkReqUser (ru_id ru) (ru_email ru) (ru_role ru)
                       (ru_organizationId ru) []))
  ∧ (∀ token userId u,
       bearer_token authorization = Some token →
       jwt_verify token = Decoded userId →
       users db !! userId = Some u →
       User.isEmailVerified u = true →
       User.organizationId u = None →
       optionalAuth jwt_verify db authorization
       = Some (mkReqUser userId (User.email u) (User.role u) None [])
       ∧ authenticateToken jwt_verify db authorization
         = Answer (json 403 (ErrorCodeBody "User must belong to an organization"
                                           "NO_ORGANIZATION"))).
Proof.
  split.
  - intros ru H.
    destruct (authenticateToken_Next _ _ _ _ H)
      as (t & u & org & Ht & Hv & Hu & Hver & Horg & Hru).
    unfold optionalAuth. rewrite Ht. simpl. rewrite Hv, Hu. simpl.
    rewrite Hver, Hru. simpl. do 2 f_equal.
    unfold truthy_str in Horg. destruct (User.organizationId u) as [o|]; [|done].
    case_bool_decide; [done|]. by injection Horg as <-.
  - intros token userId u Ht Hv Hu Hver Hnone.
    unfold optionalAuth, authenticateToken. rewrite Ht. simpl.
    rewrite Hv, Hu. simpl. rewrite Hver, Hnone. done.
Qed.

Lemma X14_optional_agrees_witness :
  optionalAuth Sample.jwt_verify Example.db (Some "Bearer t-new1")
  = Some (mkReqUser "new1" "new1@mail.example" STAFF None [])
  ∧ authenticateToken Sample.jwt_verify Example.db (Some "Bearer t-new1")
    = Answer (json 403 (ErrorCodeBody "User must belong to an organization"
                                      "NO_ORGANIZATION")).
Proof.
  destruct (X14_optional_agrees Sample.jwt_verify Example.db
              (Some "Bearer t-new1")) as [_ H].
  apply (H "t-new1" "new1" (User.mk "new1@mail.example" STAFF None true));
    reflexivity.
Defined.

(** ** The add-on gate after a webhook *)

Lemma checkAddOn_refuses catalog name db user :
  (∀ k o, organizationAddOns db !! k = Some o →
          Some (OrganizationAddOn.organizationId o) = ru_organizationId user →
          addOn_named catalog name o = true →
          OrganizationAddOn.isActive o = false) →
  checkAddOn catalog name db (Some user) = Answer (addon_required name).
Proof.
  intros H. unfold checkAddOn.
  destruct (findFirst _ (organizationAddOns db)) as [[k o]|] eqn:E; [|done].
  apply findFirst_Some in E as [Hk Hp].
  rewrite !andb_true_iff, bool_decide_eq_true in Hp.
  destruct Hp as [[Horg Hname] Hact].
  by rewrite (H k o Hk Horg Hname) in Hact.
Qed.

Lemma checkAddOn_passes catalog name db user k o :
  organizationAddOns db !! k = Some o →
  Some (OrganizationAddOn.organizationId o) = ru_organizationId user →
  addOn_named catalog name o = true →
  OrganizationAddOn.isActive o = true →
  checkAddOn catalog name db (Some user) = Next user.
Proof.
  intros Hk Horg Hname Hact. unfold checkAddOn.
  destruct (findFirst _ (organizationAddOns db)) as [[k' o']|] eqn:E; [done|].
  rewrite findFirst_None in E. specialize (E k o Hk). simpl in E.
  rewrite Hname, Hact, bool_decide_eq_true_2 in E by done. done.
Qed.

(** X15.  After the webhook has handled [subscription.cancelled] for the
    gateway id of a stored subscription, [checkAddOn] refuses every user of
    that subscription's organization, for every add-on name; after
    [subscription.activated] it lets such a user through for every add-on of
    the catalog of which the organization has a row, active before or not. *)
Theorem X15_webhook_drives_gate catalog db sid now :
  (∃ k s, subscriptions db !! k = Some s
          ∧ Subscription.razorpaySubscriptionId s = sid) →
  (∃ db' k sub,
     handleRazorpayWebhook db (Some ()) "subscription.cancelled" (Some sid) now
     = (json 200 (StatusBody "ok"), db')
     ∧ subscriptions db !! k = Some sub
     ∧ Subscription.razorpaySubscriptionId sub = sid
     ∧ ∀ name user,
         ru_organizationId user = Some (Subscription.organizationId sub) →
         checkAddOn catalog name db' (Some user)
         = Answer (addon_required name))
  ∧ (∃ db' k sub,
       handleRazorpayWebhook db (Some ()) "subscription.activated" (Some sid) now
       = (json 200 (StatusBody "ok"), db')
       ∧ subscriptions db !! k = Some sub
       ∧ Subscription.razorpaySubscriptionId sub = sid
       ∧ ∀ id o a user,
           organizationAddOns db !! id = Some o →
           OrganizationAddOn.organizationId o = Subscription.organizationId sub →
           catalog !! OrganizationAddOn.addOnId o = Some a →
           ru_organizationId user = Some (Subscription.organizationId sub) →
           checkAddOn catalog (AddOn.name a) db' (Some user) = Next user).
Proof.
  intros Hstored. split.
  - destruct (handleRazorpayWebhook_toggles db "subscription.cancelled" false
                sid now eq_refl) as (status & endDate & Hr).
    destruct (on_subscription_frame db sid status endDate false Hstored)
      as (k & sub & Hk & Hid & Haddons).
    eexists _, k, sub. split; [exact Hr|]. split; [done|]. split; [done|].
    intros name user Huser. apply checkAddOn_refuses.
    intros j o'. rewrite Haddons. unfold updateMany. rewrite lookup_fmap.
    destruct (organizationAddOns db !! j) as [o|]; simpl; [|done].
    intros [= <-] Horg _. rewrite Huser in Horg.
    case_bool_decide as Hm; [done|]. exfalso. apply Hm. congruence.
  - destruct (handleRazorpayWebhook_toggles db "subscription.activated" true
                sid now eq_refl) as (status & endDate & Hr).
    destruct (on_subscription_frame db sid status endDate true Hstored)
      as (k & sub & Hk & Hid & Haddons).
    eexists _, k, sub. split; [exact Hr|]. split; [done|]. split; [done|].
    intros id o a user Ho Horg Ha Huser.
    apply (checkAddOn_passes _ _ _ _ id (set_isActive true o)).
    + rewrite Haddons. unfold updateMany. rewrite lookup_fmap, Ho. simpl.
      by rewrite bool_decide_eq_true_2.
    + simpl. by rewrite Huser, Horg.
    + unfold addOn_named. simpl. rewrite Ha. by apply bool_decide_eq_true.
    + done.
Qed.

Lemma X15_webhook_drives_gate_witness :
  let user := mkReqUser "doc1" "doc1@north.example" DOCTOR (Some "org1") [] in
  checkAddOn Sample.catalog "AI Scribe" Example.db (Some user) = Next user
  ∧ checkAddOn Sample.catalog "AI Scribe"
      (handleRazorpayWebhook Example.db (Some ()) "subscription.cancelled"
         (Some "rzp_1") Example.t0).2 (Some user)
    = Answer (addon_required "AI Scribe").
Proof.
  intros user.
  destruct (X15_webhook_drives_gate Sample.catalog Example.db "rzp_1" Example.t0)
    as [(db' & k & sub & Hr & Hk & Hid & Hgate) _].
  - exists "sub1", (Subscription.mk "org1" "rzp_1" 4999 ACTIVE None).
    split; reflexivity.
  - split; [reflexivity|]. rewrite Hr. apply (Hgate "AI Scribe" user).
    assert (k = "sub1") as ->.
    { unfold Example.db in Hk. simpl in Hk.
      apply lookup_insert_Some in Hk as [[<- _]|[_ Hk]]; [done|].
      apply lookup_insert_Some in Hk as [[<- <-]|[_ Hk]]; [discriminate Hid|].
      by rewrite lookup_empty in Hk. }
    injection Hk as <-. reflexivity.
Defined.

(** ** Billing a use *)

Lemma increment_usage_row catalog db orgId k :
  organizationAddOns (increment_usage catalog db orgId) !! k
  = (λ o, if bool_decide (OrganizationAddOn.organizationId o = orgId)
             && addOn_named catalog "AI Scribe" o
          then used_once o else o) <$> organizationAddOns db !! k.
Proof. unfold increment_usage, updateMany. simpl. by rewrite lookup_fmap. Qed.

(** X16.  A billed AI feature ([voiceToText], [extractTextFromImage],
    [generateSummary]) that answers adds exactly 1 to [usageCount] of the
    rows of the caller's organization for the add-on named 'AI Scribe',
    active or not, and leaves the other rows and columns; when the input is
    missing or the AI call throws it answers 400 or 500 and bills nothing. *)
Theorem X16_billed_use failed required catalog db userId user orgId row input :
  users db !! userId = Some user →
  organization db user = Some (orgId, row) →
  (∀ text, is_Some (truthy_str input) →
     ∃ db', billed_feature failed required catalog db userId input (Some text)
            = (Success 200 text, db')
            ∧ ∀ k, organizationAddOns db' !! k
                   = (λ o, if bool_decide (OrganizationAddOn.organizationId o = orgId)
                              && addOn_named catalog "AI Scribe" o
                           then OrganizationAddOn.mk
                                  (OrganizationAddOn.organizationId o)
                                  (OrganizationAddOn.addOnId o)
                                  (OrganizationAddOn.isActive o)
                                  (OrganizationAddOn.usageCount o + 1)
                           else o) <$> organizationAddOns db !! k)
  ∧ (is_Some (truthy_str input) →
     billed_feature failed required catalog db userId input None
     = (Failure (json 500 (ErrorBody failed)), db))
  ∧ (∀ service, truthy_str input = None →
       billed_feature failed required catalog db userId input service
       = (Failure (json 400 (ErrorBody required)), db)).
Proof.
  intros Hu Ho. unfold billed_feature. rewrite Hu, Ho. simpl.
  split; [|split].
  - intros text [i ->]. eexists. split; [reflexivity|].
    intros k. apply increment_usage_row.
  - by intros [i ->].
  - by intros service ->.
Qed.

Lemma X16_billed_use_witness :
  ∃ db',
    voiceToText Sample.catalog Example.db "doc1" (Some "UklGRg==") (Some "headache")
    = (Success 200 "headache", db')
    ∧ organizationAddOns db' !! "oa1"
      = Some (OrganizationAddOn.mk "org1" "scribe" true 6)
    ∧ organizationAddOns db' !! "oa3"
      = Some (OrganizationAddOn.mk "org2" "scribe" true 7).
Proof.
  destruct (X16_billed_use "Failed to transcribe audio" "Audio data is required"
              Sample.catalog Example.db "doc1"
              (User.mk "doc1@north.example" DOCTOR (Some "org1") true)
              "org1" (Organization.mk "North Practice" None) (Some "UklGRg==")
              eq_refl eq_refl) as [Hok _].
  destruct (Hok "headache") as (db' & Hr & Hrows); [by eexists|].
  exists db'. split; [exact Hr|]. rewrite !Hrows. split; reflexivity.
Defined.

(** ** Subscribing to add-ons *)

Lemma selection_length (catalog : gmap string AddOn.t) (addonIds : list string) :
  length (findMany (λ id _, bool_decide (id ∈ addonIds)) catalog)
  = length addonIds
  ↔ valid_selection catalog addonIds.
Proof.
  set (rows := findMany (λ id _, bool_decide (id ∈ addonIds)) catalog).
  assert (NoDup rows.*1) as Hnd.
  { eapply sublist_NoDup; [apply (NoDup_fst_map_to_list catalog)|].
    apply fmap_sublist. apply sublist_filter. }
  assert (∀ id, id ∈ rows.*1 ↔ id ∈ addonIds ∧ is_Some (catalog !! id)) as Hin.
  { intros id. rewrite list_elem_of_fmap. split.
    - intros ([k a] & -> & H). apply findMany_spec in H as [Hk Hp].
      apply bool_decide_eq_true in Hp. simpl. split; [done|by eexists].
    - intros [Hid [a Ha]]. exists (id, a). split; [done|].
      apply findMany_spec. split; [done|]. by apply bool_decide_eq_true. }
  rewrite <- (length_fmap fst rows). unfold valid_selection. split.
  - intros Hlen.
    assert (rows.*1 ≡ₚ addonIds) as Hperm.
    { apply submseteq_length_Permutation; [|lia].
      apply NoDup_submseteq; [done|]. intros id Hid. by apply Hin in Hid as [? _]. }
    split; [by rewrite <- Hperm|].
    intros id Hid. rewrite <- Hperm in Hid. by apply Hin in Hid as [_ ?].
  - intros [Hnd' Hall]. apply Permutation_length.
    apply NoDup_Permutation; [done..|].
    intros id. rewrite Hin. split; [by intros [? _]|].
    intros Hid. split; [done|]. by apply Hall.
Qed.

(** X17.  [subscribeToAddons] takes a non-empty selection exactly when its
    ids are distinct and all in the catalog: a selection that names an
    add-on twice is answered as invalid, like one that names an unknown
    add-on, and nothing is written. *)
Theorem X17_selection_validated
    catalog db userId user orgId row addonIds rowId gateway key :
  users db !! userId = Some user →
  organization db user = Some (orgId, row) →
  addonIds ≠ [] →
  subscribeToAddons catalog db userId (Some addonIds) rowId gateway key
  = (Failure invalid_selection, db)
  ↔ ¬ valid_selection catalog addonIds.
Proof.
  intros Hu Ho Hne. unfold subscribeToAddons. rewrite Hu, Ho. simpl.
  destruct addonIds as [|id ids]; [done|].
  rewrite <- selection_length. case_bool_decide as Hlen; simpl.
  - split; [|done]. destruct gateway; intros [= H]; done.
  - done.
Qed.

Lemma X17_selection_validated_witness :
  subscribeToAddons Sample.catalog Example.db "admin1"
    (Some ["scribe"; "scribe"]) Sample.rowId (Some "sub_1") "sub9"
  = (Failure invalid_selection, Example.db).
Proof.
  apply (X17_selection_validated Sample.catalog Example.db "admin1"
           (User.mk "admin1@north.example" ADMIN (Some "org1") true)
           "org1" (Organization.mk "North Practice" None)).
  - reflexivity.
  - reflexivity.
  - discriminate.
  - intros [Hnd _]. apply NoDup_cons in Hnd as [Hin _].
    apply Hin. by left.
Defined.

Lemma upsert_addon_step rowId `{!Inj (=) (=) rowId} orgId m id :
  keys_own rowId orgId m →
  keys_own rowId orgId (upsert_addon orgId rowId m id)
  ∧ enabled (upsert_addon orgId rowId m id) orgId id
  ∧ (∀ id', enabled m orgId id' →
            enabled (upsert_addon orgId rowId m id) orgId id')
  ∧ (∀ k o, m !! k = Some o →
            OrganizationAddOn.organizationId o ≠ orgId →
            upsert_addon orgId rowId m id !! k = Some o).
Proof.
  intros Hown. unfold upsert_addon.
  destruct (findFirst _ m) as [[k row]|] eqn:E; simpl.
  - apply findFirst_Some in E as [Hk Hp].
    rewrite andb_true_iff, !bool_decide_eq_true in Hp. destruct Hp as [Horg Hid].
    split; [|split; [|split]].
    + intros id' k' o'. destruct (decide (k' = k)) as [->|Hne].
      * rewrite lookup_alter_eq, Hk. simpl. intros [= <-] Hkey. simpl.
        by apply (Hown id' k row).
      * rewrite lookup_alter_ne by done. apply Hown.
    + exists k, (set_isActive true row). by rewrite lookup_alter_eq, Hk.
    + intros id' (k' & o' & Hk' & Ho1 & Ho2 & Ho3).
      destruct (decide (k' = k)) as [->|Hne].
      * exists k, (set_isActive true o'). rewrite lookup_alter_eq, Hk'. done.
      * exists k', o'. by rewrite lookup_alter_ne.
    + intros k' o' Hk' Hother. rewrite lookup_alter_ne; [done|].
      intros ->. rewrite Hk in Hk'. injection Hk' as <-. done.
  - rewrite findFirst_None in E.
    assert (m !! rowId id = None) as Hfree.
    { destruct (m !! rowId id) as [o|] eqn:Hk; [|done].
      destruct (Hown id (rowId id) o Hk eq_refl) as [Horg Hid].
      specialize (E _ _ Hk). simpl in E.
      by rewrite !bool_decide_eq_true_2 in E. }
    split; [|split; [|split]].
    + intros id' k' o'. rewrite lookup_insert_Some.
      intros [[<- <-]|[Hne Hk']] Hkey.
      * apply (inj rowId) in Hkey as <-. done.
      * by apply (Hown id' k' o').
    + eexists (rowId id), _. by rewrite lookup_insert_eq.
    + intros id' (k' & o' & Hk' & Ho'). exists k', o'.
      rewrite lookup_insert_ne; [done|]. intros <-. by rewrite Hfree in Hk'.
    + intros k' o' Hk' _. rewrite lookup_insert_ne; [done|].
      intros <-. by rewrite Hfree in Hk'.
Qed.

Lemma upsert_addons rowId `{!Inj (=) (=) rowId} orgId addonIds m :
  keys_own rowId orgId m →
  keys_own rowId orgId (foldl (upsert_addon orgId rowId) m addonIds)
  ∧ (∀ id, id ∈ addonIds ∨ enabled m orgId id →
           enabled (foldl (upsert_addon orgId rowId) m addonIds) orgId id)
  ∧ (∀ k o, m !! k = Some o →
            OrganizationAddOn.organizationId o ≠ orgId →
            foldl (upsert_addon orgId rowId) m addonIds !! k = Some o).
Proof.
  revert m. induction addonIds as [|id ids IH]; intros m Hown; simpl.
  - split; [done|]. split; [|done]. intros id [Hin|H]; [|done].
    by apply elem_of_nil in Hin.
  - destruct (upsert_addon_step rowId orgId m id Hown)
      as (Hown1 & Hid & Hkeep & Hframe).
    destruct (IH _ Hown1) as (Hown2 & Hall & Hframe2).
    split; [done|]. split.
    + intros id' [Hin|Hen].
      * apply elem_of_cons in Hin as [->|Hin]; apply Hall; auto.
      * apply Hall. right. by apply Hkeep.
    + intros k o Hk Hother. apply Hframe2; [|done]. by apply Hframe.
Qed.

Lemma fresh_keys_own rowId orgId (m : gmap string OrganizationAddOn.t) :
  (∀ id, m !! rowId id = None) → keys_own rowId orgId m.
Proof. intros H id k o Hk ->. by rewrite H in Hk. Qed.

Lemma enabled_passes catalog db orgId id a user :
  enabled (organizationAddOns db) orgId id →
  catalog !! id = Some a →
  ru_organizationId user = Some orgId →
  checkAddOn catalog (AddOn.name a) db (Some user) = Next user.
Proof.
  intros (k & o & Hk & Horg & Hid & Hact) Ha Huser.
  apply (checkAddOn_passes _ _ _ _ k o Hk); [by rewrite Huser, Horg| |done].
  unfold addOn_named. rewrite Hid, Ha. by apply bool_decide_eq_true.
Qed.

Lemma subscribeToAddons_valid
    catalog db userId user orgId row addonIds rowId gateway key :
  users db !! userId = Some user →
  organization db user = Some (orgId, row) →
  addonIds ≠ [] →
  valid_selection catalog addonIds →
  subscribeToAddons catalog db userId (Some addonIds) rowId gateway key
  = let amount :=
      foldl (λ sum addon, sum + AddOn.price addon.2) 0
            (findMany (λ id _, bool_decide (id ∈ addonIds)) catalog) in
    let db1 :=
      set_organizationAddOns db
        (foldl (upsert_addon orgId rowId) (organizationAddOns db) addonIds) in
    match gateway with
    | Some sid =>
        (Success 200 (key, amount, ACTIVE),
         set_subscriptions db1
           (<[key := Subscription.mk orgId sid amount ACTIVE None]>
              (subscriptions db1)))
    | None => (Failure subscription_failed, db1)
    end.
Proof.
  intros Hu Ho Hne Hvalid. unfold subscribeToAddons. rewrite Hu, Ho. simpl.
  destruct addonIds as [|id0 ids]; [done|].
  apply selection_length in Hvalid.
  rewrite (bool_decide_eq_true_2 _ Hvalid). simpl. by destruct gateway.
Qed.

(** X18.  After [subscribeToAddons] has taken a valid selection (the store's
    keys for new rows being distinct and free), [checkAddOn] lets every user
    of the caller's organization through for each add-on selected; the
    subscription is recorded as ACTIVE under the gateway's id, and no row of
    another organization changes. *)
Theorem X18_subscribe_opens_gate
    catalog db userId user orgId row addonIds rowId `{!Inj (=) (=) rowId} sid key :
  users db !! userId = Some user →
  organization db user = Some (orgId, row) →
  addonIds ≠ [] →
  valid_selection catalog addonIds →
  (∀ id, organizationAddOns db !! rowId id = None) →
  ∃ db' amount,
    subscribeToAddons catalog db userId (Some addonIds) rowId (Some sid) key
    = (Success 200 (key, amount, ACTIVE), db')
    ∧ subscriptions db' !! key
      = Some (Subscription.mk orgId sid amount ACTIVE None)
    ∧ (∀ id a member,
         id ∈ addonIds → catalog !! id = Some a →
         ru_organizationId member = Some orgId →
         checkAddOn catalog (AddOn.name a) db' (Some member) = Next member)
    ∧ (∀ k o, organizationAddOns db !! k = Some o →
              OrganizationAddOn.organizationId o ≠ orgId →
              organizationAddOns db' !! k = Some o).
Proof.
  intros Hu Ho Hne Hvalid Hfresh.
  rewrite (subscribeToAddons_valid _ _ _ _ _ _ _ _ _ _ Hu Ho Hne Hvalid).
  destruct (upsert_addons rowId orgId addonIds (organizationAddOns db)
              (fresh_keys_own rowId orgId _ Hfresh)) as (_ & Hall & Hframe).
  eexists _, _. split; [reflexivity|].
  split; [simpl; by rewrite lookup_insert_eq|]. split; [|exact Hframe].
  intros id a member Hin Ha Hm.
  apply (enabled_passes _ _ orgId id a member); [|done..].
  simpl. apply Hall. by left.
Qed.

(** X19.  When the gateway call throws, [subscribeToAddons] answers 500 and
    records no subscription, but the add-ons of the selection were enabled
    before the call and stay so: [checkAddOn] lets the organization's users
    through for each of them. *)
Theorem X19_gateway_failure_leaves_addons_enabled
    catalog db userId user orgId row addonIds rowId `{!Inj (=) (=) rowId} key :
  users db !! userId = Some user →
  organization db user = Some (orgId, row) →
  addonIds ≠ [] →
  valid_selection catalog addonIds →
  (∀ id, organizationAddOns db !! rowId id = None) →
  ∃ db',
    subscribeToAddons catalog db userId (Some addonIds) rowId None key
    = (Failure subscription_failed, db')
    ∧ subscriptions db' = subscriptions db
    ∧ ∀ id a member,
        id ∈ addonIds → catalog !! id = Some a →
        ru_organizationId member = Some orgId →
        checkAddOn catalog (AddOn.name a) db' (Some member) = Next member.
Proof.
  intros Hu Ho Hne Hvalid Hfresh.
  rewrite (subscribeToAddons_valid _ _ _ _ _ _ _ _ _ _ Hu Ho Hne Hvalid).
  destruct (upsert_addons rowId orgId addonIds (organizationAddOns db)
              (fresh_keys_own rowId orgId _ Hfresh)) as (_ & Hall & _).
  eexists. split; [reflexivity|]. split; [done|].
  intros id a member Hin Ha Hm.
  apply (enabled_passes _ _ orgId id a member); [|done..].
  simpl. apply Hall. by left.
Qed.

Lemma X18_subscribe_opens_gate_witness :
  let member := mkReqUser "doc3" "doc3@south.example" DOCTOR (Some "org2") [] in
  checkAddOn Sample.catalog "Analytics" Example.db (Some member)
  = Answer (addon_required "Analytics")
  ∧ ∃ db' amount,
      subscribeToAddons Sample.catalog Example.db "admin2" (Some ["analytics"])
        Sample.rowId (Some "sub_17") "sub9"
      = (Success 200 ("sub9", amount, ACTIVE), db')
      ∧ checkAddOn Sample.catalog "Analytics" db' (Some member) = Next member.
Proof.
  intros member. split; [reflexivity|].
  destruct (X18_subscribe_opens_gate Sample.catalog Example.db "admin2"
              (User.mk "admin2@south.example" ADMIN (Some "org2") true)
              "org2" (Organization.mk "South Practice" None) ["analytics"]
              Sample.rowId (Inj0 := String.app_inj "oa-") "sub_17" "sub9"
              eq_refl eq_refl)
    as (db' & amount & Hr & _ & Hgate & _).
  - discriminate.
  - split; [apply NoDup_singleton|].
    intros id ->%list_elem_of_singleton. by eexists.
  - intros id. unfold Example.db, Sample.rowId. simpl.
    rewrite !lookup_insert_ne
      by (intros Heq; vm_compute in Heq; discriminate).
    apply lookup_empty.
  - exists db', amount. split; [exact Hr|].
    apply (Hgate "analytics" (AddOn.mk "Analytics" 1999) member);
      [by left|reflexivity|reflexivity].
Defined.

Lemma X19_gateway_failure_leaves_addons_enabled_witness :
  let member := mkReqUser "doc3" "doc3@south.example" DOCTOR (Some "org2") [] in
  ∃ db',
    subscribeToAddons Sample.catalog Example.db "admin2" (Some ["analytics"])
      Sample.rowId None "sub9"
    = (Failure subscription_failed, db')
    ∧ subscriptions db' = subscriptions Example.db
    ∧ checkAddOn Sample.catalog "Analytics" db' (Some member) = Next member.
Proof.
  intros member.
  destruct (X19_gateway_failure_leaves_addons_enabled Sample.catalog Example.db
              "admin2" (User.mk "admin2@south.example" ADMIN (Some "org2") true)
              "org2" (Organization.mk "South Practice" None) ["analytics"]
              Sample.rowId (Inj0 := String.app_inj "oa-") "sub9"
              eq_refl eq_refl)
    as (db' & Hr & Hsubs & Hgate).
  - discriminate.
  - split; [apply NoDup_singleton|].
    intros id ->%list_elem_of_singleton. by eexists.
  - intros id. unfold Example.db, Sample.rowId. simpl.
    rewrite !lookup_insert_ne
      by (intros Heq; vm_compute in Heq; discriminate).
    apply lookup_empty.
  - exists db'. split; [exact Hr|]. split; [exact Hsubs|].
    apply (Hgate "analytics" (AddOn.mk "Analytics" 1999) member);
      [by left|reflexivity|reflexivity].
Defined.

(** ** Who may edit an EHR record *)

Lemma find_ehr db id orgId :
  findFirst (λ k r, bool_decide (k = id)
                    && patient_in db (EHRRecord.patientId r) orgId)
            (ehrRecords db)
  = match ehrRecords db !! id with
    | Some r => if bool_decide (patient_owner db (EHRRecord.patientId r) = Some orgId)
                then Some (id, r) else None
    | None => None
    end.
Proof.
  rewrite (findFirst_by_id (λ _ r, patient_in db (EHRRecord.patientId r) orgId)).
  destruct (ehrRecords db !! id) as [r|]; [|done].
  by rewrite patient_in_owner.
Qed.

(** X20.  An EHR record of a patient of the caller's organization can be
    edited by its author and by an ADMIN, and by no one else, who is
    answered 403; the edit leaves the patient and the author of the record.
    A record of another organization's patient is answered 404, also to an
    ADMIN. *)
Theorem X20_ehr_edit_rights db userId user orgId row id r diagnosis :
  users db !! userId = Some user →
  organization db user = Some (orgId, row) →
  ehrRecords db !! id = Some r →
  (patient_owner db (EHRRecord.patientId r) = Some orgId →
   (EHRRecord.doctorId r = userId ∨ User.role user = ADMIN →
    ∃ db', updateEHRRecord db userId id diagnosis
           = (json 200 (EHRRecordBody id (rediagnose diagnosis r)), db')
           ∧ ehrRecords db' !! id = Some (rediagnose diagnosis r)
           ∧ EHRRecord.patientId (rediagnose diagnosis r) = EHRRecord.patientId r
           ∧ EHRRecord.doctorId (rediagnose diagnosis r) = EHRRecord.doctorId r)
   ∧ (EHRRecord.doctorId r ≠ userId → User.role user ≠ ADMIN →
      updateEHRRecord db userId id diagnosis = (no_permission, db)))
  ∧ (patient_owner db (EHRRecord.patientId r) ≠ Some orgId →
     updateEHRRecord db userId id diagnosis = (ehr_not_found, db)).
Proof.
  intros Hu Ho Hk. unfold updateEHRRecord. rewrite Hu, Ho. simpl.
  rewrite find_ehr, Hk. split.
  - intros Hown. rewrite (bool_decide_eq_true_2 _ Hown). simpl. split.
    + intros Hmay.
      assert (negb (bool_decide (EHRRecord.doctorId r = userId))
              && negb (bool_decide (User.role user = ADMIN)) = false) as ->.
      { destruct Hmay as [H|H]; rewrite (bool_decide_eq_true_2 _ H); simpl;
          [done|by rewrite andb_false_r]. }
      eexists. split; [reflexivity|]. simpl.
      split; [by rewrite lookup_alter_eq, Hk|]. done.
    + intros Hauthor Hrole. by rewrite !bool_decide_eq_false_2 by done.
  - intros Hother. by rewrite (bool_decide_eq_false_2 _ Hother).
Qed.

Lemma X20_ehr_edit_rights_witness :
  updateEHRRecord Example.db "doc2" "ehr1" (Some "tension headache")
  = (no_permission, Example.db)
  ∧ updateEHRRecord Example.db "admin2" "ehr1" (Some "tension headache")
    = (ehr_not_found, Example.db)
  ∧ ∃ db', updateEHRRecord Example.db "admin1" "ehr1" (Some "tension headache")
           = (json 200 (EHRRecordBody "ehr1"
                (EHRRecord.mk "pat1" "doc1" (Some "tension headache"))), db').
Proof.
  split; [|split].
  - destruct (X20_ehr_edit_rights Example.db "doc2"
                (User.mk "doc2@north.example" DOCTOR (Some "org1") true)
                "org1" (Organization.mk "North Practice" None) "ehr1"
                (EHRRecord.mk "pat1" "doc1" (Some "migraine"))
                (Some "tension headache") eq_refl eq_refl eq_refl) as [Hin _].
    destruct (Hin eq_refl) as [_ Hno]. apply Hno; discriminate.
  - destruct (X20_ehr_edit_rights Example.db "admin2"
                (User.mk "admin2@south.example" ADMIN (Some "org2") true)
                "org2" (Organization.mk "South Practice" None) "ehr1"
                (EHRRecord.mk "pat1" "doc1" (Some "migraine"))
                (Some "tension headache") eq_refl eq_refl eq_refl) as [_ Hout].
    apply Hout. discriminate.
  - destruct (X20_ehr_edit_rights Example.db "admin1"
                (User.mk "admin1@north.example" ADMIN (Some "org1") true)
                "org1" (Organization.mk "North Practice" None) "ehr1"
                (EHRRecord.mk "pat1" "doc1" (Some "migraine"))
                (Some "tension headache") eq_refl eq_refl eq_refl) as [Hin _].
    destruct (Hin eq_refl) as [Hmay _].
    destruct Hmay as (db' & Hr & _); [by right|]. by exists db'.
Defined.

(** X21.  Any member of the organization, whatever the role, can write an
    EHR record for a patient of the organization; the record names the
    caller as its doctor, and the caller can edit it afterwards.  For a
    patient of another organization nothing is written. *)
Theorem X21_author_can_edit db userId user orgId row patientId diagnosis newId :
  users db !! userId = Some user →
  organization db user = Some (orgId, row) →
  (patient_owner db patientId = Some orgId →
   ∃ db1,
     createEHRRecord db userId patientId diagnosis newId
     = (json 201 (EHRRecordBody newId (EHRRecord.mk patientId userId diagnosis)),
        db1)
     ∧ ehrRecords db1 !! newId = Some (EHRRecord.mk patientId userId diagnosis)
     ∧ ∀ diagnosis',
         status (updateEHRRecord db1 userId newId diagnosis').1 = 200%nat)
  ∧ (patient_owner db patientId ≠ Some orgId →
     createEHRRecord db userId patientId diagnosis newId
     = (patient_not_found, db)).
Proof.
  intros Hu Ho. unfold createEHRRecord. rewrite Hu, Ho. simpl.
  rewrite (findFirst_by_id (λ _ p, clinic_in db (Patient.clinicId p) orgId)).
  split.
  - intros Hown. destruct (patient_owner_Some db patientId orgId Hown)
      as (p & Hp & Hin).
    rewrite Hp, Hin. eexists. split; [reflexivity|]. simpl.
    split; [by rewrite lookup_insert_eq|].
    intros diagnosis'. unfold updateEHRRecord. simpl. rewrite Hu.
    unfold organization in *. simpl. rewrite Ho. simpl.
    rewrite (findFirst_by_id (λ k r, patient_in _ (EHRRecord.patientId r) orgId)).
    simpl. rewrite lookup_insert_eq. simpl.
    unfold patient_in. simpl. rewrite Hp.
    unfold clinic_in in *. simpl. rewrite Hin. simpl.
    by rewrite bool_decide_eq_true_2.
  - intros Hother. destruct (patients db !! patientId) as [p|] eqn:Hp; [|done].
    destruct (clinic_in db (Patient.clinicId p) orgId) eqn:Hin; [|done].
    exfalso. apply Hother. unfold patient_owner. rewrite Hp. simpl.
    rewrite clinic_in_owner in Hin. by apply bool_decide_eq_true in Hin.
Qed.

Lemma X21_author_can_edit_witness :
  (∃ db1,
     createEHRRecord Example.db "staff1" "pat2" (Some "sprain") "ehr2"
     = (json 201 (EHRRecordBody "ehr2" (EHRRecord.mk "pat2" "staff1" (Some "sprain"))),
        db1)
     ∧ status (updateEHRRecord db1 "staff1" "ehr2" (Some "fracture")).1 = 200%nat)
  ∧ createEHRRecord Example.db "staff1" "pat3" (Some "sprain") "ehr2"
    = (patient_not_found, Example.db).
Proof.
  split.
  - destruct (X21_author_can_edit Example.db "staff1"
                (User.mk "staff1@north.example" STAFF (Some "org1") true)
                "org1" (Organization.mk "North Practice" None) "pat2"
                (Some "sprain") "ehr2" eq_refl eq_refl) as [Hin _].
    destruct (Hin eq_refl) as (db1 & Hr & _ & Hedit).
    exists db1. split; [exact Hr|apply Hedit].
  - destruct (X21_author_can_edit Example.db "staff1"
                (User.mk "staff1@north.example" STAFF (Some "org1") true)
                "org1" (Organization.mk "North Practice" None) "pat3"
                (Some "sprain") "ehr2" eq_refl eq_refl) as [_ Hout].
    apply Hout. discriminate.
Defined.

(** ** Clinics *)

Section CountPos.
Context {A : Type}.

Lemma count_pos (P : string → A → bool) (m : gmap string A) :
  0 < count P m ↔ ∃ k a, m !! k = Some a ∧ P k a = true.
Proof.
  unfold count. destruct (findMany P m) as [|[k a] l] eqn:E; simpl.
  - split; [lia|]. intros (k & a & H). apply findMany_spec in H.
    rewrite E in H. by apply elem_of_nil in H.
  - split; [intros _|lia]. exists k, a. apply findMany_spec. rewrite E. left.
Qed.
End CountPos.

(** X22.  A clinic of the caller's organization is deleted exactly when no
    patient and no appointment refers to it; otherwise the request is
    refused and the store is unchanged.  Hence deleting never leaves a
    patient or an appointment whose clinic is missing. *)
Theorem X22_clinic_delete_guard db userId user orgId row id c :
  users db !! userId = Some user →
  organization db user = Some (orgId, row) →
  clinics db !! id = Some c →
  Clinic.organizationId c = orgId →
  (clinic_unreferenced db id →
   deleteClinic db userId id
   = (json 200 (MessageBody "Clinic deleted successfully"),
      set_clinics db (delete id (clinics db))))
  ∧ (¬ clinic_unreferenced db id →
     rejected (deleteClinic db userId id).1 = true
     ∧ (deleteClinic db userId id).2 = db)
  ∧ (clinic_refs_ok db → clinic_refs_ok (deleteClinic db userId id).2).
Proof.
  intros Hu Ho Hc Horg. unfold deleteClinic. rewrite Hu, Ho. simpl.
  rewrite (findFirst_by_id (λ _ c, bool_decide (Clinic.organizationId c = orgId))).
  rewrite Hc, (bool_decide_eq_true_2 _ Horg). simpl.
  split; [|split].
  - intros [Hp Ha].
    rewrite (count_zero (λ _ p, bool_decide (Patient.clinicId p = id)))
      by (intros k p Hk; apply bool_decide_eq_false_2; eauto).
    rewrite (count_zero (λ _ a, bool_decide (Appointment.clinicId a = id)))
      by (intros k a Hk; apply bool_decide_eq_false_2; eauto).
    by rewrite bool_decide_eq_false_2 by lia.
  - intros Hrefd.
    case_bool_decide as Hp; [done|]. case_bool_decide as Ha; [done|].
    exfalso. apply Hrefd. split.
    + intros k p Hk Heq. apply Hp, count_pos. exists k, p.
      split; [done|]. by apply bool_decide_eq_true_2.
    + intros k a Hk Heq. apply Ha, count_pos. exists k, a.
      split; [done|]. by apply bool_decide_eq_true_2.
  - intros [Hps Has].
    case_bool_decide as Hp; [done|]. case_bool_decide as Ha; [done|].
    split; simpl.
    + intros k p Hk. rewrite lookup_delete_ne; [by eapply Hps|].
      intros Heq. apply Hp, count_pos. exists k, p.
      split; [done|]. apply bool_decide_eq_true_2. congruence.
    + intros k a Hk. rewrite lookup_delete_ne; [by eapply Has|].
      intros Heq. apply Ha, count_pos. exists k, a.
      split; [done|]. apply bool_decide_eq_true_2. congruence.
Qed.

Lemma X22_clinic_delete_guard_witness :
  rejected (deleteClinic Example.db "admin1" "clinic1").1 = true
  ∧ (deleteClinic Example.db "admin1" "clinic1").2 = Example.db.
Proof.
  destruct (X22_clinic_delete_guard Example.db "admin1"
              (User.mk "admin1@north.example" ADMIN (Some "org1") true)
              "org1" (Organization.mk "North Practice" None) "clinic1"
              (Clinic.mk "North Clinic" "org1") eq_refl eq_refl eq_refl eq_refl)
    as (_ & Hrefd & _).
  apply Hrefd. intros [Hp _]. by eapply (Hp "pat1").
Defined.

Lemma updateClinic_effect db userId id name :
  (updateClinic db userId id name).2 = db
  ∨ (updateClinic db userId id name).2
    = set_clinics db (alter (rename name) id (clinics db)).
Proof.
  unfold updateClinic.
  destruct (users db !! userId) as [user|]; [|by left]. simpl.
  destruct (organization db user) as [[orgId row]|]; [|by left]. simpl.
  destruct (findFirst _ (clinics db)); [by right|by left].
Qed.

Lemma clinic_owner_rename db id name c :
  clinic_owner (set_clinics db (alter (rename name) id (clinics db))) c
  = clinic_owner db c.
Proof.
  unfold clinic_owner. simpl. destruct (decide (c = id)) as [->|Hne].
  - rewrite lookup_alter_eq. by destruct (clinics db !! id).
  - by rewrite lookup_alter_ne.
Qed.

(** X23.  Whatever the request, updating a clinic moves no clinic, patient,
    appointment or EHR record to another organization, and neither adds nor
    removes a clinic. *)
Theorem X23_rename_keeps_tenants db userId id name :
  (∀ kind k, owner (updateClinic db userId id name).2 kind k = owner db kind k)
  ∧ (∀ k, is_Some (clinics (updateClinic db userId id name).2 !! k)
          ↔ is_Some (clinics db !! k)).
Proof.
  destruct (updateClinic_effect db userId id name) as [->| ->]; [done|].
  split.
  - intros kind k.
    destruct kind; unfold owner, patient_owner; simpl;
      repeat (apply option_bind_ext_fun; intros ?);
      try apply clinic_owner_rename.
    all: unfold patient_owner; simpl.
    all: repeat (apply option_bind_ext_fun; intros ?);
      apply clinic_owner_rename.
  - intros k. simpl. destruct (decide (k = id)) as [->|Hne].
    + rewrite lookup_alter_eq. by rewrite fmap_is_Some.
    + by rewrite lookup_alter_ne.
Qed.

(** ** Removing a patient *)

Lemma active_appointment_spec db id now :
  findMany (λ _ a, active_appointment id now a) (appointments db) ≠ []
  ↔ has_active_appointment db id now.
Proof.
  split.
  - intros Hne. destruct (findMany _ _) as [|[k a] l] eqn:E; [done|].
    assert ((k, a) ∈ findMany (λ _ a, active_appointment id now a)
                              (appointments db)) as Hin
      by (rewrite E; left).
    apply findMany_spec in Hin as [Hk Hact]. exists k, a.
    unfold active_appointment, includes in Hact.
    apply andb_true_iff in Hact as [Hact Hst].
    apply andb_true_iff in Hact as [Hpat Hdate].
    apply bool_decide_eq_true in Hpat, Hdate, Hst.
    repeat split; try done.
    apply elem_of_cons in Hst as [->| Hst]; [by left|].
    apply list_elem_of_singleton in Hst as ->. by right.
  - intros (k & a & Hk & Hpat & Hdate & Hst) Hnil.
    assert ((k, a) ∈ findMany (λ _ a, active_appointment id now a)
                              (appointments db)) as Hin.
    { apply findMany_spec. split; [done|].
      unfold active_appointment, includes.
      rewrite !bool_decide_eq_true_2; [done| |done|done].
      destruct Hst as [->| ->]; [left|right; left]. }
    rewrite Hnil in Hin. by apply elem_of_nil in Hin.
Qed.

(** X24.  Whatever the store does on deletion: a patient of the caller's
    organization with an appointment that is still to come and SCHEDULED or
    CONFIRMED is not deleted; a patient of another organization is answered
    404; and a 200 means the patient was the organization's, had no such
    appointment, and the store deleted it. *)
Theorem X24_patient_delete_guard
    (patient_delete : Db → string → option Db)
    db userId user orgId row id now :
  users db !! userId = Some user →
  organization db user = Some (orgId, row) →
  (patient_owner db id = Some orgId → has_active_appointment db id now →
   deletePatient patient_delete db userId id now = (has_active_error, db))
  ∧ (patient_owner db id ≠ Some orgId →
     deletePatient patient_delete db userId id now
     = (json 404 (ErrorBody "Patient not found"), db))
  ∧ (status (deletePatient patient_delete db userId id now).1 = 200%nat →
     patient_owner db id = Some orgId
     ∧ ¬ has_active_appointment db id now
     ∧ patient_delete db id
       = Some (deletePatient patient_delete db userId id now).2).
Proof.
  intros Hu Ho. unfold deletePatient. rewrite Hu, Ho. simpl.
  rewrite (findFirst_by_id (λ _ p, clinic_in db (Patient.clinicId p) orgId)).
  assert (match patients db !! id with
          | Some p => if clinic_in db (Patient.clinicId p) orgId
                      then Some (id, p) else None
          | None => None
          end = None ↔ patient_owner db id ≠ Some orgId) as Hfind.
  { unfold patient_owner. destruct (patients db !! id) as [p|]; [|done].
    rewrite clinic_in_owner. simpl. case_bool_decide; naive_solver. }
  destruct (match patients db !! id with Some _ => _ | None => _ end)
    as [kp|] eqn:E.
  - assert (patient_owner db id = Some orgId) as Hown.
    { destruct (decide (patient_owner db id = Some orgId)) as [|Hn]; [done|].
      apply Hfind in Hn. congruence. }
    split; [|split].
    + intros _ Hact. apply active_appointment_spec in Hact.
      by rewrite (bool_decide_eq_true_2 _ Hact).
    + done.
    + case_bool_decide as Hact; [done|].
      destruct (patient_delete db id) as [db'|] eqn:Hdel; [|done].
      intros _. split; [done|]. split; [|done].
      intros H. by apply active_appointment_spec in H.
  - pose proof (proj1 Hfind eq_refl) as Hn. split; [done|]. split; done.
Qed.

Lemma X24_patient_delete_guard_witness :
  deletePatient Sample.patient_delete Example.db "staff1" "pat1" Example.t0
  = (has_active_error, Example.db)
  ∧ deletePatient Sample.patient_delete Example.db "staff1" "pat3" Example.t0
    = (json 404 (ErrorBody "Patient not found"), Example.db).
Proof.
  destruct (X24_patient_delete_guard Sample.patient_delete Example.db "staff1"
              (User.mk "staff1@north.example" STAFF (Some "org1") true)
              "org1" (Organization.mk "North Practice" None) "pat1" Example.t0
              eq_refl eq_refl) as (Hact & _ & _).
  destruct (X24_patient_delete_guard Sample.patient_delete Example.db "staff1"
              (User.mk "staff1@north.example" STAFF (Some "org1") true)
              "org1" (Organization.mk "North Practice" None) "pat3" Example.t0
              eq_refl eq_refl) as (_ & Hout & _).
  split; [|apply Hout; discriminate].
  apply Hact; [reflexivity|].
  exists "apt1". eexists. split; [reflexivity|].
  split; [reflexivity|]. split; [vm_compute; discriminate|]. by left.
Defined.

(** ** Creating and importing patients *)

Lemma import_one_total orgId st item :
  let st' := import_one orgId st item in
  (length (r_successful st'.1) + length (r_failed st'.1)
   + length (r_duplicates st'.1)
   = S (length (r_successful st.1) + length (r_failed st.1)
        + length (r_duplicates st.1)))%nat
  ∧ (length (r_successful st.1) ≤ length (r_successful st'.1))%nat.
Proof.
  destruct st as [r d], item as [i newId]. unfold import_one.
  destruct (truthy_str (i_name i)), (truthy_str (i_phone i)),
    (truthy_str (i_clinicId i)); simpl; rewrite ?length_app; simpl; try lia.
  destruct (phoneRegex_test _); simpl; rewrite ?length_app; simpl; try lia.
  destruct (findFirst _ (patients d)); simpl; rewrite ?length_app; simpl;
    try lia.
  destruct (findFirst _ (clinics d)); simpl; rewrite ?length_app; simpl; lia.
Qed.

Lemma import_fold_total orgId items : ∀ st,
  let st' := foldl (import_one orgId) st items in
  (length (r_successful st'.1) + length (r_failed st'.1)
   + length (r_duplicates st'.1)
   = length items + (length (r_successful st.1) + length (r_failed st.1)
                     + length (r_duplicates st.1)))%nat.
Proof.
  induction items as [|item items IH]; intros st; simpl; [done|].
  rewrite IH. pose proof (import_one_total orgId st item) as [H _].
  simpl in H. lia.
Qed.

(** X25.  An import of a non-empty array by a member of an organization is
    answered 200 whatever the items are; every item is counted once, as
    successful, failed or duplicate, and the listed errors are the failed
    items. *)
Theorem X25_import_counts_every_item db userId user orgId row items :
  users db !! userId = Some user →
  organization db user = Some (orgId, row) →
  items ≠ [] →
  ∃ s db',
    bulkImportPatients db userId (Some items) = (Success 200 s, db')
    ∧ s_total s = length items
    ∧ (s_successful s + s_failed s + s_duplicates s = s_total s)%nat
    ∧ length (s_errors s) = s_failed s.
Proof.
  intros Hu Ho Hne. unfold bulkImportPatients. rewrite Hu, Ho. simpl.
  destruct items as [|item items]; [done|].
  pose proof (import_fold_total orgId (item :: items)
                (mkImportResults [] [] [], db)) as Htotal.
  destruct (foldl _ _ (item :: items)) as [results db'] eqn:E.
  eexists _, _. split; [reflexivity|]. simpl in *. repeat split; lia.
Qed.

Lemma X25_import_counts_every_item_witness :
  ∃ s db',
    bulkImportPatients Example.db "staff1"
      (Some [(mkImportItem (Some "Kiran") (Some "9000000001") (Some "clinic1"), "pat7");
             (mkImportItem (Some "Asha") (Some "9876543210") (Some "clinic1"), "pat8");
             (mkImportItem (Some "Dev") None (Some "clinic1"), "pat9")])
    = (Success 200 s, db')
    ∧ (s_successful s + s_failed s + s_duplicates s = 3)%nat.
Proof.
  destruct (X25_import_counts_every_item Example.db "staff1"
              (User.mk "staff1@north.example" STAFF (Some "org1") true)
              "org1" (Organization.mk "North Practice" None)
              [(mkImportItem (Some "Kiran") (Some "9000000001") (Some "clinic1"), "pat7");
               (mkImportItem (Some "Asha") (Some "9876543210") (Some "clinic1"), "pat8");
               (mkImportItem (Some "Dev") None (Some "clinic1"), "pat9")]
              eq_refl eq_refl) as (s & db' & Hr & Htotal & Hsum & _).
  - discriminate.
  - exists s, db'. split; [exact Hr|]. rewrite Hsum, Htotal. reflexivity.
Defined.

Lemma createPatient_created db userId b newId body db' :
  createPatient db userId b newId = (json 201 body, db') →
  ∃ user orgId row c,
    users db !! userId = Some user
    ∧ organization db user = Some (orgId, row)
    ∧ findFirst (λ _ p, bool_decide (Patient.phone p = cp_phone b)
                        && clinic_in db (Patient.clinicId p) orgId)
                (patients db) = None
    ∧ clinics db !! cp_clinicId b = Some c
    ∧ Clinic.organizationId c = orgId
    ∧ db' = set_patients db
              (<[newId := Patient.mk (cp_name b) (cp_phone b) (cp_clinicId b)]>
                 (patients db)).
Proof.
  unfold createPatient, invalid_phone_error, json.
  destruct (users db !! userId) as [user|] eqn:Hu; simpl; [|discriminate].
  destruct (organization db user) as [[orgId row]|] eqn:Ho; simpl;
    [|discriminate].
  destruct (phoneRegex_test (cp_phone b)); simpl; [|discriminate].
  destruct (findFirst _ (patients db)) eqn:Hnone; simpl; [discriminate|].
  rewrite (findFirst_by_id (λ _ c, bool_decide (Clinic.organizationId c = orgId))).
  destruct (clinics db !! cp_clinicId b) as [c|] eqn:Hc; simpl; [|discriminate].
  case_bool_decide as Horg; simpl; [|discriminate].
  intros [= _ <-]. by exists user, orgId, row, c.
Qed.

Lemma insert_patient_unique db newId p orgId :
  patients db !! newId = None →
  clinic_owner db (Patient.clinicId p) = Some orgId →
  findFirst (λ _ q, bool_decide (Patient.phone q = Patient.phone p)
                    && clinic_in db (Patient.clinicId q) orgId)
            (patients db) = None →
  phones_unique db →
  phones_unique (set_patients db (<[newId := p]> (patients db))).
Proof.
  intros Hfresh Hown Hnone Huniq k1 k2 p1 p2 o H1 H2 Hphone Ho1 Ho2.
  simpl in H1, H2.
  change (clinic_owner db (Patient.clinicId p1) = Some o) in Ho1.
  change (clinic_owner db (Patient.clinicId p2) = Some o) in Ho2.
  assert (∀ k q, patients db !! k = Some q → Patient.phone q = Patient.phone p →
                 clinic_owner db (Patient.clinicId q) = Some orgId → False)
    as Hclash.
  { intros k q Hk Hq Hoq.
    pose proof (proj1 (findFirst_None _ _) Hnone k q Hk) as Hf.
    simpl in Hf. rewrite clinic_in_owner in Hf.
    by rewrite !bool_decide_eq_true_2 in Hf. }
  destruct (decide (k1 = newId)) as [->|Hn1], (decide (k2 = newId)) as [->|Hn2].
  - done.
  - rewrite lookup_insert_eq in H1. rewrite lookup_insert_ne in H2 by done.
    injection H1 as <-. exfalso. apply (Hclash k2 p2); congruence.
  - rewrite lookup_insert_eq in H2. rewrite lookup_insert_ne in H1 by done.
    injection H2 as <-. exfalso. apply (Hclash k1 p1); congruence.
  - rewrite lookup_insert_ne in H1, H2 by done. by eapply Huniq.
Qed.

(** X26.  After a patient was created (201, under a key no patient had), a
    search for the phone by the same caller finds the new patient, while
    before it found none; and if no two patients of an organization shared
    a phone before, none do afterwards. *)
Theorem X26_create_then_search db userId b newId body db' :
  patients db !! newId = None →
  createPatient db userId b newId = (json 201 body, db') →
  searchPatientByPhone db userId (cp_phone b) = Success 200 None
  ∧ searchPatientByPhone db' userId (cp_phone b)
    = Success 200
        (Some (newId, Patient.mk (cp_name b) (cp_phone b) (cp_clinicId b)))
  ∧ (phones_unique db → phones_unique db').
Proof.
  intros Hfresh Hr.
  destruct (createPatient_created _ _ _ _ _ _ Hr)
    as (user & orgId & row & c & Hu & Ho & Hnone & Hc & Horg & ->).
  assert (clinic_owner db (cp_clinicId b) = Some orgId) as Hown
    by (unfold clinic_owner; rewrite Hc; simpl; congruence).
  split; [|split].
  - unfold searchPatientByPhone. by rewrite Hu, Ho, Hnone.
  - unfold searchPatientByPhone. simpl. rewrite Hu.
    change (organization (set_patients db _) user) with (organization db user).
    rewrite Ho. simpl. f_equal.
    set (new := Patient.mk (cp_name b) (cp_phone b) (cp_clinicId b)).
    set (P := λ (_ : string) p,
                bool_decide (Patient.phone p = cp_phone b)
                && clinic_in db (Patient.clinicId p) orgId).
    change (findFirst P (<[newId := new]> (patients db)) = Some (newId, new)).
    assert (P newId new = true) as Hnew.
    { unfold P. rewrite clinic_in_owner. simpl.
      by rewrite !bool_decide_eq_true_2. }
    destruct (findFirst_is_Some P (<[newId := new]> (patients db)) newId new)
      as [[k a] Hfound]; [by rewrite lookup_insert_eq|done|].
    rewrite Hfound. f_equal.
    apply findFirst_Some in Hfound as [Hk HP].
    destruct (decide (k = newId)) as [->|Hne].
    + rewrite lookup_insert_eq in Hk. congruence.
    + rewrite lookup_insert_ne in Hk by done.
      pose proof (proj1 (findFirst_None _ _) Hnone k a Hk) as Hf.
      unfold P in HP. cbv beta in Hf. congruence.
  - by apply (insert_patient_unique db newId _ orgId).
Qed.

Lemma X26_create_then_search_witness :
  searchPatientByPhone Example.db "staff1" "9000000001" = Success 200 None
  ∧ searchPatientByPhone
      (createPatient Example.db "staff1"
         (mkCreatePatient "Kiran" "9000000001" "clinic1") "pat7").2
      "staff1" "9000000001"
    = Success 200 (Some ("pat7", Patient.mk "Kiran" "9000000001" "clinic1")).
Proof.
  destruct (X26_create_then_search Example.db "staff1"
              (mkCreatePatient "Kiran" "9000000001" "clinic1") "pat7"
              (PatientBody "pat7" (Patient.mk "Kiran" "9000000001" "clinic1"))
              (createPatient Example.db "staff1"
                 (mkCreatePatient "Kiran" "9000000001" "clinic1") "pat7").2
              eq_refl eq_refl) as (Hbefore & Hafter & _).
  split; [exact Hbefore|exact Hafter].
Defined.

Lemma import_one_step orgId r d item :
  (import_one orgId (r, d) item).2 = d
  ∨ ∃ p, (import_one orgId (r, d) item).2
         = set_patients d (<[item.2 := p]> (patients d))
         ∧ clinic_owner d (Patient.clinicId p) = Some orgId
         ∧ findFirst (λ _ q, bool_decide (Patient.phone q = Patient.phone p)
                             && clinic_in d (Patient.clinicId q) orgId)
                     (patients d) = None.
Proof.
  destruct item as [i newId]. unfold import_one.
  destruct (truthy_str (i_name i)) as [name|]; [|by left].
  destruct (truthy_str (i_phone i)) as [phone|]; [|by left].
  destruct (truthy_str (i_clinicId i)) as [clinicId|]; [|by left].
  destruct (phoneRegex_test phone); simpl; [|by left].
  destruct (findFirst _ (patients d)) eqn:Hnone; [by left|].
  rewrite (findFirst_by_id (λ _ c, bool_decide (Clinic.organizationId c = orgId))).
  destruct (clinics d !! clinicId) as [c|] eqn:Hc; simpl; [|by left].
  case_bool_decide as Horg; simpl; [|by left].
  right. exists (Patient.mk name phone clinicId).
  split; [done|]. split; [|done].
  unfold clinic_owner. simpl. rewrite Hc. simpl. congruence.
Qed.

Lemma import_fold_store orgId items : ∀ r d,
  fresh_ids d items.*2 →
  let d' := (foldl (import_one orgId) (r, d) items).2 in
  clinics d' = clinics d
  ∧ (∀ k p, patients d' !! k = Some p →
            patients d !! k = Some p
            ∨ (k ∈ items.*2 ∧ clinic_owner d (Patient.clinicId p) = Some orgId))
  ∧ (∀ k p, patients d !! k = Some p → patients d' !! k = Some p)
  ∧ (phones_unique d → phones_unique d').
Proof.
  induction items as [|item items IH]; intros r d [Hnd Hfresh].
  { simpl. split; [done|]. split; [by left|]. done. }
  rewrite fmap_cons in Hnd, Hfresh |- *. cbn [foldl].
  apply NoDup_cons in Hnd as [Hnotin Hnd].
  pose proof (import_one_step orgId r d item) as Hstep.
  destruct (import_one orgId (r, d) item) as [r1 d1]. simpl in Hstep.
  destruct Hstep as [->|(p & -> & Hown & Hnone)].
  - destruct (IH r1 d) as (Hc & Hin & Hkeep & Huniq).
    { split; [done|]. intros id Hid. apply Hfresh. by right. }
    split; [done|]. split; [|done].
    intros k q Hk. destruct (Hin k q Hk) as [?|[? ?]]; [by left|right].
    split; [by right|done].
  - assert (∀ c, clinic_owner (set_patients d (<[item.2 := p]> (patients d))) c
                 = clinic_owner d c) as Hsame by done.
    destruct (IH r1 (set_patients d (<[item.2 := p]> (patients d))))
      as (Hc & Hin & Hkeep & Huniq).
    { split; [done|]. intros id Hid. simpl.
      rewrite lookup_insert_ne by (intros <-; done).
      apply Hfresh. by right. }
    split; [done|]. split; [|split].
    + intros k q Hk. destruct (Hin k q Hk) as [Hq|[? Hq]].
      * simpl in Hq. destruct (decide (k = item.2)) as [->|Hne].
        -- rewrite lookup_insert_eq in Hq. injection Hq as <-.
           right. split; [by left|done].
        -- rewrite lookup_insert_ne in Hq by done. by left.
      * right. split; [by right|]. by rewrite <- Hsame.
    + intros k q Hk. apply Hkeep. simpl.
      rewrite lookup_insert_ne; [done|].
      intros <-. rewrite Hfresh in Hk; [done|by left].
    + intros Hu. apply Huniq.
      apply (insert_patient_unique d item.2 p orgId); try done.
      apply Hfresh. by left.
Qed.

(** X27.  An import (under keys that are distinct and no patient's yet)
    keeps every patient there was, adds patients only to clinics of the
    caller's organization, touches no clinic, and keeps phones unique per
    organization if they were. *)
Theorem X27_import_stays_in_tenant db userId user orgId row items s db' :
  users db !! userId = Some user →
  organization db user = Some (orgId, row) →
  fresh_ids db items.*2 →
  bulkImportPatients db userId (Some items) = (Success 200 s, db') →
  clinics db' = clinics db
  ∧ (∀ k p, patients db' !! k = Some p →
            patients db !! k = Some p
            ∨ (k ∈ items.*2 ∧ clinic_owner db (Patient.clinicId p) = Some orgId))
  ∧ (∀ k p, patients db !! k = Some p → patients db' !! k = Some p)
  ∧ (phones_unique db → phones_unique db').
Proof.
  intros Hu Ho Hfresh. unfold bulkImportPatients. rewrite Hu, Ho. simpl.
  destruct items as [|item items]; [done|].
  pose proof (import_fold_store orgId (item :: items)
                (mkImportResults [] [] []) db Hfresh) as Hstore.
  destruct (foldl _ _ (item :: items)) as [results d'].
  intros [= _ <-]. exact Hstore.
Qed.

Lemma X27_import_stays_in_tenant_witness :
  let items :=
    [(mkImportItem (Some "Kiran") (Some "9000000001") (Some "clinic1"), "pat7");
     (mkImportItem (Some "Lata") (Some "9000000002") (Some "clinic2"), "pat8")] in
  let db' := (bulkImportPatients Example.db "staff1" (Some items)).2 in
  patients db' !! "pat7" = Some (Patient.mk "Kiran" "9000000001" "clinic1")
  ∧ patients db' !! "pat8" = None
  ∧ ∀ k p, patients db' !! k = Some p →
           patients Example.db !! k = Some p
           ∨ (k ∈ items.*2
              ∧ clinic_owner Example.db (Patient.clinicId p) = Some "org1").
Proof.
  intros items db'. split; [reflexivity|]. split; [reflexivity|].
  destruct (X27_import_stays_in_tenant Example.db "staff1"
              (User.mk "staff1@north.example" STAFF (Some "org1") true)
              "org1" (Organization.mk "North Practice" None) items
              (mkImportSummary 2 1 1 0
                 [(mkImportItem (Some "Lata") (Some "9000000002") (Some "clinic2"),
                   "Invalid clinic selected")])
              db' eq_refl eq_refl) as (_ & Hin & _).
  - split.
    + apply (bool_decide_unpack _). reflexivity.
    + intros id Hid. apply elem_of_cons in Hid as [->|Hid]; [reflexivity|].
      apply list_elem_of_singleton in Hid as ->. reflexivity.
  - reflexivity.
  - exact Hin.
Defined.

(** ** Backups *)

Section Disjoint.
Context {A : Type}.

Lemma findMany_disjoint (P Q : string → A → bool) (m : gmap string A) :
  (∀ k a, P k a = true → Q k a = true → False) →
  ∀ k, k ∈ (findMany P m).*1 → k ∉ (findMany Q m).*1.
Proof.
  intros Hex k HP HQ.
  apply list_elem_of_fmap in HP as ([k1 a1] & -> & HP).
  apply list_elem_of_fmap in HQ as ([k2 a2] & Heq & HQ).
  simpl in Heq. subst k2.
  apply findMany_spec in HP as [H1 HP], HQ as [H2 HQ].
  rewrite H1 in H2. injection H2 as <-. by eapply Hex.
Qed.
End Disjoint.

Lemma nested_keys {A B : Type} (f : string * A → B) (l : list (string * A)) :
  ((λ kv, (kv.1, (kv.2, f kv))) <$> l).*1 = l.*1.
Proof. rewrite <- list_fmap_compose. by apply list_fmap_ext. Qed.

(** Under [doctors_in_tenant], a backup holds users of its organization
    only. *)
Lemma snapshot_users_members db o now s :
  generateLocalBackup db o now = Some s →
  doctors_in_tenant db →
  ∀ k, k ∈ snapshot_users s →
       ∃ u, users db !! k = Some u ∧ User.organizationId u = Some o.
Proof.
  unfold generateLocalBackup. intros H [Happ Hehr] k.
  destruct (organizations db !! o); [|done]. injection H as <-.
  unfold snapshot_users. cbn [s_users s_appointments s_ehrRecords].
  rewrite !elem_of_app. intros [Hk|[Hk|Hk]].
  - apply list_elem_of_fmap in Hk as ([k' u] & -> & Hk).
    apply findMany_spec in Hk as [Hk Ho]. apply bool_decide_eq_true in Ho.
    by exists u.
  - apply list_elem_of_omap in Hk as ([k' [a d]] & Hin & Hd).
    apply list_elem_of_fmap in Hin as ([k0 a0] & [= -> -> ->] & Hin).
    apply findMany_spec in Hin as [Hrow Ho].
    rewrite patient_in_owner in Ho. apply bool_decide_eq_true in Ho.
    destruct (Happ _ _ _ Hrow Ho) as (u & Hu & Huo).
    simpl in Hd. unfold nested_doctor in Hd. rewrite Hu in Hd.
    injection Hd as <-. by exists u.
  - apply list_elem_of_omap in Hk as ([k' [r d]] & Hin & Hd).
    apply list_elem_of_fmap in Hin as ([k0 r0] & [= -> -> ->] & Hin).
    apply findMany_spec in Hin as [Hrow Ho].
    rewrite patient_in_owner in Ho. apply bool_decide_eq_true in Ho.
    destruct (Hehr _ _ _ Hrow Ho) as (u & Hu & Huo).
    simpl in Hd. unfold nested_doctor in Hd. rewrite Hu in Hd.
    injection Hd as <-. by exists u.
Qed.

(** X28.  The backups of two different organizations, taken of the same
    store, share no clinic, patient, appointment, EHR record, add-on row,
    subscription, backup record or invite, and no member of their [users]
    lists.  The doctor nested under an appointment or an EHR record is the
    user the row names, whose organization is not asked: only where the
    rows of each organization's patients name doctors of that organization
    (which [updateAppointment] does not maintain) do the two backups hold
    columns of no common user. *)
Theorem X28_snapshots_disjoint db o1 o2 now1 now2 s1 s2 :
  generateLocalBackup db o1 now1 = Some s1 →
  generateLocalBackup db o2 now2 = Some s2 →
  o1 ≠ o2 →
  (∀ k, k ∈ (s_users s1).*1 → k ∉ (s_users s2).*1)
  ∧ (∀ k, k ∈ (s_clinics s1).*1 → k ∉ (s_clinics s2).*1)
  ∧ (∀ k, k ∈ (s_patients s1).*1 → k ∉ (s_patients s2).*1)
  ∧ (∀ k, k ∈ (s_appointments s1).*1 → k ∉ (s_appointments s2).*1)
  ∧ (∀ k, k ∈ (s_ehrRecords s1).*1 → k ∉ (s_ehrRecords s2).*1)
  ∧ (∀ k, k ∈ (s_organizationAddOns s1).*1 → k ∉ (s_organizationAddOns s2).*1)
  ∧ (∀ k, k ∈ (s_subscriptions s1).*1 → k ∉ (s_subscriptions s2).*1)
  ∧ (∀ k, k ∈ (s_backups s1).*1 → k ∉ (s_backups s2).*1)
  ∧ (∀ k, k ∈ (s_invites s1).*1 → k ∉ (s_invites s2).*1)
  ∧ (∀ k a d, (k, (a, d)) ∈ s_appointments s1 →
              d = nested_doctor db (Appointment.doctorId a))
  ∧ (∀ k r d, (k, (r, d)) ∈ s_ehrRecords s1 →
              d = nested_doctor db (EHRRecord.doctorId r))
  ∧ (doctors_in_tenant db →
     ∀ k, k ∈ snapshot_users s1 → k ∉ snapshot_users s2).
Proof.
  intros H1 H2 Hne.
  assert (doctors_in_tenant db →
          ∀ k, k ∈ snapshot_users s1 → k ∉ snapshot_users s2) as Husers.
  { intros Hinv k Hk1 Hk2.
    destruct (snapshot_users_members db o1 now1 s1 H1 Hinv k Hk1) as (u1 & Hu1 & Ho1).
    destruct (snapshot_users_members db o2 now2 s2 H2 Hinv k Hk2) as (u2 & Hu2 & Ho2).
    congruence. }
  unfold generateLocalBackup in H1, H2.
  destruct (organizations db !! o1); [|done].
  destruct (organizations db !! o2); [|done].
  injection H1 as <-. injection H2 as <-. cbn [s_users s_clinics s_patients
    s_appointments s_ehrRecords s_organizationAddOns s_subscriptions s_backups
    s_invites] in *.
  rewrite !nested_keys.
  repeat split; try exact Husers.
  10: { intros k a d Hin.
        by apply list_elem_of_fmap in Hin as ([k0 a0] & [= -> -> ->] & _). }
  10: { intros k r d Hin.
        by apply list_elem_of_fmap in Hin as ([k0 r0] & [= -> -> ->] & _). }
  all: apply findMany_disjoint; intros k a Ha Hb;
    rewrite ?clinic_in_owner, ?patient_in_owner in Ha, Hb;
    apply bool_decide_eq_true in Ha, Hb; congruence.
Qed.

Lemma Example_doctors_in_tenant : doctors_in_tenant Example.db.
Proof.
  split.
  - intros k a o Hk Ho. unfold Example.db in Hk. simpl in Hk.
    repeat (apply lookup_insert_Some in Hk as [[<- <-]|[_ Hk]];
            [eexists; split; [reflexivity|];
             vm_compute in Ho; by injection Ho as <-|]).
    by rewrite lookup_empty in Hk.
  - intros k r o Hk Ho. unfold Example.db in Hk. simpl in Hk.
    repeat (apply lookup_insert_Some in Hk as [[<- <-]|[_ Hk]];
            [eexists; split; [reflexivity|];
             vm_compute in Ho; by injection Ho as <-|]).
    by rewrite lookup_empty in Hk.
Qed.

Lemma X28_snapshots_disjoint_witness :
  ∃ s1 s2,
    generateLocalBackup Example.db "org1" Example.t0 = Some s1
    ∧ generateLocalBackup Example.db "org2" Example.t0 = Some s2
    ∧ "doc1" ∈ snapshot_users s1
    ∧ "doc1" ∉ snapshot_users s2.
Proof.
  eexists _, _. split; [reflexivity|]. split; [reflexivity|].
  destruct (X28_snapshots_disjoint Example.db "org1" "org2" Example.t0 Example.t0
              _ _ eq_refl eq_refl)
    as (_ & _ & _ & _ & _ & _ & _ & _ & _ & _ & _ & Husers); [discriminate|].
  assert ("doc1" ∈ snapshot_users
            (default (mkSnapshot ("", Organization.mk "" None) [] [] [] [] [] []
                        [] [] [] 0 "")
               (generateLocalBackup Example.db "org1" Example.t0))) as Hin.
  { apply (bool_decide_unpack _). vm_compute. reflexivity. }
  split; [exact Hin|].
  apply (Husers Example_doctors_in_tenant). exact Hin.
Defined.

(** An appointment of [org1] that names [doc3] of [org2], as an update may
    write it: the backup of [org1] then holds [doc3], whom the backup of
    [org2] lists as a member. *)
Example backup_names_foreign_doctor :
  ∃ db' s1 s2,
    updateAppointment Example.db "admin1" "apt1"
      (mkUpdateAppointment None (Some "doc3") None None None None None)
      Example.t0
    = (json 200 (AppointmentBody "apt1"
         (Appointment.mk "pat1" "doc3" "clinic1"
            (Example.t0 + 600 * Example.minute) 30 None SCHEDULED)), db')
    ∧ generateLocalBackup db' "org1" Example.t0 = Some s1
    ∧ generateLocalBackup db' "org2" Example.t0 = Some s2
    ∧ "doc3" ∈ snapshot_users s1
    ∧ "doc3" ∈ snapshot_users s2.
Proof.
  eexists _, _, _. split; [reflexivity|]. split; [reflexivity|].
  split; [reflexivity|].
  split; apply (bool_decide_unpack _); vm_compute; reflexivity.
Qed.

Lemma js_or_num n : js_or (JNum n) (JNum 0) = JNum n.
Proof.
  unfold js_or, truthy. case_bool_decide as Hz; simpl; [by rewrite Hz|done].
Qed.

(** X29.  A restore whose payload has an organization and arrays of
    patients and appointments is answered 200 and reports the sizes of the
    arrays as restored (0 EHR records when the key is missing), while the
    patients, appointments and EHR records of the store are as before. *)
Theorem X29_restore_reports_but_writes_no_record
    (stringify : Snapshot → string)
    db userId user orgId row o ps aps now newId :
  users db !! userId = Some user →
  organization db user = Some (orgId, row) →
  truthy o = true →
  ∃ db',
    restoreBackup stringify db userId
      (JObj [("organization", o); ("patients", JArr ps);
             ("appointments", JArr aps)]) now newId
    = (json 200 (RestoredBody "Data restored successfully"
                   (JNum (Z.of_nat (length ps)), JNum (Z.of_nat (length aps)),
                    JNum 0)
                   newId), db')
    ∧ patients db' = patients db
    ∧ appointments db' = appointments db
    ∧ ehrRecords db' = ehrRecords db.
Proof.
  intros Hu Ho Htruthy. unfold restoreBackup. rewrite Hu, Ho. simpl.
  rewrite Htruthy. simpl.
  destruct (organization_Some _ _ _ _ Ho) as [_ Hrow].
  unfold generateLocalBackup. rewrite Hrow. simpl.
  rewrite !js_or_num. eexists. split; [reflexivity|]. done.
Qed.

Lemma X29_restore_reports_but_writes_no_record_witness :
  ∃ db',
    restoreBackup Example.stringify Example.db "admin1" Example.full_format
      Example.t0 "bk1"
    = (json 200 (RestoredBody "Data restored successfully"
                   (JNum 2, JNum 0, JNum 0) "bk1"), db')
    ∧ patients db' = patients Example.db.
Proof.
  destruct (X29_restore_reports_but_writes_no_record Example.stringify
              Example.db "admin1"
              (User.mk "admin1@north.example" ADMIN (Some "org1") true)
              "org1" (Organization.mk "North Practice" None)
              (JObj [("id", JStr "org1")]) [JObj []; JObj []] []
              Example.t0 "bk1" eq_refl eq_refl eq_refl)
    as (db' & Hr & Hp & _).
  exists db'. split; [exact Hr|exact Hp].
Defined.

(** ** Middleware and controllers *)

(** X30.  On a request of a [/:id] route, which has no [params.patientId],
    [verifyPatientAccess] reads [params.id], the id [getPatientById] reads:
    for a member of the organization it lets the request through with a
    patient exactly when the controller answers 200 with that patient, and
    it answers 403 exactly when the controller answers 404.
    [verifyClinicAccess] does not read [params.id]: without
    [params.clinicId] and [body.clinicId] it answers 400, whatever the
    store holds. *)
Theorem X30_middleware_on_id_route db userId user orgId row id body_patientId :
  users db !! userId = Some user →
  organization db user = Some (orgId, row) →
  id ≠ "" →
  (∀ k p, verifyPatientAccess db orgId None (Some id) body_patientId = Next (k, p)
          ↔ getPatientById db userId id = json 200 (PatientBody k p))
  ∧ (verifyPatientAccess db orgId None (Some id) body_patientId
     = Answer (json 403 (ErrorCodeBody "Access denied to this patient"
                                       "PATIENT_ACCESS_DENIED"))
     ↔ getPatientById db userId id = json 404 (ErrorBody "Patient not found"))
  ∧ verifyClinicAccess db orgId None None
    = Answer (json 400 (ErrorCodeBody "Clinic ID required" "CLINIC_ID_REQUIRED")).
Proof.
  intros Hu Ho Hid.
  assert (truthy_str (Some id) = Some id) as Htruthy.
  { unfold truthy_str. by rewrite bool_decide_eq_false_2. }
  unfold verifyPatientAccess, getPatientById, first_truthy.
  rewrite Hu, Ho. cbn [omap list_omap]. rewrite Htruthy. cbn [head].
  cbn [mbind option_bind]. simpl.
  rewrite !(findFirst_by_id (λ _ p, clinic_in db (Patient.clinicId p) orgId)).
  unfold json.
  destruct (patients db !! id) as [p'|]; simpl;
    [destruct (clinic_in db (Patient.clinicId p') orgId); simpl|].
  - split; [|split; [|done]].
    + intros k p. split; intros [= -> ->]; done.
    + split; discriminate.
  - split; [|split; done].
    intros k p. split; discriminate.
  - split; [|split; done].
    intros k p. split; discriminate.
Qed.

Lemma X30_middleware_on_id_route_witness :
  verifyPatientAccess Example.db "org1" None (Some "pat1") None
  = Next ("pat1", Patient.mk "Asha" "9876543210" "clinic1")
  ∧ verifyPatientAccess Example.db "org1" None (Some "pat3") None
    = Answer (json 403 (ErrorCodeBody "Access denied to this patient"
                                      "PATIENT_ACCESS_DENIED")).
Proof.
  split.
  - destruct (X30_middleware_on_id_route Example.db "staff1"
                (User.mk "staff1@north.example" STAFF (Some "org1") true)
                "org1" (Organization.mk "North Practice" None) "pat1" None
                eq_refl eq_refl) as (Hp & _ & _); [discriminate|].
    apply Hp. reflexivity.
  - destruct (X30_middleware_on_id_route Example.db "staff1"
                (User.mk "staff1@north.example" STAFF (Some "org1") true)
                "org1" (Organization.mk "North Practice" None) "pat3" None
                eq_refl eq_refl) as (_ & Hdenied & _); [discriminate|].
    apply Hdenied. reflexivity.
Defined.
